(** * VecTiles: the PostGIS vector-tile provider of TileStache

    A shallow embedding of [TileStache/Goodies/VecTiles/server.py] and the
    properties of its zoom resolution, tolerance computation, query
    builder, feature fetcher and multi-layer composer.

    Conventions of the embedding

    - Python [int] is [Z]; Python [float] is an exact rational [Q]
      (rounding, infinities, NaN and the sign of zero are not modelled).
    - [str] is [string]; [None] in an optional position is [None].
    - A Python exception is a value of [exn]; a call either returns
      ([Ok]) or raises ([Raise]), and keeps every effect it had before
      raising.
    - Lists and sets that the program shares and mutates live in a store
      and are passed by reference ([loc]).
    - Everything outside this file of the repository (the Postgres server,
      shapely, the codecs' constants, the host's [getTile], the [%f]
      rendering of floats) is a field of the environment [Env]. *)

From Stdlib Require Import ZArith QArith Qabs Lqa String Ascii List Lia DecimalString.
From stdpp Require Import base option list gmap sets strings.
From Equations Require Import Equations.

Local Open Scope string_scope.
Local Open Scope list_scope.
Local Open Scope Z_scope.

(** ** Exceptions and results *)

Inductive exn : Type :=
  | IndexError
  | KeyError (key : string)
  | TypeError
  | ValueError (msg : string)
  | UnboundLocalError (var : string)
  | ZeroDivisionError
  | AssertionError (msg : string)
  | Exception (msg : string)
  | KnownUnknown (msg : string)
  | TransactionRollbackError
  | DatabaseError (msg : string)
  | WKBReadingError.

Inductive result (A : Type) : Type :=
  | Ok (a : A)
  | Raise (e : exn).
Arguments Ok {A} a.
Arguments Raise {A} e.

Definition is_ok {A} (r : result A) : bool :=
  match r with Ok _ => true | Raise _ => false end.

(** Code without effects on the world runs in [result]. *)
#[global] Instance result_ret : MRet result := λ A a, Ok a.

#[global] Instance result_bind : MBind result := λ A B f r,
  match r with
  | Ok a => f a
  | Raise e => Raise e
  end.

(** [[f(a) for a in l]] (or [map(f, l)]), left to right. *)
Fixpoint mapR {A B} (f : A → result B) (l : list A) : result (list B) :=
  match l with
  | [] => Ok []
  | a :: l' => b ← f a; bs ← mapR f l'; Ok (b :: bs)
  end.

(** ** Python primitives *)

Module Py.

(** [l[i]] for a list: negative indices count from the end, anything out
    of range is an [IndexError] (here [None]). *)
Definition index {A} (l : list A) (i : Z) : option A :=
  let n := Z.of_nat (length l) in
  if 0 <=? i then l !! Z.to_nat i
  else if - n <=? i then l !! Z.to_nat (n + i)
  else None.

(** [sep.join(l)] *)
Fixpoint join (sep : string) (l : list string) : string :=
  match l with
  | [] => ""
  | x :: xs =>
      match xs with
      | [] => x
      | _ :: _ => x +:+ sep +:+ join sep xs
      end
  end.

(** [s.replace(old, new)] for a non-empty [old]: the occurrences are
    replaced from the left and do not overlap.  [skip] counts the
    characters of a matched occurrence still to be dropped. *)
Fixpoint replace_from (old new : string) (skip : nat) (s : string) : string :=
  match s with
  | EmptyString => EmptyString
  | String c s' =>
      match skip with
      | S k => replace_from old new k s'
      | O =>
          if String.prefix old s
          then new +:+ replace_from old new (pred (String.length old)) s'
          else String c (replace_from old new 0 s')
      end
  end.

Definition replace (old new s : string) : string := replace_from old new 0 s.

(** [s.endswith(suffix)] *)
Definition endswith (s suffix : string) : bool :=
  let n := String.length s in
  let m := String.length suffix in
  (m <=? n)%nat && String.eqb (String.substring (n - m) m s) suffix.

(** [s.lower()] on ASCII letters. *)
Definition lower_ascii (c : ascii) : ascii :=
  let n := nat_of_ascii c in
  if ((65 <=? n) && (n <=? 90))%nat then ascii_of_nat (n + 32) else c.

Fixpoint lower (s : string) : string :=
  match s with
  | EmptyString => EmptyString
  | String c s' => String (lower_ascii c) (lower s')
  end.

(** ['%d' % z] *)
Definition fmt_d (z : Z) : string := NilZero.string_of_int (Z.to_int z).

(** The line feed of a multi-line literal, and the double quote. *)
Definition nl : string := String (ascii_of_nat 10) "".
Definition dq : string := String (ascii_of_nat 34) "".

(** Truth value of a [str]-or-[None]: [None] and [''] are false. *)
Definition truthy_str (s : option string) : bool :=
  match s with
  | Some s => negb (String.eqb s "")
  | None => false
  end.

(** Truth value of a number-or-[None]: [None] and zero are false. *)
Definition truthy_num (q : option Q) : bool :=
  match q with
  | Some q => negb (Qeq_bool q 0)
  | None => false
  end.

End Py.

(** ** Data model *)

(** A value of a result row: SQL NULL, or a scalar. *)
Inductive pyval : Type :=
  | PNone
  | PInt (z : Z)
  | PStr (s : string)
  | PBuf (b : string).

(** [bytes(v)] (Python 2: the [str] of the value). *)
Definition py_bytes (v : pyval) : string :=
  match v with
  | PNone => "None"
  | PInt z => Py.fmt_d z
  | PStr s => s
  | PBuf b => b
  end.

Definition is_None (v : pyval) : bool :=
  match v with PNone => true | _ => false end.

(** A row of a [RealDictCursor]: column name to value. *)
Abbreviation Row := (gmap string pyval).

(** What [db.execute] leaves in the cursor: the description of the result
    columns and the rows of [fetchall]. *)
Record Answer : Type := mkAnswer {
  description : list string;
  fetchall : list Row;
}.

(** A feature: the tuple [(wkb, props, id)]. *)
Record Feature : Type := mkFeature {
  f_wkb : string;
  f_props : gmap string pyval;
  f_id : pyval;
}.

(** [ModestMaps.Core.Coordinate] and [ModestMaps.Core.Point]. *)
Module Coordinate.
Record t : Type := mk {
  row : Z;
  column : Z;
  zoom : Z;
}.

Definition down (c : t) : t := mk (row c + 1) (column c) (zoom c).
Definition right (c : t) : t := mk (row c) (column c + 1) (zoom c).
End Coordinate.

Module Point.
Record t : Type := mk {
  x : Q;
  y : Q;
}.
End Point.

(** [bounds]: the 4-tuple [(xmin, ymin, xmax, ymax)]. *)
Definition Bounds : Type := Q * Q * Q * Q.

Definition b0 (b : Bounds) : Q := b.1.1.1.
Definition b1 (b : Bounds) : Q := b.1.1.2.
Definition b2 (b : Bounds) : Q := b.1.2.
Definition b3 (b : Bounds) : Q := b.2.

(** A parsed JSON document, as [json.loads] returns it. *)
#[warnings="-register-all"]
Inductive json : Type :=
  | JNull
  | JBool (b : bool)
  | JNumber (q : Q)
  | JString (s : string)
  | JArray (items : list json)
  | JObject (members : list (string * json)).

(** ** The environment: what the module imports and talks to *)

Record Env : Type := mkEnv {
  (** ['%.<n>f' % x] *)
  fmt : nat → Q → string;
  (** The server's answer to the [k]-th [db.execute] of the process
      (counted from 0), given the query text. *)
  db : nat → string → result Answer;
  (** [shapely.wkb.loads(wkb).__geo_interface__['type']] *)
  loads : string → result string;
  (** [layer.projection.coordinateProj] and [layer.name()] *)
  coordinateProj : Coordinate.t → Point.t;
  layer_name : string;
  (** [SphericalMercator().projLocation]: the [(lon, lat)] of a point *)
  projLocation : Point.t → Q * Q;
  (** The constants of the two codec modules. *)
  oscimap_padding : Q;
  oscimap_extents : Q;
  mapbox_padding : Q;
  mapbox_extents : Q;
  (** [config.layers.keys()], the host's [getTile] (by layer name) and
      [json.loads]. *)
  config_layers : gset string;
  getTile : string → Coordinate.t → string → bool → bool → result (string * string);
  json_loads : string → result json;
  (** ['%s' % v] for a parsed JSON value that is not a string. *)
  repr_json : json → string;
}.

(** ** The store and the world *)

Definition loc : Type := nat.

Record World : Type := mkWorld {
  (** list objects and set objects, by reference *)
  lists : gmap loc (list string);
  sets : gmap loc (gset string);
  (** [self.columns] of the provider: geometry text to a set object *)
  columns_cache : gmap string loc;
  (** every query text given to [db.execute], oldest first *)
  executed : list string;
  (** every [wkb] given to [loads], oldest first *)
  decoded : list string;
  (** lines printed *)
  stdout : list string;
}.

Definition set_lists (f : gmap loc (list string) → gmap loc (list string)) (w : World) : World :=
  mkWorld (f (lists w)) (sets w) (columns_cache w) (executed w) (decoded w) (stdout w).

Definition set_sets (f : gmap loc (gset string) → gmap loc (gset string)) (w : World) : World :=
  mkWorld (lists w) (f (sets w)) (columns_cache w) (executed w) (decoded w) (stdout w).

Definition set_columns_cache (f : gmap string loc → gmap string loc) (w : World) : World :=
  mkWorld (lists w) (sets w) (f (columns_cache w)) (executed w) (decoded w) (stdout w).

Definition set_executed (f : list string → list string) (w : World) : World :=
  mkWorld (lists w) (sets w) (columns_cache w) (f (executed w)) (decoded w) (stdout w).

Definition set_decoded (f : list string → list string) (w : World) : World :=
  mkWorld (lists w) (sets w) (columns_cache w) (executed w) (f (decoded w)) (stdout w).

Definition set_stdout (f : list string → list string) (w : World) : World :=
  mkWorld (lists w) (sets w) (columns_cache w) (executed w) (decoded w) (f (stdout w)).

Definition empty_world : World := mkWorld ∅ ∅ ∅ [] [] [].

(** ** The monad of the program: state and exceptions *)

Definition M (A : Type) : Type := World → result A * World.

#[global] Instance M_ret : MRet M := λ A a w, (Ok a, w).

#[global] Instance M_bind : MBind M := λ A B f m w,
  match m w with
  | (Ok a, w') => f a w'
  | (Raise e, w') => (Raise e, w')
  end.

Definition raise {A} (e : exn) : M A := λ w, (Raise e, w).

Definition get_world : M World := λ w, (Ok w, w).

Definition modify (f : World → World) : M unit := λ w, (Ok tt, f w).

(** [o] where [None] stands for the exception [e]. *)
Definition or_raise {A} (o : option A) (e : exn) : M A :=
  match o with
  | Some a => mret a
  | None => raise e
  end.

(** [try: m except IndexError: h] *)
Definition except_IndexError {A} (m h : M A) : M A := λ w,
  match m w with
  | (Raise IndexError, w') => h w'
  | r => r
  end.

(** Reading a local variable of the running function: a name that an
    assignment of the function binds, read before that assignment has run,
    is an [UnboundLocalError]. *)
Definition read_local {A} (name : string) (v : option A) : M A :=
  or_raise v (UnboundLocalError name).

(** *** Objects of the store *)

Definition new_list (l : list string) : M loc := λ w,
  let a := fresh (dom (lists w)) in
  (Ok a, set_lists (insert a l) w).

Definition read_list (a : loc) : M (list string) :=
  w ← get_world; or_raise (lists w !! a) TypeError.

(** [a.append(item)] *)
Definition list_append (a : loc) (item : string) : M unit :=
  l ← read_list a; modify (set_lists (insert a (l ++ [item]))).

Definition new_set (s : gset string) : M loc := λ w,
  let c := fresh (dom (sets w)) in
  (Ok c, set_sets (insert c s) w).

Definition read_set (c : loc) : M (gset string) :=
  w ← get_world; or_raise (sets w !! c) TypeError.

(** [c.add(item)] *)
Definition set_add (c : loc) (item : string) : M unit :=
  s ← read_set c; modify (set_sets (insert c (s ∪ {[item]}))).

(** [db.execute(query)] inside [with Connection(dbinfo) as db]: the text is
    recorded, the server answers, and an error of the server is raised
    here.  Opening and closing the connection are not modelled. *)
Definition db_execute (E : Env) (query : string) : M Answer := λ w,
  let k := length (executed w) in
  (db E k query, set_executed (λ log, log ++ [query]) w).

(** [x / d] on floats *)
Definition py_div (x d : Q) : M Q :=
  if Qeq_bool d 0 then raise ZeroDivisionError else mret (x / d)%Q.

(** ** Module constants *)

(** [6378137 * 2 * pi], the double nearest to the circumference. *)
Definition circumference : Q := (5378777689100435 # 134217728)%Q.

(** [tolerances = [6378137 * 2 * pi / (2 ** (zoom + 8)) for zoom in range(22)]] *)
Definition tolerances : list Q :=
  map (λ zoom : nat, (circumference / inject_Z (2 ^ (Z.of_nat zoom + 8)))%Q) (seq 0 22).

Definition module_name : string := "TileStache.Goodies.VecTiles.server".

(** ** The query builder *)

(** The format strings of [build_query] and [query_columns]. *)
Definition sql_box (E : Env) (digits : nat) (xmin ymin xmax ymax : Q) : string :=
  "ST_MakeBox2D(ST_MakePoint(" +:+ fmt E digits xmin +:+ ", " +:+ fmt E digits ymin
    +:+ "), ST_MakePoint(" +:+ fmt E digits xmax +:+ ", " +:+ fmt E digits ymax +:+ "))".

Definition sql_setsrid (bbox : string) (srid : Z) : string :=
  "ST_SetSRID(" +:+ bbox +:+ ", " +:+ Py.fmt_d srid +:+ ")".

Definition sql_simplify (E : Env) (geom : string) (tolerance : Q) : string :=
  "ST_SimplifyPreserveTopology(" +:+ geom +:+ ", " +:+ fmt E 12 tolerance +:+ ")".

Definition sql_intersection (geom bbox : string) : string :=
  "ST_Intersection(" +:+ geom +:+ ", " +:+ bbox +:+ ")".

Definition sql_transform (geom : string) : string :=
  "ST_Transform(" +:+ geom +:+ ", 4326)".

Definition sql_transscale (E : Env) (geom : string) (dx dy sx sy : Q) : string :=
  "ST_TransScale(" +:+ geom +:+ ", " +:+ fmt E 12 dx +:+ ", " +:+ fmt E 12 dy
    +:+ ", " +:+ fmt E 12 sx +:+ ", " +:+ fmt E 12 sy +:+ ")".

Definition sql_hash_id (geometry : string) : string :=
  "Substr(MD5(ST_AsBinary(" +:+ geometry +:+ ")), 1, 10) AS __id__".

Definition sql_select (attributes geom table geometry bbox : string) : string :=
  "SELECT " +:+ attributes +:+ "," +:+ Py.nl
    +:+ "                     ST_AsBinary(" +:+ geom +:+ ") AS __geometry__" +:+ Py.nl
    +:+ "              FROM " +:+ table +:+ " " +:+ Py.nl
    +:+ "              WHERE " +:+ geometry +:+ " && " +:+ bbox.

(** [build_query]: [attributes] and [columns] are the caller's list and set
    objects. *)
Definition build_query (E : Env) (srid : Z) (table geometry : string)
    (attributes columns : loc) (bounds : Bounds) (tolerance : option Q)
    (is_geo is_clipped : bool) (padding : Q) (scale : option Q) : M string :=
  let bbox := sql_box E 12 (b0 bounds - padding)%Q (b1 bounds - padding)%Q
                           (b2 bounds + padding)%Q (b3 bounds + padding)%Q in
  let bbox := sql_setsrid bbox srid in
  let geom := geometry in
  let geom := match tolerance with
              | Some t => sql_simplify E geom t
              | None => geom
              end in
  let geom := if is_clipped then sql_intersection geom bbox else geom in
  let geom := if is_geo then sql_transform geom else geom in
  geom ← match scale with
          | Some s =>
              if Py.truthy_num scale then
                sx ← py_div s (b2 bounds - b0 bounds)%Q;
                sy ← py_div s (b3 bounds - b1 bounds)%Q;
                mret (sql_transscale E geom (- b0 bounds)%Q (- b1 bounds)%Q sx sy)
              else mret geom
          | None => mret geom
          end;
  cols ← read_set columns;
  if negb (bool_decide ("__geometry__" ∈ cols)) then
    raise (Exception ("There's supposed to be a __geometry__ column. We got "
                        +:+ Py.join "," (elements cols)))
  else
    _ ← (if negb (bool_decide ("__id__" ∈ cols)) then
           _ ← list_append attributes (sql_hash_id geometry);
           set_add columns "__id__"
         else mret tt);
    attrs ← read_list attributes;
    let attributes := Py.join ", " attrs in
    mret (sql_select attributes geom table geometry bbox).

(** ** The column resolver *)

Definition query_columns (E : Env) (dbinfo : gmap string string) (srid : Z)
    (table geometry : string) (attributes : loc) (bounds : Bounds) : M loc :=
  let bbox := sql_box E 6 (b0 bounds) (b1 bounds) (b2 bounds) (b3 bounds) in
  let bbox := sql_setsrid bbox srid in
  attrs ← read_list attributes;
  let columns := Py.join ", " ([geometry +:+ " AS __geometry__"] ++ attrs) in
  let query := "SELECT " +:+ columns +:+ " FROM " +:+ table in
  let query := Py.replace "!bbox!" bbox query in
  answer ← db_execute E (query +:+ Py.nl +:+ " LIMIT 0");
  new_set (list_to_set (description answer)).

(** ** The feature fetcher *)

(** [loads(wkb).__geo_interface__['type']]: the call is recorded. *)
Definition shapely_type (E : Env) (wkb : string) : M string := λ w,
  (loads E wkb, set_decoded (λ log, log ++ [wkb]) w).

(** The attributes of a row that are not [None] (the two internal columns
    are popped before). *)
Definition props_of (row : Row) : gmap string pyval :=
  filter (λ kv : string * pyval, is_None kv.2 = false) row.

(** The body of the loop over the rows: [features] is the list built so
    far, the result is the list after this row. *)
Definition get_features_row (E : Env) (geometry_types : option (gset string))
    (features : list Feature) (row : Row) : M (list Feature) :=
  if negb (bool_decide ("__geometry__" ∈ dom row)) then
    raise (AssertionError "Missing __geometry__ in feature result")
  else if negb (bool_decide ("__id__" ∈ dom row)) then
    raise (AssertionError "Missing __id__ in feature result")
  else
    g ← or_raise (row !! "__geometry__") (KeyError "__geometry__");
    let row := delete "__geometry__" row in
    let wkb := py_bytes g in
    id ← or_raise (row !! "__id__") (KeyError "__id__");
    let row := delete "__id__" row in
    match geometry_types with
    | Some types =>
        geom_type ← shapely_type E wkb;
        if negb (bool_decide (geom_type ∈ types)) then mret features
        else mret (features ++ [mkFeature wkb (props_of row) id])
    | None => mret (features ++ [mkFeature wkb (props_of row) id])
    end.

Fixpoint get_features_rows (E : Env) (geometry_types : option (gset string))
    (features : list Feature) (rows : list Row) : M (list Feature) :=
  match rows with
  | [] => mret features
  | row :: rows' =>
      features' ← get_features_row E geometry_types features row;
      get_features_rows E geometry_types features' rows'
  end.

(** [get_features(dbinfo, query, geometry_types, n_try)]; the recursion of
    the retry ends because [5 - n_try] decreases. *)
Equations? get_features (E : Env) (dbinfo : gmap string string) (query : string)
    (geometry_types : option (gset string)) (n_try : Z) (w : World)
    : result (list Feature) * World by wf (Z.to_nat (5 - n_try)) lt :=
  get_features E dbinfo query geometry_types n_try w with db_execute E query w => {
    | (Raise TransactionRollbackError, w') with Z_ge_dec n_try 5 => {
        | left _ =>
            (Raise TransactionRollbackError,
             set_stdout (λ out, out ++ ["TransactionRollbackError occurred 5 times"]) w')
        | right _ => get_features E dbinfo query geometry_types (n_try + 1) w' }
    | (Raise e, w') => (Raise e, w')
    | (Ok answer, w') => get_features_rows E geometry_types [] (fetchall answer) w' }.
Proof. lia. Qed.

(** ** Responses *)

(** The call a [save] makes on its codec (the sink [out] is left out). *)
Inductive codec_call : Type :=
  | mvt_encode (features : list Feature)
  | geojson_encode (features : list Feature) (zoom : Z) (clip : bool)
  | topojson_encode (features : list Feature) (lonlat : Q * Q * Q * Q) (clip : bool)
  | oscimap_encode (features : list Feature) (coord : option Coordinate.t)
      (layer_name : option string)
  | mapbox_encode (features : list Feature) (coord : option Coordinate.t)
      (layer_name : option string)
  | geojson_merge (names : list string) (tiles : list json) (coord : Coordinate.t)
  | topojson_merge (names : list string) (tiles : list json) (coord : Coordinate.t).

(** [(ll.lon, ll.lat, ur.lon, ur.lat)] of the two corners of [bounds]. *)
Definition lonlat_bounds (E : Env) (bounds : Bounds) : Q * Q * Q * Q :=
  let ll := projLocation E (Point.mk (b0 bounds) (b1 bounds)) in
  let ur := projLocation E (Point.mk (b2 bounds) (b3 bounds)) in
  (ll.1, ll.2, ur.1, ur.2).

Module Response.

Record t : Type := mk {
  dbinfo : gmap string string;
  table : string;
  geometry : string;
  bounds : Bounds;
  zoom : Z;
  clip : bool;
  coord : Coordinate.t;
  layer_name : string;
  geometry_types : option (gset string);
  query : gmap string string;
}.

(** [Response.__init__] *)
Definition init (E : Env) (dbinfo : gmap string string) (srid : Z)
    (table geometry : string) (attributes columns : loc) (bounds : Bounds)
    (tolerance : option Q) (zoom : Z) (clip : bool) (coord : Coordinate.t)
    (layer_name : string) (geometry_types : option (gset string)) : M t :=
  geo_query ← build_query E srid table geometry attributes columns bounds
                tolerance true clip 0 None;
  merc_query ← build_query E srid table geometry attributes columns bounds
                tolerance false clip 0 None;
  tol ← or_raise (Py.index tolerances (Coordinate.zoom coord)) IndexError;
  oscimap_query ← build_query E srid table geometry attributes columns bounds
                tolerance false clip (oscimap_padding E * tol)%Q
                (Some (oscimap_extents E));
  tol ← or_raise (Py.index tolerances (Coordinate.zoom coord)) IndexError;
  mapbox_query ← build_query E srid table geometry attributes columns bounds
                tolerance false clip (mapbox_padding E * tol)%Q
                (Some (mapbox_extents E));
  mret (mk dbinfo table geometry bounds zoom clip coord layer_name geometry_types
          (<["TopoJSON" := geo_query]> (<["JSON" := geo_query]>
            (<["MVT" := merc_query]> (<["OpenScienceMap" := oscimap_query]>
              (<["Mapbox" := mapbox_query]> ∅)))))).

(** [Response.save] *)
Definition save (E : Env) (self : t) (format : string) : M codec_call :=
  q ← or_raise (query self !! format) (KeyError format);
  features ← get_features E (dbinfo self) q (geometry_types self) 1;
  if String.eqb format "MVT" then mret (mvt_encode features)
  else if String.eqb format "JSON" then
    mret (geojson_encode features (zoom self) (clip self))
  else if String.eqb format "TopoJSON" then
    mret (topojson_encode features (lonlat_bounds E (bounds self)) (clip self))
  else if String.eqb format "OpenScienceMap" then
    mret (oscimap_encode features (Some (coord self)) (Some (layer_name self)))
  else if String.eqb format "Mapbox" then
    mret (mapbox_encode features (Some (coord self)) (Some (layer_name self)))
  else raise (ValueError (format +:+ " is not supported")).

End Response.

Module EmptyResponse.

Record t : Type := mk {
  bounds : Bounds;
}.

(** [EmptyResponse.save] *)
Definition save (E : Env) (self : t) (format : string) : M codec_call :=
  if String.eqb format "MVT" then mret (mvt_encode [])
  else if String.eqb format "JSON" then mret (geojson_encode [] 0 false)
  else if String.eqb format "TopoJSON" then
    mret (topojson_encode [] (lonlat_bounds E (bounds self)) false)
  else if String.eqb format "OpenScienceMap" then mret (oscimap_encode [] None None)
  else if String.eqb format "Mapbox" then mret (mapbox_encode [] None None)
  else raise (ValueError (format +:+ " is not supported")).

End EmptyResponse.

(** What [renderTile] returns: an instance of one of the two classes. *)
Inductive tile : Type :=
  | a_Response (r : Response.t)
  | an_EmptyResponse (r : EmptyResponse.t).

(** ** The provider *)

Module Provider.

(** The fields of a provider; [self.columns], the one field that changes
    after construction, is [columns_cache] of the world. *)
Record t : Type := mk {
  dbinfo : gmap string string;
  clip : bool;
  srid : Z;
  simplify : Q;
  simplify_until : Z;
  suppress_simplification : gset Z;
  geometry_types : option (gset string);
  table : string;
  geometries : list (option string);
  attributes : gmap string loc;
}.

Definition keys : gset string :=
  {[ "host"; "user"; "password"; "database"; "port"; "dbname" ]}.

(** The loop of [__init__] over [enumerate(geometries)], from index [i]
    on; [attributes] is the list of list objects of the configuration. *)
Fixpoint init_loop (attributes : list loc) (i : Z) (rest : list (option string))
    (self_geometries : list (option string)) (self_attributes : gmap string loc)
    : M (list (option string) * gmap string loc) :=
  match rest with
  | [] => mret (self_geometries, self_attributes)
  | None :: rest' =>
      init_loop attributes (i + 1) rest' (self_geometries ++ [None]) self_attributes
  | Some query :: rest' =>
      let self_geometries := self_geometries ++ [Some query] in
      match attributes with
      | [] => init_loop attributes (i + 1) rest' self_geometries self_attributes
      | _ :: _ =>
          a ← or_raise (Py.index attributes
                          (if 1 <? Z.of_nat (length attributes) then i else 0))
                IndexError;
          init_loop attributes (i + 1) rest' self_geometries
            (<[query := a]> self_attributes)
      end
  end.

(** [Provider.__init__] *)
Definition init (dbinfo : gmap string string) (table : string)
    (geometries : list (option string)) (attributes : list loc) (clip : bool)
    (srid : Z) (simplify : Q) (simplify_until : Z)
    (suppress_simplification : list Z) (geometry_types : option (list string))
    : M t :=
  _ ← modify (set_columns_cache (λ _, ∅));
  '(self_geometries, self_attributes) ← init_loop attributes 0 geometries [] ∅;
  mret (mk (filter (λ kv : string * string, kv.1 ∈ keys) dbinfo)
           clip srid simplify simplify_until
           (list_to_set suppress_simplification)
           (list_to_set <$> geometry_types)
           table self_geometries self_attributes).

(** Lines 152-155 of [renderTile]: the geometry of the zoom, or the last
    entry when the zoom is out of range. *)
Definition renderTile_geometry (self : t) (zoom : Z) : M (option string) :=
  except_IndexError
    (or_raise (Py.index (geometries self) zoom) IndexError)
    (or_raise (Py.index (geometries self) (-1)) IndexError).

(** Lines 161-164 of [renderTile]: the tolerance of the zoom. *)
Definition renderTile_tolerance (self : t) (zoom : Z) : M (option Q) :=
  if bool_decide (zoom ∈ suppress_simplification self) then mret None
  else if zoom <? simplify_until self then
    tol ← or_raise (Py.index tolerances zoom) IndexError;
    mret (Some (simplify self * tol)%Q)
  else mret None.

(** Line 157 of [renderTile]: [bounds] is a local variable of the
    function, bound by the assignment of line 168 only; [bounds] is its
    binding where line 157 runs. *)
Definition renderTile_empty (bounds : option Bounds) : M tile :=
  bounds ← read_local "bounds" bounds;
  mret (an_EmptyResponse (EmptyResponse.mk bounds)).

(** Lines 159-175 of [renderTile], for a geometry that is true. *)
Definition renderTile_response (E : Env) (self : t) (coord : Coordinate.t)
    (geometry : string) : M tile :=
  attributes ← match attributes self !! geometry with
                | Some a => mret a
                | None => new_list []
                end;
  tolerance ← renderTile_tolerance self (Coordinate.zoom coord);
  let ll := coordinateProj E (Coordinate.down coord) in
  let ur := coordinateProj E (Coordinate.right coord) in
  let bounds := (Point.x ll, Point.y ll, Point.x ur, Point.y ur) in
  w ← get_world;
  _ ← match columns_cache w !! geometry with
       | None =>
           c ← query_columns E (dbinfo self) (srid self) (table self) geometry
                 attributes bounds;
           modify (set_columns_cache (insert geometry c))
       | Some _ => mret tt
       end;
  w ← get_world;
  columns ← or_raise (columns_cache w !! geometry) (KeyError geometry);
  r ← Response.init E (dbinfo self) (srid self) (table self) geometry attributes
        columns bounds tolerance (Coordinate.zoom coord) (clip self) coord
        (layer_name E) (geometry_types self);
  mret (a_Response r).

(** [Provider.renderTile]; [width], [height] and [srs] are not used. *)
Definition renderTile (E : Env) (self : t) (coord : Coordinate.t) : M tile :=
  geometry ← renderTile_geometry self (Coordinate.zoom coord);
  let bounds : option Bounds := None in
  match geometry with
  | Some g =>
      if negb (Py.truthy_str geometry) then renderTile_empty bounds
      else renderTile_response E self coord g
  | None => renderTile_empty bounds
  end.

(** [Provider.getTypeByExtension] *)
Definition getTypeByExtension (extension : string) : result (string * string) :=
  if String.eqb (Py.lower extension) "mvt" then
    Ok ("application/octet-stream+mvt", "MVT")
  else if String.eqb (Py.lower extension) "json" then Ok ("application/json", "JSON")
  else if String.eqb (Py.lower extension) "topojson" then
    Ok ("application/json", "TopoJSON")
  else if String.eqb (Py.lower extension) "vtm" then Ok ("image/png", "OpenScienceMap")
  else if String.eqb (Py.lower extension) "mapbox" then
    Ok ("application/x-protobuf", "Mapbox")
  else Raise (ValueError (extension +:+ " is not a valid extension")).

End Provider.

(** A layer of the configuration, as far as the composer uses it: the
    [renderTile] and the [geometry_types] of its provider (whatever the
    class of the provider is) and its [name()]. *)
Module Layer.
Record t : Type := mk {
  renderTile : Coordinate.t → M tile;
  geometry_types : option (gset string);
  name : string;
}.
End Layer.

(** ** The multi-layer composer *)

Definition lift {A} (r : result A) : M A := λ w, (r, w).

(** [topo['type']] *)
Definition json_type (topo : json) : result json :=
  match topo with
  | JObject members =>
      match find (λ kv : string * json, String.eqb kv.1 "type") members with
      | Some kv => Ok kv.2
      | None => Raise (KeyError "type")
      end
  | _ => Raise TypeError
  end.

(** [v != s] for a string [s] *)
Definition json_ne_str (v : json) (s : string) : bool :=
  match v with
  | JString s' => negb (String.eqb s' s)
  | _ => true
  end.

(** ['%s' % v] *)
Definition fmt_s (E : Env) (v : json) : string :=
  match v with
  | JString s => s
  | _ => repr_json E v
  end.

Module MultiResponse.

(** [self.config] is the configuration of the environment. *)
Record t : Type := mk {
  names : list string;
  coord : Coordinate.t;
  ignore_cached_sublayers : bool;
}.

Definition expected_type (format : string) : string :=
  if String.eqb (Py.lower format) "json" then "FeatureCollection" else "Topology".

(** The host's [getTile] for the layer of a name. *)
Definition sub_tile (E : Env) (self : t) (format : string) (layer : string)
    : result (string * string) :=
  getTile E layer (coord self) (Py.lower format)
    (ignore_cached_sublayers self) (ignore_cached_sublayers self).

Definition bad_mime_message (name mime : string) : string :=
  module_name +:+ ".get_tiles encountered a non-JSON mime-type in "
    +:+ name +:+ " sub-layer: " +:+ Py.dq +:+ mime +:+ Py.dq.

Definition bad_type_message (E : Env) (format name : string) (type : json) : string :=
  module_name +:+ ".get_tiles encountered a non-"
    +:+ (if String.eqb (Py.lower format) "json" then "Feature" else "Topology")
    +:+ "Collection type in " +:+ name +:+ " sub-layer: "
    +:+ Py.dq +:+ fmt_s E type +:+ Py.dq.

(** [MultiResponse.get_tiles]; a layer is known by its name, and the
    host's [getTile] is the only thing it calls. *)
Definition get_tiles (E : Env) (self : t) (format : string) : result (list json) :=
  let unknown_layers : gset string :=
    list_to_set (names self) ∖ config_layers E in
  if negb (bool_decide (unknown_layers = ∅)) then
    Raise (KnownUnknown
      (module_name +:+ ".get_tiles didn't recognize "
         +:+ Py.join ", " (elements unknown_layers)
         +:+ " when trying to load " +:+ Py.join ", " (names self) +:+ "."))
  else
    let layers := names self in
    responses ← mapR (sub_tile E self format) layers;
    '(mimes, bodies) ← match responses with
                        | [] => Raise (ValueError "need more than 0 values to unpack")
                        | _ :: _ => Ok (fst <$> responses, snd <$> responses)
                        end;
    let bad_mimes :=
      (λ mn : string * string, (mn.2, mn.1)) <$>
        filter (λ mn : string * string, Py.endswith mn.1 "/json" = false)
               (zip mimes (names self)) in
    match bad_mimes with
    | (name, mime) :: _ => Raise (KnownUnknown (bad_mime_message name mime))
    | [] =>
        tiles ← mapR (json_loads E) bodies;
        types ← mapR json_type tiles;
        let bad_types :=
          (λ tn : json * string, (tn.2, tn.1)) <$>
            filter (λ tn : json * string,
                      json_ne_str tn.1 (expected_type format) = true)
                   (zip types (names self)) in
        match bad_types with
        | (name, type) :: _ =>
            Raise (KnownUnknown (bad_type_message E format name type))
        | [] => Ok tiles
        end
    end.

(** The two collection branches of [MultiResponse.save]; [None] for a
    format that another branch of [save] handles. *)
Definition save_collection (E : Env) (self : t) (format : string)
    : option (M codec_call) :=
  if String.eqb format "TopoJSON" then
    Some (tiles ← lift (get_tiles E self format);
          mret (topojson_merge (names self) tiles (coord self)))
  else if String.eqb format "JSON" then
    Some (tiles ← lift (get_tiles E self format);
          mret (geojson_merge (names self) tiles (coord self)))
  else None.

(** What [MultiResponse.save] hands to a merge codec. *)
Inductive merge_call : Type :=
  | collection_merge (call : codec_call)
  | oscimap_merge (feature_layers : list (string * list Feature)) (coord : Coordinate.t)
  | mapbox_merge (feature_layers : list (string * list Feature)) (coord : Coordinate.t).

(** [self.config.layers[name]] *)
Definition config_layer (layers : gmap string Layer.t) (name : string) : result Layer.t :=
  match layers !! name with
  | Some layer => Ok layer
  | None => Raise (KeyError name)
  end.

(** The loop over the layers of the two proprietary branches of [save];
    [key] is the format, [feature_layers] the list built so far. *)
Fixpoint save_layers (E : Env) (key : string) (coord : Coordinate.t)
    (layers : list Layer.t) (feature_layers : list (string * list Feature))
    : M (list (string * list Feature)) :=
  match layers with
  | [] => mret feature_layers
  | layer :: layers' =>
      tile ← Layer.renderTile layer coord;
      match tile with
      | an_EmptyResponse _ => save_layers E key coord layers' feature_layers
      | a_Response r =>
          q ← or_raise (Response.query r !! key) (KeyError key);
          features ← get_features E (Response.dbinfo r) q (Layer.geometry_types layer) 1;
          save_layers E key coord layers'
            (feature_layers ++ [(Layer.name layer, features)])
      end
  end.

(** [MultiResponse.save]; [layers] is [self.config.layers]. *)
Definition save (E : Env) (layers : gmap string Layer.t) (self : t) (format : string)
    : M merge_call :=
  if String.eqb format "TopoJSON" then
    tiles ← lift (get_tiles E self format);
    mret (collection_merge (topojson_merge (names self) tiles (coord self)))
  else if String.eqb format "JSON" then
    tiles ← lift (get_tiles E self format);
    mret (collection_merge (geojson_merge (names self) tiles (coord self)))
  else if String.eqb format "OpenScienceMap" then
    ls ← lift (mapR (config_layer layers) (names self));
    feature_layers ← save_layers E "OpenScienceMap" (coord self) ls [];
    mret (oscimap_merge feature_layers (coord self))
  else if String.eqb format "Mapbox" then
    ls ← lift (mapR (config_layer layers) (names self));
    feature_layers ← save_layers E "Mapbox" (coord self) ls [];
    mret (mapbox_merge feature_layers (coord self))
  else
    raise (ValueError
             (format +:+ " is not supported for responses with multiple layers")).

End MultiResponse.

Module MultiProvider.

(** The fields of a multi-provider; [self.layer.config] is the
    configuration of the environment. *)
Record t : Type := mk {
  names : list string;
  ignore_cached_sublayers : bool;
}.

(** [MultiProvider.renderTile] *)
Definition renderTile (self : t) (coord : Coordinate.t) : MultiResponse.t :=
  MultiResponse.mk (names self) coord (ignore_cached_sublayers self).

(** [MultiProvider.getTypeByExtension] *)
Definition getTypeByExtension (extension : string) : result (string * string) :=
  if String.eqb (Py.lower extension) "json" then Ok ("application/json", "JSON")
  else if String.eqb (Py.lower extension) "topojson" then
    Ok ("application/json", "TopoJSON")
  else if String.eqb (Py.lower extension) "vtm" then Ok ("image/png", "OpenScienceMap")
  else if String.eqb (Py.lower extension) "mapbox" then
    Ok ("application/x-protobuf", "Mapbox")
  else Raise (ValueError (extension +:+ " is not a valid extension for responses with multiple layers")).

End MultiProvider.

(** ** The pipeline of the specification

    Section 4.1 of the specification, steps 1 to 4, as an expression tree:
    the geometry column, wrapped by the transforms that are enabled. *)

Inductive gexpr : Type :=
  | GColumn (geometry : string)
  | GSimplify (e : gexpr) (tolerance : Q)
  | GClip (e : gexpr) (box : Bounds) (srid : Z)
  | GReproject (e : gexpr)
  | GTransScale (e : gexpr) (dx dy sx sy : Q).

Inductive stage : Type := Simplify | Clip | Reproject | TransScale.

(** The transforms of an expression, innermost (applied first) first. *)
Fixpoint stages (e : gexpr) : list stage :=
  match e with
  | GColumn _ => []
  | GSimplify e _ => stages e ++ [Simplify]
  | GClip e _ _ => stages e ++ [Clip]
  | GReproject e => stages e ++ [Reproject]
  | GTransScale e _ _ _ _ => stages e ++ [TransScale]
  end.

(** The PostGIS text of an expression. *)
Fixpoint render (E : Env) (e : gexpr) : string :=
  match e with
  | GColumn geometry => geometry
  | GSimplify e t => sql_simplify E (render E e) t
  | GClip e box srid =>
      sql_intersection (render E e)
        (sql_setsrid (sql_box E 12 (b0 box) (b1 box) (b2 box) (b3 box)) srid)
  | GReproject e => sql_transform (render E e)
  | GTransScale e dx dy sx sy => sql_transscale E (render E e) dx dy sx sy
  end.

(** The bounding box expanded by [padding] on every side. *)
Definition padded (bounds : Bounds) (padding : Q) : Bounds :=
  ((b0 bounds - padding)%Q, (b1 bounds - padding)%Q,
   (b2 bounds + padding)%Q, (b3 bounds + padding)%Q).

Definition spec_pipeline (srid : Z) (geometry : string) (bounds : Bounds)
    (tolerance : option Q) (is_geo is_clipped : bool) (padding : Q)
    (scale : option Q) : gexpr :=
  let e := GColumn geometry in
  let e := match tolerance with Some t => GSimplify e t | None => e end in
  let e := if is_clipped then GClip e (padded bounds padding) srid else e in
  let e := if is_geo then GReproject e else e in
  match scale with
  | Some s =>
      if Py.truthy_num scale
      then GTransScale e (- b0 bounds)%Q (- b1 bounds)%Q
             (s / (b2 bounds - b0 bounds))%Q (s / (b3 bounds - b1 bounds))%Q
      else e
  | None => e
  end.

(** [ST_TransScale(g, dx, dy, sx, sy)] on a point of [g], after the PostGIS
    manual: translate by the deltas, then scale by the factors. *)
Definition trans_scale (dx dy sx sy : Q) (p : Q * Q) : Q * Q :=
  (((p.1 + dx) * sx)%Q, ((p.2 + dy) * sy)%Q).

(** The text of the bounding box that [build_query] filters and clips by. *)
Definition bbox_sql (E : Env) (srid : Z) (bounds : Bounds) (padding : Q) : string :=
  let box := padded bounds padding in
  sql_setsrid (sql_box E 12 (b0 box) (b1 box) (b2 box) (b3 box)) srid.

(** The division of the scale step fails on a box without width or
    height. *)
Definition degenerate (bounds : Bounds) (scale : option Q) : bool :=
  Py.truthy_num scale
    && (Qeq_bool (b2 bounds - b0 bounds) 0 || Qeq_bool (b3 bounds - b1 bounds) 0).

(** [needle in s] for strings. *)
Fixpoint contains (needle s : string) : bool :=
  String.prefix needle s ||
  match s with
  | EmptyString => false
  | String _ s' => contains needle s'
  end.

(** The table of the specification's fallback law: the last entry that is
    not absent, searched from the end. *)
Fixpoint last_present (table : list (option string)) : option string :=
  match table with
  | [] => None
  | slot :: table' =>
      match last_present table' with
      | Some g => Some g
      | None => slot
      end
  end.

(** The feature record of the specification for a row: the geometry bytes,
    the identifier, and the attributes that are not null. *)
Definition row_wkb (row : Row) : string :=
  py_bytes (default PNone (row !! "__geometry__")).

Definition feature_of (row : Row) : Feature :=
  mkFeature (row_wkb row)
    (props_of (delete "__id__" (delete "__geometry__" row)))
    (default PNone (row !! "__id__")).

Definition well_formed (row : Row) : Prop :=
  "__geometry__" ∈ dom row ∧ "__id__" ∈ dom row.

(** The geometry kind of a row is among [types]. *)
Definition kind_in (E : Env) (types : gset string) (row : Row) : bool :=
  match loads E (row_wkb row) with
  | Ok kind => bool_decide (kind ∈ types)
  | Raise _ => false
  end.

(** [msg] names [word]: the word occurs in the message. *)
Definition names_word (msg word : string) : Prop :=
  ∃ before after, msg = before +:+ word +:+ after.

(** ** A concrete environment

    Used to run the program on examples: a decimal rendering of floats, a
    scripted server and fixed constants for the codecs. *)

Definition round_half_even (q : Q) : Z :=
  let n := Qnum q in
  let d := Z.pos (Qden q) in
  let f := n / d in
  let r := n mod d in
  if 2 * r <? d then f
  else if d <? 2 * r then f + 1
  else if Z.even f then f else f + 1.

Definition zero_pad (width : nat) (s : string) : string :=
  string_of_list_ascii (repeat "0"%char (width - String.length s)) +:+ s.

(** ['%.<digits>f' % q] *)
Definition decimal_fmt (digits : nat) (q : Q) : string :=
  let unit := 10 ^ Z.of_nat digits in
  let scaled := round_half_even (Qabs q * inject_Z unit) in
  (if Qlt_le_dec q 0 then "-" else "")
    +:+ Py.fmt_d (scaled / unit) +:+ "." +:+ zero_pad digits (Py.fmt_d (scaled mod unit)).

(** The unit square of tile [(row, column)] stands for the projection;
    [y] falls as the row grows. *)
Definition demo_proj (c : Coordinate.t) : Point.t :=
  Point.mk (inject_Z (Coordinate.column c)) (inject_Z (- Coordinate.row c)).

Definition demo_env (answers : nat → string → result Answer)
    (kinds : string → result string) : Env :=
  {| fmt := decimal_fmt;
     db := answers;
     loads := kinds;
     coordinateProj := demo_proj;
     layer_name := "roads";
     projLocation := λ p, (Point.x p, Point.y p);
     oscimap_padding := 5;
     oscimap_extents := 4096;
     mapbox_padding := 5;
     mapbox_extents := 4096;
     config_layers := ∅;
     getTile := λ _ _ _ _ _, Raise (KeyError "layer");
     json_loads := λ _, Raise (ValueError "No JSON object could be decoded");
     repr_json := λ _, "" |}.

(** A server whose probe sees the geometry column only. *)
Definition geometry_only (k : nat) (query : string) : result Answer :=
  Ok (mkAnswer ["__geometry__"] []).

Definition no_kinds (wkb : string) : result string := Raise WKBReadingError.

(** A store with one attribute list and one column set, both at
    reference 0, and a tile of positive width and height. *)
Definition demo_world (attrs : list string) (cols : gset string) : World :=
  mkWorld {[ 0%nat := attrs ]} {[ 0%nat := cols ]} ∅ [] [] [].

Definition demo_bounds : Bounds := (1, 2, 3, 4)%Q.

Definition quiet_env : Env := demo_env geometry_only no_kinds.

(** A provider with the defaults of [__init__] for everything but its
    table of geometries and its simplification settings. *)
Definition demo_provider (geometries : list (option string)) (simplify_until : Z)
    (suppress : gset Z) : Provider.t :=
  Provider.mk ∅ true 900913 1 simplify_until suppress None "roads" geometries ∅.

(** Two rows of a result: a point and a line, one attribute of the line
    is null. *)
Definition demo_point : Row :=
  {[ "__geometry__" := PBuf "point"; "__id__" := PInt 1; "name" := PStr "a" ]}.

Definition demo_line : Row :=
  {[ "__geometry__" := PBuf "line"; "__id__" := PInt 2; "name" := PNone;
     "lanes" := PInt 2 ]}.

Definition demo_answer : Answer := mkAnswer ["name"; "lanes"] [demo_point; demo_line].

(** A server that always reports a conflict, and one that reports two
    conflicts before it answers. *)
Definition always_conflict (k : nat) (query : string) : result Answer :=
  Raise TransactionRollbackError.

Definition two_conflicts (k : nat) (query : string) : result Answer :=
  if (k <? 2)%nat then Raise TransactionRollbackError else Ok demo_answer.

Definition answers_at_once (k : nat) (query : string) : result Answer :=
  Ok demo_answer.

(** A decoder that tells the two geometries of the example apart. *)
Definition demo_kinds (wkb : string) : result string :=
  if String.eqb wkb "point" then Ok "Point"
  else if String.eqb wkb "line" then Ok "LineString"
  else Raise WKBReadingError.

(** A host with two layers: ["land"] answers a feature collection, and
    ["water"] answers a topology. *)
Definition demo_getTile (layer : string) (coord : Coordinate.t) (extension : string)
    (ignore_cached only_cached : bool) : result (string * string) :=
  if String.eqb layer "land" then Ok ("application/json", "land-tile")
  else if String.eqb layer "water" then Ok ("application/json", "water-tile")
  else Raise (KeyError layer).

Definition demo_json_loads (body : string) : result json :=
  if String.eqb body "land-tile" then
    Ok (JObject [("type", JString "FeatureCollection"); ("features", JArray [])])
  else if String.eqb body "water-tile" then
    Ok (JObject [("type", JString "Topology"); ("objects", JObject [])])
  else Raise (ValueError "No JSON object could be decoded").

Definition host_env : Env :=
  {| fmt := decimal_fmt;
     db := geometry_only;
     loads := no_kinds;
     coordinateProj := demo_proj;
     layer_name := "roads";
     projLocation := λ p, (Point.x p, Point.y p);
     oscimap_padding := 5;
     oscimap_extents := 4096;
     mapbox_padding := 5;
     mapbox_extents := 4096;
     config_layers := {[ "land"; "water" ]};
     getTile := demo_getTile;
     json_loads := demo_json_loads;
     repr_json := λ _, "" |}.

Definition demo_multi (names : list string) : MultiResponse.t :=
  MultiResponse.mk names (Coordinate.mk 0 0 0) false.

(** The attribute list and the world after a call of [build_query] that
    returns, for a caller whose list held [attrs] and whose set held
    [cols]. *)
Definition with_id (geometry : string) (attrs : list string) (cols : gset string)
    : list string :=
  if bool_decide ("__id__" ∈ cols) then attrs else attrs ++ [sql_hash_id geometry].

Definition registered (geometry : string) (attributes columns : loc)
    (attrs : list string) (cols : gset string) (w : World) : World :=
  if bool_decide ("__id__" ∈ cols) then w
  else set_sets (insert columns (cols ∪ {[ "__id__" ]}))
         (set_lists (insert attributes (attrs ++ [sql_hash_id geometry])) w).

(** The text [build_query] returns for an attribute list [attrs]. *)
Definition query_text (E : Env) (srid : Z) (table geometry : string)
    (attrs : list string) (bounds : Bounds) (tolerance : option Q)
    (is_geo is_clipped : bool) (padding : Q) (scale : option Q) : string :=
  sql_select (Py.join ", " attrs)
    (render E (spec_pipeline srid geometry bounds tolerance is_geo is_clipped
                 padding scale))
    table geometry (bbox_sql E srid bounds padding).

(** The query of a format in what [renderTile] returned. *)
Definition query_of (t : result tile) (format : string) : option string :=
  match t with
  | Ok (a_Response r) => Response.query r !! format
  | _ => None
  end.

(** The probe of [query_columns] for a geometry without attributes. *)
Definition probe_text (E : Env) (srid : Z) (table geometry : string)
    (attrs : list string) (bounds : Bounds) : string :=
  Py.replace "!bbox!"
    (sql_setsrid (sql_box E 6 (b0 bounds) (b1 bounds) (b2 bounds) (b3 bounds)) srid)
    ("SELECT " +:+ Py.join ", " ([geometry +:+ " AS __geometry__"] ++ attrs)
       +:+ " FROM " +:+ table)
    +:+ Py.nl +:+ " LIMIT 0".

(** The bounds [renderTile] computes for a tile. *)
Definition tile_bounds (E : Env) (coord : Coordinate.t) : Bounds :=
  let ll := coordinateProj E (Coordinate.down coord) in
  let ur := coordinateProj E (Coordinate.right coord) in
  (Point.x ll, Point.y ll, Point.x ur, Point.y ur).

(** A provider that holds the attribute list at reference 0 for the
    geometry ["way"], and the store with that list. *)
Definition listed_provider : Provider.t :=
  Provider.mk ∅ true 900913 1 16 ∅ None "roads" [Some "way"] {[ "way" := 0%nat ]}.

Definition listed_world : World := mkWorld {[ 0%nat := ["name"] ]} ∅ ∅ [] [] [].

(** A provider built with the default [attributes=[]]. *)
Definition default_provider : Provider.t := demo_provider [Some "way"] 16 ∅.

Definition origin : Coordinate.t := Coordinate.mk 0 0 0.

(** What a provider returns for the same tile asked twice. *)
Definition first_request (self : Provider.t) (w : World) : result tile * World :=
  Provider.renderTile quiet_env self origin w.

Definition second_request (self : Provider.t) (w : World) : result tile * World :=
  Provider.renderTile quiet_env self origin (first_request self w).2.

Definition formats : list string :=
  ["TopoJSON"; "JSON"; "MVT"; "OpenScienceMap"; "Mapbox"].

(** The features a [save] hands to its codec. *)
Definition call_features (call : codec_call) : list Feature :=
  match call with
  | mvt_encode features => features
  | geojson_encode features _ _ => features
  | topojson_encode features _ _ => features
  | oscimap_encode features _ _ => features
  | mapbox_encode features _ _ => features
  | geojson_merge _ _ _ => []
  | topojson_merge _ _ _ => []
  end.

(** The extensions [Provider.getTypeByExtension] knows, in lower case. *)
Definition extensions : list string := ["mvt"; "json"; "topojson"; "vtm"; "mapbox"].

(** Two worlds with the same record of input and output: statements
    executed, geometries decoded, lines printed, and the same column
    cache. *)
Definition same_io (w w' : World) : Prop :=
  executed w' = executed w ∧ decoded w' = decoded w ∧ stdout w' = stdout w ∧
  columns_cache w' = columns_cache w.

(** The dictionary of queries of a response, for the attribute list
    [attrs] and the tolerance of the padding [tol]. *)
Definition query_dict (E : Env) (srid : Z) (table geometry : string)
    (attrs : list string) (bounds : Bounds) (tolerance : option Q) (clip : bool)
    (tol : Q) : gmap string string :=
  let geo_query := query_text E srid table geometry attrs bounds tolerance true clip
                     0 None in
  <["TopoJSON" := geo_query]> (<["JSON" := geo_query]>
    (<["MVT" := query_text E srid table geometry attrs bounds tolerance false clip
                  0 None]>
      (<["OpenScienceMap" := query_text E srid table geometry attrs bounds tolerance
                               false clip (oscimap_padding E * tol)
                               (Some (oscimap_extents E))]>
        (<["Mapbox" := query_text E srid table geometry attrs bounds tolerance
                         false clip (mapbox_padding E * tol)
                         (Some (mapbox_extents E))]> ∅)))).

(** [renderTile]'s tile, from the outcome of [Response.__init__]. *)
Definition as_tile (run : result Response.t * World) : result tile * World :=
  match run with
  | (Ok r, w) => (Ok (a_Response r), w)
  | (Raise e, w) => (Raise e, w)
  end.

(** The list of the configuration that position [k] of the geometries
    reads in [Provider.__init__]: its own when there are several lists,
    the only one otherwise. *)
Definition attributes_index (attributes : list loc) (k : nat) : nat :=
  if (1 <? length attributes)%nat then k else 0%nat.

(** The layer of the configuration that a provider of this module serves
    under [name]: what [MultiResponse.save] reads of it is
    [layer.provider.renderTile], [layer.provider.geometry_types] and
    [layer.name()]. *)
Definition provider_layer (E : Env) (self : Provider.t) (name : string) : Layer.t :=
  Layer.mk (Provider.renderTile E self) (Provider.geometry_types self) name.

(** The PostGIS text of the specification's pipeline, written out call by
    call: the box of a clip as [ST_SetSRID(ST_MakeBox2D(...), srid)], and
    every number in twelve decimals. *)
Definition postgis_box (E : Env) (box : Bounds) (srid : Z) : string :=
  "ST_SetSRID("
    +:+ ("ST_MakeBox2D(ST_MakePoint(" +:+ fmt E 12 (b0 box) +:+ ", "
           +:+ fmt E 12 (b1 box) +:+ "), ST_MakePoint(" +:+ fmt E 12 (b2 box) +:+ ", "
           +:+ fmt E 12 (b3 box) +:+ "))")
    +:+ ", " +:+ Py.fmt_d srid +:+ ")".

Fixpoint postgis (E : Env) (e : gexpr) : string :=
  match e with
  | GColumn geometry => geometry
  | GSimplify e t =>
      "ST_SimplifyPreserveTopology(" +:+ postgis E e +:+ ", " +:+ fmt E 12 t +:+ ")"
  | GClip e box srid =>
      "ST_Intersection(" +:+ postgis E e +:+ ", " +:+ postgis_box E box srid +:+ ")"
  | GReproject e => "ST_Transform(" +:+ postgis E e +:+ ", 4326)"
  | GTransScale e dx dy sx sy =>
      "ST_TransScale(" +:+ postgis E e +:+ ", " +:+ fmt E 12 dx +:+ ", "
        +:+ fmt E 12 dy +:+ ", " +:+ fmt E 12 sx +:+ ", " +:+ fmt E 12 sy +:+ ")"
  end.

(** * Properties *)

(** ** Running the monad *)

Ltac run_M :=
  cbv beta iota zeta delta
    [mbind M_bind mret M_ret raise or_raise get_world modify read_list read_set
     list_append set_add py_div read_local lift];
  cbn [lists sets columns_cache executed decoded stdout
       set_lists set_sets set_columns_cache set_executed set_decoded set_stdout].

Example index_neg : Py.index [10; 20; 30] (-1) = Some 30.
Proof. reflexivity. Qed.

Example index_out : Py.index [10; 20; 30] 3 = None.
Proof. reflexivity. Qed.

Example join_three : Py.join ", " ["a"; "b"; "c"] = "a, b, c".
Proof. reflexivity. Qed.

Example replace_twice :
  Py.replace "!bbox!" "B" "x && !bbox! or !bbox!" = "x && B or B".
Proof. reflexivity. Qed.

Example endswith_json : Py.endswith "application/json" "/json" = true.
Proof. reflexivity. Qed.

Example lower_topo : Py.lower "TopoJSON" = "topojson".
Proof. reflexivity. Qed.

Example fmt_d_srid : Py.fmt_d 900913 = "900913".
Proof. reflexivity. Qed.

Example decimal_fmt_half : decimal_fmt 12 (1 # 2) = "0.500000000000".
Proof. reflexivity. Qed.

(** ** The query builder *)

(** What one call of [build_query] does, by cases on its inputs. *)
Lemma build_query_run E srid table geometry attributes columns bounds tolerance
    is_geo is_clipped padding scale (w : World) attrs cols :
  lists w !! attributes = Some attrs →
  sets w !! columns = Some cols →
  build_query E srid table geometry attributes columns bounds tolerance
      is_geo is_clipped padding scale w =
    if degenerate bounds scale then (Raise ZeroDivisionError, w)
    else if negb (bool_decide ("__geometry__" ∈ cols)) then
      (Raise (Exception ("There's supposed to be a __geometry__ column. We got "
                           +:+ Py.join "," (elements cols))), w)
    else if bool_decide ("__id__" ∈ cols) then
      (Ok (sql_select (Py.join ", " attrs)
             (render E (spec_pipeline srid geometry bounds tolerance is_geo
                          is_clipped padding scale))
             table geometry (bbox_sql E srid bounds padding)), w)
    else
      (Ok (sql_select (Py.join ", " (attrs ++ [sql_hash_id geometry]))
             (render E (spec_pipeline srid geometry bounds tolerance is_geo
                          is_clipped padding scale))
             table geometry (bbox_sql E srid bounds padding)),
       set_sets (insert columns (cols ∪ {[ "__id__" ]}))
         (set_lists (insert attributes (attrs ++ [sql_hash_id geometry])) w)).
Proof.
  intros Ha Hc.
  unfold build_query, degenerate, spec_pipeline, bbox_sql, padded, b0, b1, b2, b3.
  cbn [fst snd Py.truthy_num].
  run_M.
  destruct scale as [s|]; cbn [Py.truthy_num andb negb].
  1: destruct (Qeq_bool s 0); cbn [negb andb].
  2: run_M; destruct (Qeq_bool (_ - _) 0); cbn [orb]; [done|];
     destruct (Qeq_bool (_ - _) 0); cbn [orb]; [done|].
  all: rewrite Hc; destruct (bool_decide ("__geometry__" ∈ cols)); cbn [negb]; [|done].
  all: destruct (bool_decide ("__id__" ∈ cols)); cbn [negb]; rewrite ?Ha; run_M;
       rewrite ?Hc, ?Ha; run_M; rewrite ?lookup_insert_eq;
       destruct tolerance, is_clipped, is_geo; reflexivity.
Qed.

(** The text for a tile of the proprietary formats: simplified, clipped
    to the box padded by 5, scaled to 4096. *)
Example build_query_text :
  (build_query quiet_env 900913 "roads" "way" 0%nat 0%nat demo_bounds
     (Some (1 # 2)%Q) false true 5 (Some 4096%Q)
     (demo_world ["name"] {[ "__geometry__" ]})).1 =
  Ok ("SELECT name, Substr(MD5(ST_AsBinary(way)), 1, 10) AS __id__," +:+ Py.nl
      +:+ "                     ST_AsBinary(ST_TransScale(ST_Intersection("
      +:+ "ST_SimplifyPreserveTopology(way, 0.500000000000), "
      +:+ "ST_SetSRID(ST_MakeBox2D(ST_MakePoint(-4.000000000000, -3.000000000000), "
      +:+ "ST_MakePoint(8.000000000000, 9.000000000000)), 900913)), "
      +:+ "-1.000000000000, -2.000000000000, 2048.000000000000, 2048.000000000000))"
      +:+ " AS __geometry__" +:+ Py.nl
      +:+ "              FROM roads " +:+ Py.nl
      +:+ "              WHERE way && "
      +:+ "ST_SetSRID(ST_MakeBox2D(ST_MakePoint(-4.000000000000, -3.000000000000), "
      +:+ "ST_MakePoint(8.000000000000, 9.000000000000)), 900913)").
Proof. vm_compute. reflexivity. Qed.

Lemma stages_spec_pipeline srid geometry bounds tolerance is_geo is_clipped padding scale :
  stages (spec_pipeline srid geometry bounds tolerance is_geo is_clipped padding scale) =
    (match tolerance with Some _ => [Simplify] | None => [] end)
      ++ (if is_clipped then [Clip] else [])
      ++ (if is_geo then [Reproject] else [])
      ++ (if Py.truthy_num scale then [TransScale] else []).
Proof.
  unfold spec_pipeline.
  destruct scale as [s|]; cbn [Py.truthy_num];
    [destruct (negb (Qeq_bool s 0))|];
    destruct tolerance, is_clipped, is_geo; reflexivity.
Qed.

(** The translate and scale of the scale step send the corners of the
    un-padded box to [0] and [s], and the corners of a padded box past
    them. *)
Lemma trans_scale_bounds (lo hi s p : Q) :
  ~ (hi - lo == 0)%Q →
  ((lo + - lo) * (s / (hi - lo)) == 0)%Q ∧
  ((hi + - lo) * (s / (hi - lo)) == s)%Q ∧
  ((lo < hi)%Q → (0 < s)%Q → (0 < p)%Q →
     ((lo - p + - lo) * (s / (hi - lo)) < 0)%Q ∧
     (s < (hi + p + - lo) * (s / (hi - lo)))%Q).
Proof.
  intros Hne. split; [ring|]. split; [field; exact Hne|].
  intros Hlt Hs Hp.
  assert (Hd : (0 < hi - lo)%Q) by lra.
  assert (Hq : (0 < s / (hi - lo))%Q).
  { apply Qlt_shift_div_l; [exact Hd|]. lra. }
  split.
  - assert (H1 : ((lo - p + - lo) * (s / (hi - lo)) == - (p * (s / (hi - lo))))%Q) by ring.
    rewrite H1. assert (0 < p * (s / (hi - lo)))%Q by (apply Qmult_lt_0_compat; assumption).
    lra.
  - assert (H1 : ((hi + p + - lo) * (s / (hi - lo)) == s + p * (s / (hi - lo)))%Q)
      by (field; exact Hne).
    rewrite H1. assert (0 < p * (s / (hi - lo)))%Q by (apply Qmult_lt_0_compat; assumption).
    lra.
Qed.

(** The text of a pipeline, call by call, is what the format strings of
    [build_query] produce. *)
Lemma render_postgis E (e : gexpr) : render E e = postgis E e.
Proof.
  induction e as [g|e IH t|e IH box srid|e IH|e IH dx dy sx sy];
    cbn [render postgis]; rewrite <- ?IH; reflexivity.
Qed.

(** C4. The text [build_query] returns, written out: the geometry
    expression is the column wrapped, from the inside out, in
    [ST_SimplifyPreserveTopology] (when the tolerance is not null),
    [ST_Intersection] with the box expanded by the padding (when clipping
    is enabled), [ST_Transform] to 4326 (when requested) and [ST_TransScale]
    (when a scale is given), in this fixed nesting order; the translate and
    scale send the corners of the un-padded box to [0] and [scale] on both
    axes, so a point of the padding lies outside [0, scale]. *)
Theorem C4_build_query_pipeline E srid table geometry attributes columns bounds
    tolerance is_geo is_clipped padding scale (w : World) attrs cols :
  lists w !! attributes = Some attrs →
  sets w !! columns = Some cols →
  "__geometry__" ∈ cols →
  degenerate bounds scale = false →
  let e := spec_pipeline srid geometry bounds tolerance is_geo is_clipped
             padding scale in
  build_query E srid table geometry attributes columns bounds tolerance
      is_geo is_clipped padding scale w =
    (Ok ("SELECT " +:+ Py.join ", " (with_id geometry attrs cols) +:+ "," +:+ Py.nl
           +:+ "                     ST_AsBinary(" +:+ postgis E e
           +:+ ") AS __geometry__" +:+ Py.nl
           +:+ "              FROM " +:+ table +:+ " " +:+ Py.nl
           +:+ "              WHERE " +:+ geometry +:+ " && "
           +:+ postgis_box E (padded bounds padding) srid),
     registered geometry attributes columns attrs cols w) ∧
  stages e =
    (match tolerance with Some _ => [Simplify] | None => [] end)
      ++ (if is_clipped then [Clip] else [])
      ++ (if is_geo then [Reproject] else [])
      ++ (if Py.truthy_num scale then [TransScale] else []) ∧
  (∀ s, scale = Some s → Py.truthy_num scale = true →
     (∃ e', e = GTransScale e' (- b0 bounds)%Q (- b1 bounds)%Q
                  (s / (b2 bounds - b0 bounds))%Q (s / (b3 bounds - b1 bounds))%Q) ∧
     let f := trans_scale (- b0 bounds)%Q (- b1 bounds)%Q
                (s / (b2 bounds - b0 bounds))%Q (s / (b3 bounds - b1 bounds))%Q in
     ((f (b0 bounds, b1 bounds)).1 == 0)%Q ∧ ((f (b0 bounds, b1 bounds)).2 == 0)%Q ∧
     ((f (b2 bounds, b3 bounds)).1 == s)%Q ∧ ((f (b2 bounds, b3 bounds)).2 == s)%Q ∧
     ((b0 bounds < b2 bounds)%Q → (b1 bounds < b3 bounds)%Q → (0 < s)%Q →
      (0 < padding)%Q →
      let box := padded bounds padding in
      ((f (b0 box, b1 box)).1 < 0)%Q ∧ ((f (b0 box, b1 box)).2 < 0)%Q ∧
      (s < (f (b2 box, b3 box)).1)%Q ∧ (s < (f (b2 box, b3 box)).2)%Q)).
Proof.
  intros Ha Hc Hg Hd e. split; [|split].
  - rewrite (build_query_run _ _ _ _ _ _ _ _ _ _ _ _ _ _ _ Ha Hc), Hd.
    rewrite (bool_decide_eq_true_2 _ Hg). cbn [negb].
    fold e. rewrite render_postgis. unfold with_id, registered.
    destruct (bool_decide ("__id__" ∈ cols)); reflexivity.
  - apply stages_spec_pipeline.
  - intros s -> Ht.
    unfold degenerate in Hd. rewrite Ht in Hd. cbn [andb] in Hd.
    apply orb_false_elim in Hd as [Hx Hy].
    apply Qeq_bool_neq in Hx, Hy.
    destruct (trans_scale_bounds (b0 bounds) (b2 bounds) s padding Hx) as (X0 & X1 & X2).
    destruct (trans_scale_bounds (b1 bounds) (b3 bounds) s padding Hy) as (Y0 & Y1 & Y2).
    split.
    { subst e. unfold spec_pipeline. rewrite Ht. eauto. }
    cbn [trans_scale fst snd]. repeat split; try assumption.
    all: intros; unfold padded, b0, b1, b2, b3 in *; cbn [fst snd] in *.
    + apply X2; assumption.
    + apply Y2; assumption.
    + apply X2; assumption.
    + apply Y2; assumption.
Qed.

Lemma C4_build_query_pipeline_witness :
  let w := demo_world ["name"] {[ "__geometry__" ]} in
  let e := spec_pipeline 900913 "way" demo_bounds (Some (1 # 2)%Q) false true 5
             (Some 4096%Q) in
  (build_query quiet_env 900913 "roads" "way" 0%nat 0%nat demo_bounds
     (Some (1 # 2)%Q) false true 5 (Some 4096%Q) w).1 =
    Ok ("SELECT name, Substr(MD5(ST_AsBinary(way)), 1, 10) AS __id__," +:+ Py.nl
        +:+ "                     ST_AsBinary(ST_TransScale(ST_Intersection("
        +:+ "ST_SimplifyPreserveTopology(way, 0.500000000000), "
        +:+ "ST_SetSRID(ST_MakeBox2D(ST_MakePoint(-4.000000000000, -3.000000000000), "
        +:+ "ST_MakePoint(8.000000000000, 9.000000000000)), 900913)), "
        +:+ "-1.000000000000, -2.000000000000, 2048.000000000000, 2048.000000000000))"
        +:+ " AS __geometry__" +:+ Py.nl
        +:+ "              FROM roads " +:+ Py.nl
        +:+ "              WHERE way && "
        +:+ "ST_SetSRID(ST_MakeBox2D(ST_MakePoint(-4.000000000000, -3.000000000000), "
        +:+ "ST_MakePoint(8.000000000000, 9.000000000000)), 900913)") ∧
  stages e = [Simplify; Clip; TransScale].
Proof.
  intros w e.
  destruct (C4_build_query_pipeline quiet_env 900913 "roads" "way" 0%nat 0%nat
              demo_bounds (Some (1 # 2)%Q) false true 5 (Some 4096%Q) w
              ["name"] {[ "__geometry__" ]}) as (H1 & H2 & _).
  - reflexivity.
  - reflexivity.
  - apply elem_of_singleton_2. reflexivity.
  - reflexivity.
  - split; [|exact H2].
    rewrite H1. vm_compute. reflexivity.
Defined.

(** ** The zoom resolver *)

Lemma index_out_of_range {A} (l : list A) (i : Z) :
  Z.of_nat (length l) <= i → Py.index l i = None.
Proof.
  intros H. unfold Py.index.
  destruct (Z.leb_spec 0 i); [|lia].
  apply lookup_ge_None. lia.
Qed.

Lemma index_minus_one {A} (l : list A) : Py.index l (-1) = last l.
Proof.
  unfold Py.index. cbn [Z.leb Z.compare].
  rewrite last_lookup.
  destruct l as [|a l]; [reflexivity|].
  destruct (Z.leb_spec (- Z.of_nat (length (a :: l))) (-1)) as [_|H];
    [|cbn [length] in H; lia].
  f_equal. cbn [length]. lia.
Qed.

(** C1, as the code has it.  For a zoom at or beyond the length of the
    table, the geometry resolved by [renderTile] is the last entry of the
    table, absent or not; an empty table has no last entry and the lookup
    raises [IndexError]. *)
Theorem C1_fallback_is_last_entry (self : Provider.t) (zoom : Z) (w : World) :
  Z.of_nat (length (Provider.geometries self)) <= zoom →
  Provider.renderTile_geometry self zoom w =
    (match last (Provider.geometries self) with
     | Some slot => Ok slot
     | None => Raise IndexError
     end, w).
Proof.
  intros H. unfold Provider.renderTile_geometry, except_IndexError.
  rewrite (index_out_of_range _ _ H), index_minus_one.
  destruct (last (Provider.geometries self)); reflexivity.
Qed.

Lemma C1_fallback_is_last_entry_witness :
  Provider.renderTile_geometry (demo_provider [None; Some "way"] 16 ∅) 7 empty_world =
    (Ok (Some "way"), empty_world).
Proof.
  apply (C1_fallback_is_last_entry (demo_provider [None; Some "way"] 16 ∅) 7 empty_world).
  cbn. lia.
Defined.

(** C1, as the claim states it, fails: with the table [["way", None]] and
    zoom 2 the resolved slot is the absent last entry, not the last entry
    that is present. *)
Lemma C1_counterexample :
  let self := demo_provider [Some "way"; None] 16 ∅ in
  Z.of_nat (length (Provider.geometries self)) <= 2 ∧
  last_present (Provider.geometries self) = Some "way" ∧
  (Provider.renderTile_geometry self 2 empty_world).1 = Ok None ∧
  (Provider.renderTile_geometry self 2 empty_world).1
    ≠ Ok (last_present (Provider.geometries self)).
Proof.
  cbn zeta. split; [cbn; lia|]. split; [reflexivity|]. split; [reflexivity|].
  intros H. discriminate H.
Qed.

(** [renderTile] on a slot that is not true: line 157 reads [bounds], which
    line 168 has not bound yet. *)
Lemma renderTile_not_true E (self : Provider.t) (coord : Coordinate.t) (w : World)
    (slot : option string) :
  Provider.renderTile_geometry self (Coordinate.zoom coord) w = (Ok slot, w) →
  Py.truthy_str slot = false →
  Provider.renderTile E self coord w = (Raise (UnboundLocalError "bounds"), w).
Proof.
  intros Hg Ht. unfold Provider.renderTile.
  unfold mbind at 1, M_bind at 1. rewrite Hg.
  destruct slot as [g|]; [|reflexivity].
  rewrite Ht. reflexivity.
Qed.

Lemma renderTile_geometry_world (self : Provider.t) (zoom : Z) (w : World) :
  (Provider.renderTile_geometry self zoom w).2 = w.
Proof.
  unfold Provider.renderTile_geometry, except_IndexError.
  destruct (Py.index (Provider.geometries self) zoom); [reflexivity|].
  destruct (Py.index (Provider.geometries self) (-1)); reflexivity.
Qed.

(** C2, where the code departs from it.  When the slot resolved for the
    zoom is null (or the empty string), [renderTile] issues no database
    call, and returns no empty-tile response either: it raises
    [UnboundLocalError] for [bounds] and leaves the world as it was. *)
Theorem C2_null_slot_raises E (self : Provider.t) (coord : Coordinate.t) (w : World)
    (slot : option string) :
  (Provider.renderTile_geometry self (Coordinate.zoom coord) w).1 = Ok slot →
  Py.truthy_str slot = false →
  Provider.renderTile E self coord w = (Raise (UnboundLocalError "bounds"), w) ∧
  executed (Provider.renderTile E self coord w).2 = executed w.
Proof.
  intros Hg Ht.
  assert (H : Provider.renderTile E self coord w = (Raise (UnboundLocalError "bounds"), w)).
  { apply (renderTile_not_true E self coord w slot); [|exact Ht].
    pose proof (renderTile_geometry_world self (Coordinate.zoom coord) w) as Hw.
    destruct (Provider.renderTile_geometry self (Coordinate.zoom coord) w) as [r w1].
    cbn [fst snd] in Hg, Hw. rewrite Hg, Hw. reflexivity. }
  rewrite H. split; reflexivity.
Qed.

Lemma C2_null_slot_raises_witness :
  let self := demo_provider [None; Some "way"] 16 ∅ in
  let coord := Coordinate.mk 0 0 0 in
  Provider.renderTile quiet_env self coord empty_world
    = (Raise (UnboundLocalError "bounds"), empty_world) ∧
  executed (Provider.renderTile quiet_env self coord empty_world).2 = [].
Proof.
  apply (C2_null_slot_raises quiet_env (demo_provider [None; Some "way"] 16 ∅)
           (Coordinate.mk 0 0 0) empty_world None); reflexivity.
Defined.

(** The codecs [EmptyResponse.save] calls, each with no feature. *)
Lemma EmptyResponse_save_formats E (self : EmptyResponse.t) (w : World) :
  EmptyResponse.save E self "MVT" w = (Ok (mvt_encode []), w) ∧
  EmptyResponse.save E self "JSON" w = (Ok (geojson_encode [] 0 false), w) ∧
  EmptyResponse.save E self "TopoJSON" w =
    (Ok (topojson_encode [] (lonlat_bounds E (EmptyResponse.bounds self)) false), w) ∧
  EmptyResponse.save E self "OpenScienceMap" w = (Ok (oscimap_encode [] None None), w) ∧
  EmptyResponse.save E self "Mapbox" w = (Ok (mapbox_encode [] None None), w).
Proof. repeat split. Qed.

(** ** The tolerance *)

Lemma tolerances_length : length tolerances = 22%nat.
Proof. reflexivity. Qed.

Lemma tolerances_index (zoom : Z) :
  0 <= zoom < 22 →
  Py.index tolerances zoom = Some (circumference / inject_Z (2 ^ (zoom + 8)))%Q.
Proof.
  intros H. unfold Py.index.
  destruct (Z.leb_spec 0 zoom); [|lia].
  unfold tolerances. rewrite list_lookup_fmap, lookup_seq_lt by lia.
  cbn [fmap option_fmap option_map Nat.add]. rewrite Z2Nat.id by lia. reflexivity.
Qed.

(** C6, as the code has it.  The tolerance is null when the zoom is in the
    suppression set, whatever [simplify_until] is; otherwise it is null
    from [simplify_until] on, and below it the product of the simplify
    factor and the entry of the zoom in the table of 22 tolerances; a zoom
    from 22 on has no entry and the lookup raises [IndexError]. *)
Theorem C6_tolerance (self : Provider.t) (zoom : Z) (w : World) :
  (zoom ∈ Provider.suppress_simplification self →
     Provider.renderTile_tolerance self zoom w = (Ok None, w)) ∧
  (zoom ∉ Provider.suppress_simplification self →
     Provider.simplify_until self <= zoom →
     Provider.renderTile_tolerance self zoom w = (Ok None, w)) ∧
  (zoom ∉ Provider.suppress_simplification self →
     zoom < Provider.simplify_until self →
     0 <= zoom < 22 →
     Provider.renderTile_tolerance self zoom w =
       (Ok (Some (Provider.simplify self
                    * (circumference / inject_Z (2 ^ (zoom + 8))))%Q), w)) ∧
  (zoom ∉ Provider.suppress_simplification self →
     zoom < Provider.simplify_until self →
     22 <= zoom →
     Provider.renderTile_tolerance self zoom w = (Raise IndexError, w)).
Proof.
  unfold Provider.renderTile_tolerance. repeat split.
  - intros H. rewrite (bool_decide_eq_true_2 _ H). reflexivity.
  - intros H Hu. rewrite (bool_decide_eq_false_2 _ H).
    destruct (Z.ltb_spec zoom (Provider.simplify_until self)); [lia|reflexivity].
  - intros H Hu Hz. rewrite (bool_decide_eq_false_2 _ H).
    destruct (Z.ltb_spec zoom (Provider.simplify_until self)); [|lia].
    run_M. rewrite (tolerances_index _ Hz). reflexivity.
  - intros H Hu Hz. rewrite (bool_decide_eq_false_2 _ H).
    destruct (Z.ltb_spec zoom (Provider.simplify_until self)); [|lia].
    run_M. rewrite index_out_of_range; [reflexivity|].
    rewrite tolerances_length. lia.
Qed.

Lemma C6_tolerance_witness :
  Provider.renderTile_tolerance (demo_provider [Some "way"] 16 {[ 3 ]}) 3 empty_world
    = (Ok None, empty_world) ∧
  Provider.renderTile_tolerance (demo_provider [Some "way"] 16 {[ 3 ]}) 16 empty_world
    = (Ok None, empty_world) ∧
  Provider.renderTile_tolerance (demo_provider [Some "way"] 16 {[ 3 ]}) 0 empty_world
    = (Ok (Some (1 * (circumference / inject_Z (2 ^ (0 + 8))))%Q), empty_world).
Proof.
  destruct (C6_tolerance (demo_provider [Some "way"] 16 {[ 3 ]}) 3 empty_world)
    as (H1 & _).
  destruct (C6_tolerance (demo_provider [Some "way"] 16 {[ 3 ]}) 16 empty_world)
    as (_ & H2 & _).
  destruct (C6_tolerance (demo_provider [Some "way"] 16 {[ 3 ]}) 0 empty_world)
    as (_ & _ & H3 & _).
  split; [|split].
  - apply H1. cbn. apply elem_of_singleton_2. reflexivity.
  - apply H2; [cbn; intros H%elem_of_singleton; discriminate H | cbn; lia].
  - apply H3; [cbn; intros H%elem_of_singleton; discriminate H | cbn; lia | lia].
Defined.

(** C6, as the claim states it, fails: at zoom 22, not suppressed and below
    a [simplify_until] of 30, there is no tolerance, null or not. *)
Lemma C6_counterexample :
  let self := demo_provider [Some "way"] 30 ∅ in
  (22 ∉ Provider.suppress_simplification self) ∧
  22 < Provider.simplify_until self ∧
  Provider.renderTile_tolerance self 22 empty_world = (Raise IndexError, empty_world).
Proof.
  cbn zeta. split; [|split].
  - cbn. apply not_elem_of_empty.
  - cbn. lia.
  - reflexivity.
Qed.

(** ** The feature fetcher *)

(** One attempt of [get_features]. *)
Lemma get_features_step E dbinfo query geometry_types n_try (w : World) :
  get_features E dbinfo query geometry_types n_try w =
    let w' := set_executed (λ log, log ++ [query]) w in
    match db E (length (executed w)) query with
    | Raise TransactionRollbackError =>
        if Z_ge_dec n_try 5 then
          (Raise TransactionRollbackError,
           set_stdout (λ out, out ++ ["TransactionRollbackError occurred 5 times"]) w')
        else get_features E dbinfo query geometry_types (n_try + 1) w'
    | Raise e => (Raise e, w')
    | Ok answer => get_features_rows E geometry_types [] (fetchall answer) w'
    end.
Proof.
  simp get_features. unfold db_execute. cbn zeta.
  destruct (db E (length (executed w)) query) as [answer|e]; simp get_features;
    [reflexivity|].
  destruct e; simp get_features; try reflexivity.
  destruct (Z_ge_dec n_try 5); simp get_features; reflexivity.
Qed.

Lemma set_executed_app (l1 l2 : list string) (w : World) :
  set_executed (λ log, log ++ l2) (set_executed (λ log, log ++ l1) w)
    = set_executed (λ log, log ++ (l1 ++ l2)) w.
Proof. unfold set_executed. cbn. rewrite <- app_assoc. reflexivity. Qed.

(** [k] conflicts in a row, each on an attempt before the fifth: the same
    text is executed [k] times and the next attempt follows. *)
Lemma get_features_conflicts E dbinfo query geometry_types (k : nat) :
  ∀ (n_try : Z) (w : World),
    n_try + Z.of_nat k <= 5 →
    (∀ i, (i < k)%nat →
       db E (length (executed w) + i) query = Raise TransactionRollbackError) →
    get_features E dbinfo query geometry_types n_try w =
      get_features E dbinfo query geometry_types (n_try + Z.of_nat k)
        (set_executed (λ log, log ++ replicate k query) w).
Proof.
  induction k as [|k IH]; intros n_try w Hn Hdb.
  - replace (n_try + Z.of_nat 0) with n_try by lia.
    f_equal. destruct w. unfold set_executed. cbn. rewrite app_nil_r. reflexivity.
  - rewrite get_features_step. cbn zeta.
    rewrite <- (Nat.add_0_r (length (executed w))), (Hdb 0%nat) by lia.
    destruct (Z_ge_dec n_try 5); [lia|].
    rewrite IH.
    + rewrite set_executed_app. f_equal. lia.
    + lia.
    + intros i Hi. cbn [executed set_executed].
      rewrite length_app. cbn [length].
      replace (length (executed w) + 1 + i)%nat with (length (executed w) + S i)%nat by lia.
      apply Hdb. lia.
Qed.

Lemma length_executed_app (l : list string) (w : World) :
  length (executed (set_executed (λ log, log ++ l) w))
    = (length (executed w) + length l)%nat.
Proof. cbn. apply length_app. Qed.

(** The loop over the rows when every row has its two internal columns and
    no filter is configured: one feature per row, in the order of the rows,
    and nothing else changes. *)
Lemma get_features_row_unfiltered E (features : list Feature) (row : Row) (w : World) :
  well_formed row →
  get_features_row E None features row w = (Ok (features ++ [feature_of row]), w).
Proof.
  intros [Hg Hi]. unfold get_features_row.
  rewrite (bool_decide_eq_true_2 _ Hg), (bool_decide_eq_true_2 _ Hi). cbn [negb].
  apply elem_of_dom in Hg as [g Hg]. apply elem_of_dom in Hi as [i Hi].
  run_M. rewrite Hg. rewrite lookup_delete_ne by discriminate. rewrite Hi.
  unfold feature_of, row_wkb. rewrite Hg, Hi. reflexivity.
Qed.

Lemma get_features_rows_unfiltered E (rows : list Row) :
  ∀ (features : list Feature) (w : World),
    Forall well_formed rows →
    get_features_rows E None features rows w
      = (Ok (features ++ (feature_of <$> rows)), w).
Proof.
  induction rows as [|row rows IH]; intros features w H.
  - cbn. rewrite app_nil_r. reflexivity.
  - apply Forall_cons in H as [Hr H]. cbn [get_features_rows].
    unfold mbind, M_bind. rewrite (get_features_row_unfiltered _ _ _ _ Hr).
    rewrite (IH _ _ H). rewrite <- app_assoc. reflexivity.
Qed.

(** C3. [get_features] executes the identical query text on every attempt,
    five attempts at most: when the fifth attempt ends in a conflict too,
    the conflict is raised; when the attempts before attempt [k + 1] end
    in conflicts and attempt [k + 1] succeeds, the result is what the loop
    over the rows of that attempt alone yields, from an empty list: one
    feature per row of that attempt, in order, when no filter is
    configured. *)
Theorem C3_retry E dbinfo query geometry_types (w : World) :
  ((∀ i, (i < 5)%nat →
      db E (length (executed w) + i) query = Raise TransactionRollbackError) →
   get_features E dbinfo query geometry_types 1 w =
     (Raise TransactionRollbackError,
      set_stdout (λ out, out ++ ["TransactionRollbackError occurred 5 times"])
        (set_executed (λ log, log ++ replicate 5 query) w))) ∧
  (∀ (k : nat) (answer : Answer),
     (k < 5)%nat →
     (∀ i, (i < k)%nat →
        db E (length (executed w) + i) query = Raise TransactionRollbackError) →
     db E (length (executed w) + k) query = Ok answer →
     let w' := set_executed (λ log, log ++ replicate (S k) query) w in
     get_features E dbinfo query geometry_types 1 w =
       get_features_rows E geometry_types [] (fetchall answer) w' ∧
     (geometry_types = None →
      Forall well_formed (fetchall answer) →
      get_features E dbinfo query geometry_types 1 w =
        (Ok (feature_of <$> fetchall answer), w'))).
Proof.
  split.
  - intros Hdb.
    rewrite (get_features_conflicts E dbinfo query geometry_types 4 1 w) by (lia || (intros; apply Hdb; lia)).
    rewrite get_features_step. cbn zeta.
    rewrite length_executed_app, length_replicate, Hdb by lia.
    destruct (Z_ge_dec (1 + Z.of_nat 4) 5); [|lia].
    rewrite set_executed_app. reflexivity.
  - intros k answer Hk Hdb Hok w'.
    assert (Hrun : get_features E dbinfo query geometry_types 1 w =
                   get_features_rows E geometry_types [] (fetchall answer) w').
    { rewrite (get_features_conflicts E dbinfo query geometry_types k 1 w) by (lia || exact Hdb).
      rewrite get_features_step. cbn zeta.
      rewrite length_executed_app, length_replicate, Hok.
      rewrite set_executed_app. subst w'.
      assert (Hr : replicate k query ++ [query] = replicate (S k) query).
      { change [query] with (replicate 1 query). rewrite <- replicate_add.
        f_equal. lia. }
      rewrite Hr. reflexivity. }
    split; [exact Hrun|].
    intros -> Hwf. rewrite Hrun. apply (get_features_rows_unfiltered E _ [] w' Hwf).
Qed.

Ltac has_key := apply elem_of_dom; eexists; vm_compute; reflexivity.

Lemma demo_rows_well_formed : Forall well_formed (fetchall demo_answer).
Proof. repeat constructor; has_key. Qed.

Lemma C3_retry_witness :
  get_features (demo_env always_conflict no_kinds) ∅ "SELECT 1" None 1 empty_world =
    (Raise TransactionRollbackError,
     set_stdout (λ out, out ++ ["TransactionRollbackError occurred 5 times"])
       (set_executed (λ log, log ++ replicate 5 "SELECT 1") empty_world)) ∧
  get_features (demo_env two_conflicts no_kinds) ∅ "SELECT 1" None 1 empty_world =
    (Ok (feature_of <$> [demo_point; demo_line]),
     set_executed (λ log, log ++ replicate 3 "SELECT 1") empty_world).
Proof.
  destruct (C3_retry (demo_env always_conflict no_kinds) ∅ "SELECT 1" None empty_world)
    as [H1 _].
  destruct (C3_retry (demo_env two_conflicts no_kinds) ∅ "SELECT 1" None empty_world)
    as [_ H2].
  split.
  - apply H1. intros i Hi. reflexivity.
  - apply (H2 2%nat demo_answer).
    + lia.
    + intros i Hi. destruct i as [|[|i]]; [reflexivity|reflexivity|lia].
    + reflexivity.
    + reflexivity.
    + exact demo_rows_well_formed.
Defined.

(** The body of the loop with a filter: the geometry is decoded, and the
    row is kept when its kind is in the filter. *)
Lemma get_features_row_filtered E (types : gset string) (features : list Feature)
    (row : Row) (w : World) (kind : string) :
  well_formed row →
  loads E (row_wkb row) = Ok kind →
  get_features_row E (Some types) features row w =
    (Ok (if bool_decide (kind ∈ types) then features ++ [feature_of row] else features),
     set_decoded (λ log, log ++ [row_wkb row]) w).
Proof.
  intros [Hg Hi] Hk. unfold get_features_row.
  rewrite (bool_decide_eq_true_2 _ Hg), (bool_decide_eq_true_2 _ Hi). cbn [negb].
  apply elem_of_dom in Hg as [g Hg]. apply elem_of_dom in Hi as [i Hi].
  run_M. rewrite Hg. rewrite lookup_delete_ne by discriminate. rewrite Hi.
  assert (Hw : row_wkb row = py_bytes g) by (unfold row_wkb; rewrite Hg; reflexivity).
  assert (Hf : feature_of row =
               mkFeature (py_bytes g)
                 (props_of (delete "__id__" (delete "__geometry__" row))) i)
    by (unfold feature_of; rewrite Hw, Hi; reflexivity).
  rewrite Hw in Hk. unfold shapely_type. rewrite Hk, Hf, Hw.
  destruct (bool_decide (kind ∈ types)); reflexivity.
Qed.

Lemma set_decoded_app (l1 l2 : list string) (w : World) :
  set_decoded (λ log, log ++ l2) (set_decoded (λ log, log ++ l1) w)
    = set_decoded (λ log, log ++ (l1 ++ l2)) w.
Proof. unfold set_decoded. cbn. rewrite <- app_assoc. reflexivity. Qed.

Lemma set_decoded_nil (w : World) : set_decoded (λ log, log ++ []) w = w.
Proof. destruct w. unfold set_decoded. cbn. rewrite app_nil_r. reflexivity. Qed.

Lemma get_features_rows_filtered E (types : gset string) (rows : list Row) :
  ∀ (features : list Feature) (w : World),
    Forall well_formed rows →
    Forall (λ row, is_ok (loads E (row_wkb row)) = true) rows →
    get_features_rows E (Some types) features rows w =
      (Ok (features ++ (feature_of <$> filter (λ row, kind_in E types row = true) rows)),
       set_decoded (λ log, log ++ (row_wkb <$> rows)) w).
Proof.
  induction rows as [|row rows IH]; intros features w Hwf Hok.
  - cbn. rewrite app_nil_r, set_decoded_nil. reflexivity.
  - apply Forall_cons in Hwf as [Hr Hwf]. apply Forall_cons in Hok as [Hk Hok].
    destruct (loads E (row_wkb row)) as [kind|] eqn:Hl; [|discriminate Hk].
    cbn [get_features_rows]. unfold mbind, M_bind.
    rewrite (get_features_row_filtered _ _ _ _ _ _ Hr Hl).
    rewrite (IH _ _ Hwf Hok), set_decoded_app. cbn [fmap list_fmap app].
    f_equal. rewrite filter_cons.
    assert (Hkin : kind_in E types row = bool_decide (kind ∈ types))
      by (unfold kind_in; rewrite Hl; reflexivity).
    rewrite Hkin.
    destruct (bool_decide (kind ∈ types)) eqn:Hb.
    + rewrite decide_True by reflexivity. cbn [fmap list_fmap].
      rewrite <- app_assoc. reflexivity.
    + rewrite decide_False by discriminate. reflexivity.
Qed.

(** Without a filter the loop never calls the decoder, whatever it
    returns or raises. *)
Lemma get_features_row_no_filter_world E (features : list Feature) (row : Row) (w : World) :
  (get_features_row E None features row w).2 = w.
Proof.
  unfold get_features_row.
  destruct (bool_decide ("__geometry__" ∈ dom row)); [|reflexivity].
  destruct (bool_decide ("__id__" ∈ dom row)); [|reflexivity].
  cbn [negb]. run_M.
  destruct (row !! "__geometry__"); [|reflexivity].
  destruct (delete "__geometry__" row !! "__id__"); reflexivity.
Qed.

Lemma get_features_rows_no_filter_world E (rows : list Row) :
  ∀ (features : list Feature) (w : World),
    (get_features_rows E None features rows w).2 = w.
Proof.
  induction rows as [|row rows IH]; intros features w; [reflexivity|].
  cbn [get_features_rows]. unfold mbind, M_bind.
  pose proof (get_features_row_no_filter_world E features row w) as Hw.
  destruct (get_features_row E None features row w) as [[fs|e] w1]; cbn [snd] in Hw;
    subst w1; [apply IH | reflexivity].
Qed.

Lemma get_features_no_filter_decoded E dbinfo query (m : nat) :
  ∀ (n_try : Z) (w : World),
    Z.to_nat (5 - n_try) = m →
    decoded (get_features E dbinfo query None n_try w).2 = decoded w.
Proof.
  induction m as [m IH] using lt_wf_ind. intros n_try w Hm.
  rewrite get_features_step. cbn zeta.
  destruct (db E (length (executed w)) query) as [answer|e].
  - rewrite get_features_rows_no_filter_world. reflexivity.
  - destruct e; try reflexivity.
    destruct (Z_ge_dec n_try 5); [reflexivity|].
    rewrite (IH (Z.to_nat (5 - (n_try + 1)))); [reflexivity|lia|reflexivity].
Qed.

(** The attributes of a feature are the attributes of its row that are
    not null. *)
Lemma feature_props (row : Row) (k : string) (v : pyval) :
  f_props (feature_of row) !! k = Some v ↔
  k ≠ "__geometry__" ∧ k ≠ "__id__" ∧ row !! k = Some v ∧ v ≠ PNone.
Proof.
  unfold feature_of, props_of. cbn [f_props].
  rewrite map_lookup_filter_Some. cbn [snd].
  rewrite lookup_delete_Some, lookup_delete_Some.
  split.
  - intros [(Hi & Hg & Hk) Hv]. repeat split; try congruence.
    intros ->. discriminate Hv.
  - intros (Hg & Hi & Hk & Hv). repeat split; try congruence.
    destruct v; [congruence|reflexivity..].
Qed.

Lemma Forall_kind_in E (types : gset string) (rows : list Row) :
  Forall (λ f, ∃ kind, loads E (f_wkb f) = Ok kind ∧ kind ∈ types)
    (feature_of <$> filter (λ row, kind_in E types row = true) rows).
Proof.
  apply Forall_fmap, Forall_forall. intros row Hrow.
  rewrite list_elem_of_filter in Hrow. destruct Hrow as [Hk _]. cbn [compose].
  unfold kind_in in Hk. unfold feature_of. cbn [f_wkb].
  destruct (loads E (row_wkb row)) as [kind|]; [|discriminate Hk].
  exists kind. split; [reflexivity|]. apply bool_decide_eq_true in Hk. exact Hk.
Qed.

(** C7. For the rows of a fetch (each with its two internal columns):
    with a filter, every geometry is decoded, the rows whose kind is not in
    the filter are dropped, and every feature returned has a kind of the
    filter; without a filter there is one feature per row and the decoder
    is never called; the attributes of a feature are those attributes of
    its row that are not null. *)
Theorem C7_filter_and_props E dbinfo query geometry_types (w : World) (answer : Answer) :
  db E (length (executed w)) query = Ok answer →
  Forall well_formed (fetchall answer) →
  (is_Some geometry_types →
   Forall (λ row, is_ok (loads E (row_wkb row)) = true) (fetchall answer)) →
  let rows := fetchall answer in
  let w1 := set_executed (λ log, log ++ [query]) w in
  match geometry_types with
  | Some types =>
      let kept := filter (λ row, kind_in E types row = true) rows in
      get_features E dbinfo query geometry_types 1 w =
        (Ok (feature_of <$> kept),
         set_decoded (λ log, log ++ (row_wkb <$> rows)) w1) ∧
      Forall (λ f, ∃ kind, loads E (f_wkb f) = Ok kind ∧ kind ∈ types)
        (feature_of <$> kept)
  | None =>
      get_features E dbinfo query geometry_types 1 w = (Ok (feature_of <$> rows), w1)
  end ∧
  (∀ n_try w0, decoded (get_features E dbinfo query None n_try w0).2 = decoded w0) ∧
  (∀ row k v, f_props (feature_of row) !! k = Some v ↔
     k ≠ "__geometry__" ∧ k ≠ "__id__" ∧ row !! k = Some v ∧ v ≠ PNone).
Proof.
  intros Hdb Hwf Hok rows w1. split; [|split].
  - destruct geometry_types as [types|].
    + split; [|apply Forall_kind_in].
      rewrite get_features_step, Hdb. cbn zeta.
      apply (get_features_rows_filtered E types rows [] w1 Hwf). apply Hok. eauto.
    + rewrite get_features_step, Hdb. cbn zeta.
      apply (get_features_rows_unfiltered E rows [] w1 Hwf).
  - intros n_try w0. apply (get_features_no_filter_decoded E dbinfo query _ n_try w0 eq_refl).
  - apply feature_props.
Qed.

Lemma C7_filter_and_props_witness :
  get_features (demo_env answers_at_once demo_kinds) ∅ "SELECT 1"
      (Some {[ "LineString" ]}) 1 empty_world =
    (Ok [feature_of demo_line],
     set_decoded (λ log, log ++ ["point"; "line"])
       (set_executed (λ log, log ++ ["SELECT 1"]) empty_world)) ∧
  f_props (feature_of demo_line) = {[ "lanes" := PInt 2 ]}.
Proof.
  destruct (C7_filter_and_props (demo_env answers_at_once demo_kinds) ∅ "SELECT 1"
              (Some {[ "LineString" ]}) empty_world demo_answer) as ((H & _) & _).
  - reflexivity.
  - exact demo_rows_well_formed.
  - intros _. repeat constructor.
  - split; [exact H|]. vm_compute. reflexivity.
Defined.

(** ** The multi-layer composer *)

Lemma string_app_assoc (s1 s2 s3 : string) :
  (s1 +:+ s2) +:+ s3 = s1 +:+ s2 +:+ s3.
Proof.
  induction s1 as [|c s1 IH]; [reflexivity|].
  change (String c ((s1 +:+ s2) +:+ s3) = String c (s1 +:+ s2 +:+ s3)).
  f_equal. exact IH.
Qed.

Lemma string_app_nil_r (s : string) : s +:+ "" = s.
Proof.
  induction s as [|c s IH]; [reflexivity|].
  change (String c (s +:+ "") = String c s). f_equal. exact IH.
Qed.

Lemma names_word_here (word rest : string) : names_word (word +:+ rest) word.
Proof. exists "", rest. reflexivity. Qed.

Lemma names_word_prepend (p s word : string) :
  names_word s word → names_word (p +:+ s) word.
Proof.
  intros (before & after & ->). exists (p +:+ before), after.
  rewrite string_app_assoc. reflexivity.
Qed.

Lemma names_word_append (s q word : string) :
  names_word s word → names_word (s +:+ q) word.
Proof.
  intros (before & after & ->). exists before, (after +:+ q).
  rewrite !string_app_assoc. reflexivity.
Qed.

Lemma names_word_join (sep : string) (l : list string) (word : string) :
  word ∈ l → names_word (Py.join sep l) word.
Proof.
  induction l as [|a l IH]; intros H; [inversion H|].
  apply elem_of_cons in H as [->|H].
  - destruct l; cbn [Py.join].
    + rewrite <- (string_app_nil_r a) at 1. apply names_word_here.
    + apply names_word_here.
  - destruct l as [|b l]; [inversion H|].
    change (Py.join sep (a :: b :: l)) with (a +:+ sep +:+ Py.join sep (b :: l)).
    apply names_word_prepend, names_word_prepend, IH, H.
Qed.

Lemma mapR_Ok {A B} (f : A → result B) (l : list A) (bs : list B) :
  mapR f l = Ok bs ↔ Forall2 (λ a b, f a = Ok b) l bs.
Proof.
  revert bs. induction l as [|a l IH]; intros bs; cbn [mapR].
  - split; [intros [= <-]; constructor | intros H; inversion H; reflexivity].
  - unfold mbind, result_bind. split.
    + destruct (f a) as [b|] eqn:Hb; [|discriminate].
      destruct (mapR f l) as [bs'|] eqn:Hl; [|discriminate].
      intros [= <-]. constructor; [exact Hb | apply IH; reflexivity].
    + intros H. inversion H as [|? b ? bs' Hb Hl]; subst.
      rewrite Hb. apply IH in Hl. rewrite Hl. reflexivity.
Qed.

Lemma json_ne_str_true (v : json) (s : string) :
  json_ne_str v s = true ↔ v ≠ JString s.
Proof.
  destruct v; cbn; try (split; [discriminate | reflexivity]).
  rewrite negb_true_iff, String.eqb_neq. split; [congruence|].
  intros H Heq. apply H. rewrite Heq. reflexivity.
Qed.

Lemma json_ne_str_false (v : json) (s : string) :
  json_ne_str v s = false → v = JString s.
Proof.
  destruct v; cbn; try discriminate.
  rewrite negb_false_iff, String.eqb_eq. congruence.
Qed.

Lemma filter_head {A} (P : A → Prop) `{∀ a, Decision (P a)} (l : list A) a rest :
  filter P l = a :: rest → P a ∧ a ∈ l.
Proof.
  intros Hf. apply (list_elem_of_filter P). rewrite Hf. apply elem_of_cons. auto.
Qed.

Lemma filter_Exists {A} (P : A → Prop) `{∀ a, Decision (P a)} (l : list A) :
  Exists P l → ∃ a rest, filter P l = a :: rest.
Proof.
  intros HE. destruct (filter P l) as [|a rest] eqn:Hf; [|eauto].
  apply Exists_exists in HE as (a & Ha & HP).
  exfalso. exact (filter_nil_not_elem_of P l a Hf HP Ha).
Qed.

Lemma filter_none {A} (P : A → Prop) `{∀ a, Decision (P a)} (l : list A) :
  Forall (λ a, ¬ P a) l → filter P l = [].
Proof.
  intros HF. destruct (filter P l) as [|a rest] eqn:Hf; [reflexivity|].
  destruct (filter_head P l a rest Hf) as [HP Hin].
  rewrite Forall_forall in HF. destruct (HF a Hin HP).
Qed.

Section get_tiles.
Context (E : Env) (self : MultiResponse.t) (format : string).

Let names := MultiResponse.names self.
Let expected := MultiResponse.expected_type format.

Lemma get_tiles_unknown (name : string) :
  name ∈ names → name ∉ config_layers E →
  ∃ msg, MultiResponse.get_tiles E self format = Raise (KnownUnknown msg) ∧
         names_word msg name.
Proof.
  intros Hin Hnot. unfold MultiResponse.get_tiles.
  rewrite bool_decide_eq_false_2.
  2:{ intros Hempty.
      assert (Hn : name ∈ (list_to_set (MultiResponse.names self) ∖ config_layers E
                            : gset string)).
      { apply elem_of_difference. split; [|exact Hnot].
        apply elem_of_list_to_set. exact Hin. }
      rewrite Hempty in Hn. exact (not_elem_of_empty _ Hn). }
  cbn [negb]. eexists. split; [reflexivity|].
  do 4 apply names_word_prepend. apply names_word_append.
  apply names_word_join. exact Hin.
Qed.

Lemma all_known_no_unknown :
  (∀ name, name ∈ names → name ∈ config_layers E) →
  bool_decide ((list_to_set (MultiResponse.names self) ∖ config_layers E : gset string) = ∅)
    = true.
Proof.
  intros Hall. apply bool_decide_eq_true_2.
  apply set_eq. intros name. rewrite elem_of_difference, elem_of_list_to_set.
  split; [|intros H; exfalso; exact (not_elem_of_empty _ H)].
  intros [Hin Hnot]. exfalso. apply Hnot, Hall, Hin.
Qed.

(** The check of the mime types fires on the layer it names. *)
Lemma get_tiles_bad_mime (responses : list (string * string)) :
  (∀ name, name ∈ names → name ∈ config_layers E) →
  mapR (MultiResponse.sub_tile E self format) names = Ok responses →
  Exists (λ r, Py.endswith r.1 "/json" = false) responses →
  ∃ i name mime body,
    names !! i = Some name ∧ responses !! i = Some (mime, body) ∧
    Py.endswith mime "/json" = false ∧
    MultiResponse.get_tiles E self format
      = Raise (KnownUnknown (MultiResponse.bad_mime_message name mime)).
Proof.
  intros Hall Hresp Hbad. unfold MultiResponse.get_tiles.
  rewrite (all_known_no_unknown Hall). cbn [negb].
  fold names. rewrite Hresp. unfold mbind at 1, result_bind at 1.
  apply mapR_Ok in Hresp. pose proof (Forall2_length _ _ _ Hresp) as Hlen.
  destruct responses as [|r0 responses0] eqn:Hr; [inversion Hbad|].
  rewrite <- Hr in *. unfold mbind at 1, result_bind at 1.
  assert (HE : Exists (λ mn : string * string, Py.endswith mn.1 "/json" = false)
                 (zip (fst <$> responses) names)).
  { apply Exists_exists in Hbad as ([mime body] & Hin & Hm).
    apply list_elem_of_lookup in Hin as [i Hi].
    destruct (names !! i) as [name|] eqn:Hn.
    2:{ apply lookup_ge_None in Hn. apply lookup_lt_Some in Hi. lia. }
    apply Exists_exists. exists (mime, name). split; [|exact Hm].
    apply list_elem_of_lookup. exists i.
    apply lookup_zip_with_Some. exists mime, name.
    rewrite list_lookup_fmap, Hi. auto. }
  destruct (filter_Exists _ _ HE) as ([mime name] & rest & Hf).
  rewrite Hf. cbn [fmap list_fmap fst snd].
  destruct (filter_head _ _ _ _ Hf) as [Hm Hin].
  apply list_elem_of_lookup in Hin as [i Hi].
  apply lookup_zip_with_Some in Hi as (m & n & Heq & Hmi & Hni).
  injection Heq as Hm1 Hn1. rewrite <- Hm1 in Hmi. rewrite <- Hn1 in Hni.
  rewrite list_lookup_fmap in Hmi.
  destruct (responses !! i) as [[m' body]|] eqn:Hri; [|discriminate Hmi].
  injection Hmi as ->.
  exists i, name, mime, body. auto.
Qed.

(** The check of the declared types fires on the layer it names. *)
Lemma get_tiles_bad_type (responses : list (string * string))
    (tiles types : list json) :
  (∀ name, name ∈ names → name ∈ config_layers E) →
  mapR (MultiResponse.sub_tile E self format) names = Ok responses →
  Forall (λ r, Py.endswith r.1 "/json" = true) responses →
  mapR (json_loads E) (snd <$> responses) = Ok tiles →
  mapR json_type tiles = Ok types →
  Exists (λ type, type ≠ JString expected) types →
  ∃ i name type,
    names !! i = Some name ∧ types !! i = Some type ∧ type ≠ JString expected ∧
    MultiResponse.get_tiles E self format
      = Raise (KnownUnknown (MultiResponse.bad_type_message E format name type)).
Proof.
  intros Hall Hresp Hmimes Htiles Htypes Hbad. unfold MultiResponse.get_tiles.
  rewrite (all_known_no_unknown Hall). cbn [negb].
  fold names. rewrite Hresp. unfold mbind at 1, result_bind at 1.
  apply mapR_Ok in Hresp. pose proof (Forall2_length _ _ _ Hresp) as Hlen.
  pose proof Htiles as Htiles'. apply mapR_Ok in Htiles'.
  pose proof (Forall2_length _ _ _ Htiles') as Hlen2. rewrite length_fmap in Hlen2.
  pose proof Htypes as Htypes'. apply mapR_Ok in Htypes'.
  pose proof (Forall2_length _ _ _ Htypes') as Hlen3.
  destruct responses as [|r0 responses0] eqn:Hr.
  { destruct tiles; [|discriminate Hlen2]. destruct types; [|discriminate Hlen3].
    inversion Hbad. }
  rewrite <- Hr in *. unfold mbind at 1, result_bind at 1.
  rewrite filter_none.
  2:{ apply Forall_forall. intros [m n] Hin Hm. cbn [fst] in Hm.
      apply list_elem_of_lookup in Hin as [i Hi].
      apply lookup_zip_with_Some in Hi as (m' & n' & Heq & Hmi & _).
      injection Heq as Hm1 Hn1. rewrite <- Hm1 in Hmi.
      rewrite list_lookup_fmap in Hmi.
      destruct (responses !! i) as [[m'' body]|] eqn:Hri; [|discriminate Hmi].
      injection Hmi as ->.
      rewrite Forall_forall in Hmimes.
      specialize (Hmimes (m, body) (list_elem_of_lookup_2 _ _ _ Hri)).
      cbn [fst] in Hmimes. congruence. }
  cbn [fmap list_fmap]. rewrite Htiles. unfold mbind at 1, result_bind at 1.
  rewrite Htypes. unfold mbind at 1, result_bind at 1.
  assert (HE : Exists (λ tn : json * string, json_ne_str tn.1 expected = true)
                 (zip types names)).
  { apply Exists_exists in Hbad as (type & Hin & Ht).
    apply list_elem_of_lookup in Hin as [i Hi].
    destruct (names !! i) as [name|] eqn:Hn.
    2:{ apply lookup_ge_None in Hn. apply lookup_lt_Some in Hi. lia. }
    apply Exists_exists. exists (type, name). split.
    - apply list_elem_of_lookup. exists i.
      apply lookup_zip_with_Some. exists type, name. auto.
    - apply json_ne_str_true. exact Ht. }
  destruct (filter_Exists _ _ HE) as ([type name] & rest & Hf).
  fold expected. rewrite Hf. cbn [fmap list_fmap fst snd].
  destruct (filter_head _ _ _ _ Hf) as [Ht Hin]. cbn [fst] in Ht.
  apply json_ne_str_true in Ht.
  apply list_elem_of_lookup in Hin as [i Hi].
  apply lookup_zip_with_Some in Hi as (t & n & Heq & Hti & Hni).
  injection Heq as Ht1 Hn1. rewrite <- Ht1 in Hti. rewrite <- Hn1 in Hni.
  exists i, name, type. auto.
Qed.

(** A list of tiles is returned only when nothing is wrong with any
    layer. *)
Lemma get_tiles_Ok (tiles : list json) :
  MultiResponse.get_tiles E self format = Ok tiles →
  Forall2 (λ name tile,
             name ∈ config_layers E ∧
             ∃ mime body,
               MultiResponse.sub_tile E self format name = Ok (mime, body) ∧
               Py.endswith mime "/json" = true ∧
               json_loads E body = Ok tile ∧
               json_type tile = Ok (JString expected))
          names tiles.
Proof.
  unfold MultiResponse.get_tiles. fold names.
  destruct (bool_decide ((list_to_set names ∖ config_layers E : gset string) = ∅))
    eqn:Hk; cbn [negb]; [|discriminate].
  apply bool_decide_eq_true in Hk.
  assert (Hall : ∀ name, name ∈ names → name ∈ config_layers E).
  { intros name Hin. destruct (decide (name ∈ config_layers E)) as [|Hn]; [assumption|].
    exfalso. apply (not_elem_of_empty (C:=gset string) name). rewrite <- Hk.
    apply elem_of_difference. split; [apply elem_of_list_to_set, Hin | exact Hn]. }
  destruct (mapR (MultiResponse.sub_tile E self format) names) as [responses|] eqn:Hresp;
    unfold mbind at 1, result_bind at 1; [|discriminate].
  destruct responses as [|r0 responses0] eqn:Hr; [discriminate|].
  rewrite <- Hr in *. unfold mbind at 1, result_bind at 1.
  destruct (filter _ (zip (fst <$> responses) names)) as [|[m n] rest] eqn:Hf;
    cbn [fmap list_fmap fst snd]; [|discriminate].
  destruct (mapR (json_loads E) (snd <$> responses)) as [tiles'|] eqn:Htiles;
    unfold mbind at 1, result_bind at 1; [|discriminate].
  destruct (mapR json_type tiles') as [types|] eqn:Htypes;
    unfold mbind at 1, result_bind at 1; [|discriminate].
  destruct (filter _ (zip types names)) as [|[n' t'] rest] eqn:Hf2;
    cbn [fmap list_fmap fst snd]; [|discriminate].
  intros [= <-].
  apply mapR_Ok in Hresp, Htiles, Htypes.
  pose proof (Forall2_length _ _ _ Hresp) as Hlen.
  pose proof (Forall2_length _ _ _ Htiles) as Hlen2. rewrite length_fmap in Hlen2.
  pose proof (Forall2_length _ _ _ Htypes) as Hlen3.
  apply Forall2_same_length_lookup. split; [lia|].
  intros i name tile Hn Ht.
  split; [apply Hall; eapply list_elem_of_lookup_2; exact Hn|].
  destruct (responses !! i) as [[mime body]|] eqn:Hri.
  2:{ apply lookup_ge_None in Hri. apply lookup_lt_Some in Hn. lia. }
  destruct (types !! i) as [type|] eqn:Hty.
  2:{ apply lookup_ge_None in Hty. apply lookup_lt_Some in Hn. lia. }
  exists mime, body. repeat split.
  - exact (Forall2_lookup_lr _ _ _ _ _ _ Hresp Hn Hri).
  - destruct (Py.endswith mime "/json") eqn:Hm; [reflexivity|]. exfalso.
    apply (filter_nil_not_elem_of _ _ (mime, name) Hf Hm).
    apply list_elem_of_lookup. exists i. apply lookup_zip_with_Some.
    exists mime, name. rewrite list_lookup_fmap, Hri. auto.
  - refine (Forall2_lookup_lr _ _ _ i body tile Htiles _ Ht).
    rewrite list_lookup_fmap, Hri. reflexivity.
  - rewrite (Forall2_lookup_lr _ _ _ _ _ _ Htypes Ht Hty). f_equal.
    destruct (json_ne_str type expected) eqn:Hne;
      [exfalso | apply json_ne_str_false, Hne].
    apply (filter_nil_not_elem_of _ _ (type, name) Hf2 Hne).
    apply list_elem_of_lookup. exists i. apply lookup_zip_with_Some.
    exists type, name. auto.
Qed.

End get_tiles.

Lemma bad_mime_message_names (name mime : string) :
  names_word (MultiResponse.bad_mime_message name mime) name ∧
  names_word (MultiResponse.bad_mime_message name mime) mime.
Proof.
  unfold MultiResponse.bad_mime_message. split.
  - do 2 apply names_word_prepend. apply names_word_here.
  - do 5 apply names_word_prepend. apply names_word_here.
Qed.

Lemma bad_type_message_names E (format name : string) (type : json) :
  names_word (MultiResponse.bad_type_message E format name type) name ∧
  names_word (MultiResponse.bad_type_message E format name type) (fmt_s E type).
Proof.
  unfold MultiResponse.bad_type_message. split.
  - do 4 apply names_word_prepend. apply names_word_here.
  - do 7 apply names_word_prepend. apply names_word_here.
Qed.

(** C8. For a merge of a collection format, [get_tiles] returns the tiles
    only when every requested name is a layer of the configuration, every
    mime type ends in [/json] and every payload declares the expected type
    (['FeatureCollection'] for JSON, ['Topology'] for TopoJSON): nothing is
    skipped.  An unknown name, a mime type and a declared type that fail
    their check raise [KnownUnknown] with a message that names the layer and
    the value; [save] calls no merge codec then. *)
Theorem C8_collection_merge_rejects E (self : MultiResponse.t) (format : string) :
  let names := MultiResponse.names self in
  let expected := MultiResponse.expected_type format in
  (∀ tiles,
     MultiResponse.get_tiles E self format = Ok tiles →
     Forall2 (λ name tile,
                name ∈ config_layers E ∧
                ∃ mime body,
                  MultiResponse.sub_tile E self format name = Ok (mime, body) ∧
                  Py.endswith mime "/json" = true ∧
                  json_loads E body = Ok tile ∧
                  json_type tile = Ok (JString expected))
             names tiles) ∧
  (∀ name,
     name ∈ names → name ∉ config_layers E →
     ∃ msg, MultiResponse.get_tiles E self format = Raise (KnownUnknown msg) ∧
            names_word msg name) ∧
  (∀ responses,
     (∀ name, name ∈ names → name ∈ config_layers E) →
     mapR (MultiResponse.sub_tile E self format) names = Ok responses →
     Exists (λ r, Py.endswith r.1 "/json" = false) responses →
     ∃ i name mime body msg,
       names !! i = Some name ∧ responses !! i = Some (mime, body) ∧
       Py.endswith mime "/json" = false ∧
       MultiResponse.get_tiles E self format = Raise (KnownUnknown msg) ∧
       names_word msg name ∧ names_word msg mime) ∧
  (∀ responses tiles types,
     (∀ name, name ∈ names → name ∈ config_layers E) →
     mapR (MultiResponse.sub_tile E self format) names = Ok responses →
     Forall (λ r, Py.endswith r.1 "/json" = true) responses →
     mapR (json_loads E) (snd <$> responses) = Ok tiles →
     mapR json_type tiles = Ok types →
     Exists (λ type, type ≠ JString expected) types →
     ∃ i name type msg,
       names !! i = Some name ∧ types !! i = Some type ∧ type ≠ JString expected ∧
       MultiResponse.get_tiles E self format = Raise (KnownUnknown msg) ∧
       names_word msg name ∧ names_word msg (fmt_s E type)) ∧
  MultiResponse.expected_type "JSON" = "FeatureCollection" ∧
  MultiResponse.expected_type "TopoJSON" = "Topology" ∧
  (∀ e w,
     MultiResponse.get_tiles E self format = Raise e →
     (format = "JSON" ∨ format = "TopoJSON") →
     ∃ run, MultiResponse.save_collection E self format = Some run ∧
            run w = (Raise e, w)).
Proof.
  intros names expected. repeat split.
  - apply get_tiles_Ok.
  - apply get_tiles_unknown.
  - intros responses Hall Hresp Hbad.
    destruct (get_tiles_bad_mime E self format responses Hall Hresp Hbad)
      as (i & name & mime & body & Hn & Hr & Hm & Hrun).
    exists i, name, mime, body, (MultiResponse.bad_mime_message name mime).
    pose proof (bad_mime_message_names name mime) as [? ?]. auto 10.
  - intros responses tiles types Hall Hresp Hm Htiles Htypes Hbad.
    destruct (get_tiles_bad_type E self format responses tiles types
                Hall Hresp Hm Htiles Htypes Hbad)
      as (i & name & type & Hn & Ht & Hne & Hrun).
    exists i, name, type, (MultiResponse.bad_type_message E format name type).
    pose proof (bad_type_message_names E format name type) as [? ?]. auto 10.
  - intros e w Hrun [-> | ->]; eexists; (split; [reflexivity|]);
      run_M; rewrite Hrun; reflexivity.
Qed.

Lemma C8_collection_merge_rejects_witness :
  (∃ msg, MultiResponse.get_tiles host_env (demo_multi ["land"; "sea"]) "JSON"
            = Raise (KnownUnknown msg) ∧ names_word msg "sea") ∧
  (∃ i name type msg,
     ["land"; "water"] !! i = Some name ∧
     [JString "FeatureCollection"; JString "Topology"] !! i = Some type ∧
     type ≠ JString "FeatureCollection" ∧
     MultiResponse.get_tiles host_env (demo_multi ["land"; "water"]) "JSON"
       = Raise (KnownUnknown msg) ∧
     names_word msg name ∧ names_word msg (fmt_s host_env type)).
Proof.
  destruct (C8_collection_merge_rejects host_env (demo_multi ["land"; "sea"]) "JSON")
    as (_ & H1 & _).
  destruct (C8_collection_merge_rejects host_env (demo_multi ["land"; "water"]) "JSON")
    as (_ & _ & _ & H2 & _).
  split.
  - apply (H1 "sea").
    + cbn. apply elem_of_cons. right. apply elem_of_cons. left. reflexivity.
    + cbn. intros H. apply elem_of_union in H as [H|H];
        apply elem_of_singleton in H; discriminate H.
  - apply (H2 [("application/json", "land-tile"); ("application/json", "water-tile")]
             [JObject [("type", JString "FeatureCollection"); ("features", JArray [])];
              JObject [("type", JString "Topology"); ("objects", JObject [])]]
             [JString "FeatureCollection"; JString "Topology"]).
    + cbn. intros name H.
      apply elem_of_cons in H as [->|H]; [|apply elem_of_cons in H as [->|H]].
      * apply elem_of_union. left. apply elem_of_singleton. reflexivity.
      * apply elem_of_union. right. apply elem_of_singleton. reflexivity.
      * inversion H.
    + reflexivity.
    + repeat constructor.
    + reflexivity.
    + reflexivity.
    + apply Exists_cons. right. apply Exists_cons. left. discriminate.
Defined.

Example get_tiles_mismatch :
  MultiResponse.get_tiles host_env (demo_multi ["land"; "water"]) "JSON" =
    Raise (KnownUnknown
      ("TileStache.Goodies.VecTiles.server.get_tiles encountered a "
         +:+ "non-FeatureCollection type in water sub-layer: "
         +:+ Py.dq +:+ "Topology" +:+ Py.dq)).
Proof. vm_compute. reflexivity. Qed.

(** ** The response *)

Lemma build_query_ok E srid table geometry attributes columns bounds tolerance
    is_geo is_clipped padding scale (w : World) attrs cols :
  lists w !! attributes = Some attrs →
  sets w !! columns = Some cols →
  "__geometry__" ∈ cols →
  degenerate bounds scale = false →
  build_query E srid table geometry attributes columns bounds tolerance
      is_geo is_clipped padding scale w =
    (Ok (query_text E srid table geometry (with_id geometry attrs cols) bounds
           tolerance is_geo is_clipped padding scale),
     registered geometry attributes columns attrs cols w).
Proof.
  intros Ha Hc Hg Hd.
  rewrite (build_query_run _ _ _ _ _ _ _ _ _ _ _ _ _ _ _ Ha Hc), Hd.
  rewrite (bool_decide_eq_true_2 _ Hg). cbn [negb].
  unfold query_text, with_id, registered.
  destruct (bool_decide ("__id__" ∈ cols)); reflexivity.
Qed.

Lemma registered_lists geometry attributes columns attrs cols (w : World) :
  lists w !! attributes = Some attrs →
  lists (registered geometry attributes columns attrs cols w) !! attributes
    = Some (with_id geometry attrs cols).
Proof.
  intros Ha. unfold registered, with_id.
  destruct (bool_decide ("__id__" ∈ cols)); [exact Ha|].
  cbn. apply lookup_insert_eq.
Qed.

Lemma registered_sets geometry attributes columns attrs cols (w : World) :
  sets w !! columns = Some cols →
  sets (registered geometry attributes columns attrs cols w) !! columns
    = Some (cols ∪ {[ "__id__" ]}).
Proof.
  intros Hc. unfold registered.
  destruct (bool_decide ("__id__" ∈ cols)) eqn:Hb.
  - apply bool_decide_eq_true in Hb. rewrite Hc. f_equal.
    apply set_eq. intros k. rewrite elem_of_union, elem_of_singleton.
    split; [auto|]. intros [H| ->]; assumption.
  - cbn. apply lookup_insert_eq.
Qed.

Lemma registered_twice geometry attributes columns attrs cols (w : World) :
  registered geometry attributes columns (with_id geometry attrs cols)
      (cols ∪ {[ "__id__" ]}) (registered geometry attributes columns attrs cols w)
    = registered geometry attributes columns attrs cols w.
Proof.
  unfold registered at 1. rewrite bool_decide_eq_true_2; [reflexivity|].
  apply elem_of_union. right. apply elem_of_singleton. reflexivity.
Qed.

Lemma with_id_twice geometry attrs cols :
  with_id geometry (with_id geometry attrs cols) (cols ∪ {[ "__id__" ]})
    = with_id geometry attrs cols.
Proof.
  unfold with_id at 1. rewrite bool_decide_eq_true_2; [reflexivity|].
  apply elem_of_union. right. apply elem_of_singleton. reflexivity.
Qed.

Lemma degenerate_no_scale (bounds : Bounds) : degenerate bounds None = false.
Proof. reflexivity. Qed.

(** [Response.__init__] never returns for a zoom from 22 on: whatever the
    first two queries do, line 287 indexes the table of tolerances. *)
Lemma Response_init_zoom_22 E dbinfo srid table geometry attributes columns bounds
    tolerance zoom clip coord layer_name geometry_types (w : World) :
  22 <= Coordinate.zoom coord →
  is_ok (Response.init E dbinfo srid table geometry attributes columns bounds
           tolerance zoom clip coord layer_name geometry_types w).1 = false.
Proof.
  intros Hz. unfold Response.init.
  unfold mbind at 1, M_bind at 1.
  destruct (build_query _ _ _ _ _ _ _ _ _ _ _ _ w) as [[q1|e1] w1]; [|reflexivity].
  unfold mbind at 1, M_bind at 1.
  destruct (build_query _ _ _ _ _ _ _ _ _ _ _ _ w1) as [[q2|e2] w2]; [|reflexivity].
  unfold mbind at 1, M_bind at 1.
  rewrite index_out_of_range by (rewrite tolerances_length; lia).
  reflexivity.
Qed.

Lemma bind_not_ok {A B} (m : M A) (f : A → M B) (w : World) :
  (∀ a w1, is_ok (f a w1).1 = false) → is_ok ((m ≫= f) w).1 = false.
Proof.
  intros Hf. unfold mbind, M_bind.
  destruct (m w) as [[a|e] w1]; [apply Hf | reflexivity].
Qed.

Lemma bind_not_ok_l {A B} (m : M A) (f : A → M B) (w : World) :
  is_ok (m w).1 = false → is_ok ((m ≫= f) w).1 = false.
Proof.
  intros Hm. unfold mbind, M_bind.
  destruct (m w) as [[a|e] w1]; [discriminate Hm | reflexivity].
Qed.

(** No tile of a zoom from 22 on is rendered. *)
Lemma renderTile_zoom_22 E (self : Provider.t) (coord : Coordinate.t) (w : World) :
  22 <= Coordinate.zoom coord →
  is_ok (Provider.renderTile E self coord w).1 = false.
Proof.
  intros Hz. unfold Provider.renderTile.
  apply bind_not_ok. intros slot w1.
  destruct slot as [g|]; [|reflexivity].
  destruct (negb (Py.truthy_str (Some g))); [reflexivity|].
  unfold Provider.renderTile_response.
  do 6 (apply bind_not_ok; intros ? ?).
  apply bind_not_ok_l, Response_init_zoom_22, Hz.
Qed.

(** C10. For a zoom from 22 on, [Response.__init__] does not return,
    whatever the tolerance is (so whatever the simplification settings
    are): once the first two queries are built, which they are when
    [__geometry__] is among the columns, the padding of the third indexes
    the table of 22 tolerances by the zoom and raises [IndexError]; so
    [renderTile] returns no response for such a zoom. *)
Theorem C10_response_zoom_22 E dbinfo srid table geometry attributes columns bounds
    tolerance zoom clip coord layer_name geometry_types (w : World) :
  22 <= Coordinate.zoom coord →
  is_ok (Response.init E dbinfo srid table geometry attributes columns bounds
           tolerance zoom clip coord layer_name geometry_types w).1 = false ∧
  (∀ attrs cols,
     lists w !! attributes = Some attrs →
     sets w !! columns = Some cols →
     "__geometry__" ∈ cols →
     Response.init E dbinfo srid table geometry attributes columns bounds
         tolerance zoom clip coord layer_name geometry_types w =
       (Raise IndexError, registered geometry attributes columns attrs cols w)) ∧
  (∀ self w0, is_ok (Provider.renderTile E self coord w0).1 = false).
Proof.
  intros Hz. split; [apply Response_init_zoom_22, Hz|]. split.
  2:{ intros self w0. apply renderTile_zoom_22, Hz. }
  intros attrs cols Ha Hc Hg. unfold Response.init.
  unfold mbind at 1, M_bind at 1.
  rewrite (build_query_ok _ _ _ _ _ _ _ _ _ _ _ _ _ _ _ Ha Hc Hg (degenerate_no_scale _)).
  unfold mbind at 1, M_bind at 1.
  rewrite (build_query_ok _ _ _ _ _ _ _ _ _ _ _ _ _ _ _
             (registered_lists _ _ _ _ _ _ Ha) (registered_sets _ _ _ _ _ _ Hc)
             (proj2 (elem_of_union _ _ _) (or_introl Hg)) (degenerate_no_scale _)).
  rewrite registered_twice.
  unfold mbind at 1, M_bind at 1.
  rewrite index_out_of_range by (rewrite tolerances_length; lia).
  reflexivity.
Qed.

Lemma C10_response_zoom_22_witness :
  let w := demo_world ["name"] {[ "__geometry__" ]} in
  Response.init quiet_env ∅ 900913 "roads" "way" 0%nat 0%nat demo_bounds None 22 true
      (Coordinate.mk 0 0 22) "roads" None w =
    (Raise IndexError, registered "way" 0%nat 0%nat ["name"] {[ "__geometry__" ]} w).
Proof.
  intros w.
  destruct (C10_response_zoom_22 quiet_env ∅ 900913 "roads" "way" 0%nat 0%nat
              demo_bounds None 22 true (Coordinate.mk 0 0 22) "roads" None w)
    as (_ & H & _).
  - cbn. lia.
  - apply (H ["name"] {[ "__geometry__" ]}).
    + reflexivity.
    + reflexivity.
    + apply elem_of_singleton. reflexivity.
Defined.

(** ** The identifier across requests *)

Ltac case_result :=
  match goal with
  | |- context [match ?r with Ok _ => _ | Raise _ => _ end] => destruct r
  end.

Lemma build_query_id_present E srid table geometry attributes columns bounds
    tolerance is_geo is_clipped padding scale (w : World) attrs cols :
  lists w !! attributes = Some attrs →
  sets w !! columns = Some cols →
  "__id__" ∈ cols →
  build_query E srid table geometry attributes columns bounds tolerance
      is_geo is_clipped padding scale w =
    (if degenerate bounds scale then Raise ZeroDivisionError
     else if negb (bool_decide ("__geometry__" ∈ cols)) then
       Raise (Exception ("There's supposed to be a __geometry__ column. We got "
                           +:+ Py.join "," (elements cols)))
     else Ok (query_text E srid table geometry attrs bounds tolerance is_geo
                is_clipped padding scale),
     w).
Proof.
  intros Ha Hc Hi.
  rewrite (build_query_run _ _ _ _ _ _ _ _ _ _ _ _ _ _ _ Ha Hc).
  rewrite (bool_decide_eq_true_2 _ Hi).
  destruct (degenerate bounds scale); [reflexivity|].
  destruct (negb (bool_decide ("__geometry__" ∈ cols))); reflexivity.
Qed.

Lemma registered_cache geometry attributes columns attrs cols (w : World) :
  columns_cache (registered geometry attributes columns attrs cols w) = columns_cache w.
Proof. unfold registered. destruct (bool_decide _); reflexivity. Qed.

(** The world [Response.__init__] leaves: the first query registers the
    identifier, and nothing after it touches the store. *)
Lemma Response_init_world E dbinfo srid table geometry attributes columns bounds
    tolerance zoom clip coord layer_name geometry_types (w : World) attrs cols :
  lists w !! attributes = Some attrs →
  sets w !! columns = Some cols →
  "__geometry__" ∈ cols →
  (Response.init E dbinfo srid table geometry attributes columns bounds
     tolerance zoom clip coord layer_name geometry_types w).2
    = registered geometry attributes columns attrs cols w.
Proof.
  intros Ha Hc Hg. unfold Response.init.
  unfold mbind at 1, M_bind at 1.
  rewrite (build_query_ok _ _ _ _ _ _ _ _ _ _ _ _ _ _ _ Ha Hc Hg (degenerate_no_scale _)).
  set (w1 := registered geometry attributes columns attrs cols w).
  assert (Ha1 := registered_lists geometry attributes columns attrs cols w Ha).
  assert (Hc1 := registered_sets geometry attributes columns attrs cols w Hc).
  assert (Hi1 : "__id__" ∈ cols ∪ {[ "__id__" ]})
    by (apply elem_of_union; right; apply elem_of_singleton; reflexivity).
  fold w1 in Ha1, Hc1.
  unfold mbind at 1, M_bind at 1.
  rewrite (build_query_id_present _ _ _ _ _ _ _ _ _ _ _ _ _ _ _ Ha1 Hc1 Hi1).
  case_result; [|reflexivity].
  unfold mbind at 1, M_bind at 1.
  destruct (Py.index tolerances (Coordinate.zoom coord)) as [tol|]; [|reflexivity].
  cbn [or_raise]. unfold mret at 1, M_ret at 1.
  unfold mbind at 1, M_bind at 1.
  rewrite (build_query_id_present _ _ _ _ _ _ _ _ _ _ _ _ _ _ _ Ha1 Hc1 Hi1).
  case_result; [|reflexivity].
  unfold mbind at 1, M_bind at 1. unfold mret at 1, M_ret at 1.
  unfold mbind at 1, M_bind at 1.
  rewrite (build_query_id_present _ _ _ _ _ _ _ _ _ _ _ _ _ _ _ Ha1 Hc1 Hi1).
  case_result; reflexivity.
Qed.

Lemma renderTile_tolerance_world (self : Provider.t) (zoom : Z) (w : World) :
  Provider.renderTile_tolerance self zoom w
    = ((Provider.renderTile_tolerance self zoom w).1, w).
Proof.
  unfold Provider.renderTile_tolerance.
  destruct (bool_decide _); [reflexivity|].
  destruct (zoom <? _); [|reflexivity].
  run_M. destruct (Py.index tolerances zoom); reflexivity.
Qed.

(** The first request for a geometry whose probe finds no [__id__]: the
    expression is appended to the provider's list and [__id__] is added to
    the set that the provider caches. *)
Lemma renderTile_response_first E (self : Provider.t) (coord : Coordinate.t)
    (geometry : string) (w : World) (a : loc) (attrs : list string) (answer : Answer) :
  Provider.attributes self !! geometry = Some a →
  lists w !! a = Some attrs →
  columns_cache w !! geometry = None →
  is_ok (Provider.renderTile_tolerance self (Coordinate.zoom coord) w).1 = true →
  db E (length (executed w))
    (probe_text E (Provider.srid self) (Provider.table self) geometry attrs
       (tile_bounds E coord)) = Ok answer →
  "__geometry__" ∈ description answer →
  "__id__" ∉ description answer →
  let w' := (Provider.renderTile_response E self coord geometry w).2 in
  lists w' !! a = Some (attrs ++ [sql_hash_id geometry]) ∧
  ∃ c, columns_cache w' !! geometry = Some c ∧
       sets w' !! c = Some (list_to_set (description answer) ∪ {[ "__id__" ]}).
Proof.
  intros Hattr Ha Hcache Htol Hdb Hg Hi.
  set (c := fresh (dom (sets w))).
  set (cols := list_to_set (description answer) : gset string).
  set (probe := probe_text E (Provider.srid self) (Provider.table self) geometry attrs
                  (tile_bounds E coord)) in *.
  set (w3 := set_columns_cache (insert geometry c)
               (set_sets (insert c cols) (set_executed (λ log, log ++ [probe]) w))).
  assert (HW : (Provider.renderTile_response E self coord geometry w).2
               = registered geometry a c attrs cols w3).
  { unfold Provider.renderTile_response, query_columns, db_execute, new_set.
    rewrite Hattr. fold (tile_bounds E coord). run_M.
    rewrite renderTile_tolerance_world.
    destruct (Provider.renderTile_tolerance self (Coordinate.zoom coord) w).1
      as [tolerance|]; [|discriminate Htol].
    rewrite Hcache, Ha. subst w3 probe. unfold probe_text in *. rewrite Hdb.
    cbn [lists sets columns_cache executed set_lists set_sets set_columns_cache
         set_executed].
    fold c cols. rewrite lookup_insert_eq.
    match goal with
    | |- context [Response.init ?E0 ?d ?s ?t ?g ?aa ?cc ?b ?tol ?z ?cl ?cd ?ln ?gt ?w0] =>
        pose proof (Response_init_world E0 d s t g aa cc b tol z cl cd ln gt w0 attrs cols)
          as Hw;
        destruct (Response.init E0 d s t g aa cc b tol z cl cd ln gt w0) as [r w1]
    end.
    cbn [snd] in Hw. rewrite <- Hw.
    - destruct r; reflexivity.
    - exact Ha.
    - apply lookup_insert_eq.
    - apply elem_of_list_to_set. exact Hg. }
  cbn zeta. rewrite HW.
  assert (Hi' : bool_decide ("__id__" ∈ cols) = false).
  { apply bool_decide_eq_false_2. subst cols. rewrite elem_of_list_to_set. exact Hi. }
  unfold registered. rewrite Hi'. cbn.
  split; [apply lookup_insert_eq|].
  exists c. rewrite !lookup_insert_eq. split; reflexivity.
Qed.

Lemma query_text_names E srid table geometry attrs bounds tolerance is_geo is_clipped
    padding scale (item : string) :
  item ∈ attrs →
  names_word (query_text E srid table geometry attrs bounds tolerance is_geo
                is_clipped padding scale) item.
Proof.
  intros Hin. unfold query_text, sql_select.
  apply names_word_prepend, names_word_append, names_word_join, Hin.
Qed.

(** A response built when the set already holds [__id__]: the store is
    left alone and every query selects the attributes of the list. *)
Lemma Response_init_later E dbinfo srid table geometry attributes columns bounds
    tolerance zoom clip coord layer_name geometry_types (w : World) attrs cols r w' :
  lists w !! attributes = Some attrs →
  sets w !! columns = Some cols →
  "__id__" ∈ cols →
  Response.init E dbinfo srid table geometry attributes columns bounds
      tolerance zoom clip coord layer_name geometry_types w = (Ok r, w') →
  w' = w ∧
  ∀ format q,
    Response.query r !! format = Some q →
    ∃ is_geo padding scale,
      q = query_text E srid table geometry attrs bounds tolerance is_geo clip
            padding scale.
Proof.
  intros Ha Hc Hi. unfold Response.init. run_M.
  destruct (bool_decide ("__geometry__" ∈ cols)) eqn:Hg.
  2:{ rewrite (build_query_id_present _ _ _ _ _ _ _ _ _ _ _ _ _ _ _ Ha Hc Hi), Hg.
      cbn [degenerate Py.truthy_num andb negb]. discriminate. }
  rewrite (build_query_id_present _ _ _ _ _ _ _ _ _ _ _ _ _ _ _ Ha Hc Hi), Hg.
  cbn [degenerate Py.truthy_num andb negb].
  rewrite (build_query_id_present _ _ _ _ _ _ _ _ _ _ _ _ _ _ _ Ha Hc Hi), Hg.
  cbn [degenerate Py.truthy_num andb negb].
  destruct (Py.index tolerances (Coordinate.zoom coord)) as [tol|]; [|discriminate].
  rewrite (build_query_id_present _ _ _ _ _ _ _ _ _ _ _ _ _ _ _ Ha Hc Hi), Hg.
  destruct (degenerate bounds (Some (oscimap_extents E))); [discriminate|].
  cbn [negb].
  rewrite (build_query_id_present _ _ _ _ _ _ _ _ _ _ _ _ _ _ _ Ha Hc Hi), Hg.
  destruct (degenerate bounds (Some (mapbox_extents E))); [discriminate|].
  cbn [negb].
  intros [= <- <-]. split; [reflexivity|].
  intros format q. cbn [Response.query].
  rewrite !lookup_insert_Some, lookup_empty.
  intros [[_ <-]|[_ [[_ <-]|[_ [[_ <-]|[_ [[_ <-]|[_ [[_ <-]|[_ [=]]]]]]]]]]]; eauto.
Qed.

(** A later request for a geometry whose list and cached set the provider
    holds: its queries select the attributes of the list. *)
Lemma renderTile_response_later E (self : Provider.t) (coord : Coordinate.t)
    (geometry : string) (w : World) (a c : loc) (attrs : list string)
    (cols : gset string) (r : Response.t) (w' : World) :
  Provider.attributes self !! geometry = Some a →
  lists w !! a = Some attrs →
  columns_cache w !! geometry = Some c →
  sets w !! c = Some cols →
  "__id__" ∈ cols →
  Provider.renderTile_response E self coord geometry w = (Ok (a_Response r), w') →
  w' = w ∧
  ∀ format q item,
    Response.query r !! format = Some q → item ∈ attrs → names_word q item.
Proof.
  intros Hattr Ha Hcache Hc Hi.
  unfold Provider.renderTile_response. rewrite Hattr.
  fold (tile_bounds E coord). run_M.
  rewrite renderTile_tolerance_world.
  destruct (Provider.renderTile_tolerance self (Coordinate.zoom coord) w).1
    as [tolerance|]; [|discriminate].
  rewrite Hcache. cbv beta iota. rewrite Hcache. cbv beta iota.
  match goal with
  | |- context [Response.init ?E0 ?d ?s ?t ?g ?aa ?cc ?b ?tol ?z ?cl ?cd ?ln ?gt ?w0] =>
      pose proof (λ r1 w1,
        Response_init_later E0 d s t g aa cc b tol z cl cd ln gt w0 attrs cols r1 w1
          Ha Hc Hi) as Hinit;
      destruct (Response.init E0 d s t g aa cc b tol z cl cd ln gt w0) as [[r1|e] w1]
  end; [|discriminate].
  intros [= <- <-].
  destruct (Hinit r1 w1 eq_refl) as [-> Hq]. split; [reflexivity|].
  intros format q item Hf Hin.
  destruct (Hq format q Hf) as (is_geo & padding & scale & ->).
  apply query_text_names, Hin.
Qed.

(** [renderTile] on a slot that is true goes on to lines 159-175. *)
Lemma renderTile_true E (self : Provider.t) (coord : Coordinate.t) (w : World)
    (geometry : string) :
  (Provider.renderTile_geometry self (Coordinate.zoom coord) w).1 = Ok (Some geometry) →
  Py.truthy_str (Some geometry) = true →
  Provider.renderTile E self coord w = Provider.renderTile_response E self coord geometry w.
Proof.
  intros Hg Ht. unfold Provider.renderTile.
  pose proof (renderTile_geometry_world self (Coordinate.zoom coord) w) as Hw.
  unfold mbind at 1, M_bind at 1.
  destruct (Provider.renderTile_geometry self (Coordinate.zoom coord) w) as [r w1].
  cbn [fst snd] in Hg, Hw. rewrite Hg, Hw, Ht. reflexivity.
Qed.

(** C9, as the code has it.  When [__id__] is not in the column set,
    [build_query] appends the hash expression to the list of its caller and
    adds [__id__] to the set of its caller, in place.  A provider that
    holds an attribute list for the geometry passes that list and the set
    it caches: after its first request for the geometry its list ends with
    the expression and its cached set holds [__id__], and every query of a
    later request for the geometry selects the items of that list, the
    expression among them. *)
Theorem C9_identifier_persists E :
  (∀ srid table geometry attributes columns bounds tolerance is_geo is_clipped padding
     scale (w : World) attrs cols,
     lists w !! attributes = Some attrs →
     sets w !! columns = Some cols →
     "__geometry__" ∈ cols → "__id__" ∉ cols →
     degenerate bounds scale = false →
     let run := build_query E srid table geometry attributes columns bounds
                  tolerance is_geo is_clipped padding scale w in
     is_ok run.1 = true ∧
     lists run.2 = <[attributes := attrs ++ [sql_hash_id geometry]]> (lists w) ∧
     sets run.2 = <[columns := cols ∪ {[ "__id__" ]}]> (sets w)) ∧
  (∀ (self : Provider.t) (geometry : string) (a : loc) coord (w : World) attrs answer,
     Provider.attributes self !! geometry = Some a →
     Py.truthy_str (Some geometry) = true →
     (Provider.renderTile_geometry self (Coordinate.zoom coord) w).1
       = Ok (Some geometry) →
     lists w !! a = Some attrs →
     columns_cache w !! geometry = None →
     is_ok (Provider.renderTile_tolerance self (Coordinate.zoom coord) w).1 = true →
     db E (length (executed w))
       (probe_text E (Provider.srid self) (Provider.table self) geometry attrs
          (tile_bounds E coord)) = Ok answer →
     "__geometry__" ∈ description answer →
     "__id__" ∉ description answer →
     let w' := (Provider.renderTile E self coord w).2 in
     lists w' !! a = Some (attrs ++ [sql_hash_id geometry]) ∧
     ∃ c, columns_cache w' !! geometry = Some c ∧
          sets w' !! c = Some (list_to_set (description answer) ∪ {[ "__id__" ]})) ∧
  (∀ (self : Provider.t) (geometry : string) (a : loc) coord (w : World) attrs c cols
     r w',
     Provider.attributes self !! geometry = Some a →
     Py.truthy_str (Some geometry) = true →
     (Provider.renderTile_geometry self (Coordinate.zoom coord) w).1
       = Ok (Some geometry) →
     lists w !! a = Some attrs →
     columns_cache w !! geometry = Some c →
     sets w !! c = Some cols →
     "__id__" ∈ cols →
     Provider.renderTile E self coord w = (Ok (a_Response r), w') →
     w' = w ∧
     ∀ format q item,
       Response.query r !! format = Some q → item ∈ attrs → names_word q item).
Proof.
  split; [|split].
  - intros srid table geometry attributes columns bounds tolerance is_geo is_clipped
      padding scale w attrs cols Ha Hc Hg Hi Hd run. subst run.
    rewrite (build_query_ok _ _ _ _ _ _ _ _ _ _ _ _ _ _ _ Ha Hc Hg Hd).
    unfold registered. rewrite (bool_decide_eq_false_2 _ Hi).
    repeat split.
  - intros self geometry a coord w attrs answer Hattr Ht Hgeo Ha Hcache Htol Hdb Hg Hi.
    rewrite (renderTile_true E self coord w geometry Hgeo Ht).
    apply (renderTile_response_first E self coord geometry w a attrs answer);
      assumption.
  - intros self geometry a coord w attrs c cols r w' Hattr Ht Hgeo Ha Hcache Hc Hi.
    rewrite (renderTile_true E self coord w geometry Hgeo Ht).
    apply (renderTile_response_later E self coord geometry w a c attrs cols r w');
      assumption.
Qed.

Lemma C9_identifier_persists_witness :
  let w1 := (first_request listed_provider listed_world).2 in
  lists w1 !! 0%nat = Some ["name"; sql_hash_id "way"] ∧
  (∃ c, columns_cache w1 !! "way" = Some c ∧
        sets w1 !! c = Some (list_to_set ["__geometry__"] ∪ {[ "__id__" ]})) ∧
  ∃ r, (second_request listed_provider listed_world).1 = Ok (a_Response r) ∧
       ∀ format q,
         Response.query r !! format = Some q → names_word q (sql_hash_id "way").
Proof.
  intros w1.
  destruct (C9_identifier_persists quiet_env) as (_ & Hfirst & Hlater).
  destruct (Hfirst listed_provider "way" 0%nat origin listed_world ["name"]
              (mkAnswer ["__geometry__"] [])) as [H1 H2].
  - reflexivity.
  - reflexivity.
  - reflexivity.
  - reflexivity.
  - reflexivity.
  - reflexivity.
  - reflexivity.
  - apply list_elem_of_singleton. reflexivity.
  - intros H%list_elem_of_singleton. discriminate H.
  - split; [exact H1|]. split; [exact H2|].
    destruct H2 as (c & Hc1 & Hc2).
    destruct (second_request listed_provider listed_world) as [res w2] eqn:Hsecond.
    assert (Hres : ∃ r, res = Ok (a_Response r)).
    { assert (Hq : is_Some (query_of (second_request listed_provider listed_world).1 "JSON"))
        by (vm_compute; eauto).
      rewrite Hsecond in Hq. cbn [fst] in Hq.
      destruct res as [[r|r]|e]; [eauto | | ];
        destruct Hq as [q Hq]; discriminate Hq. }
    destruct Hres as [r ->]. exists r. split; [reflexivity|].
    intros format q Hq.
    destruct (Hlater listed_provider "way" 0%nat origin w1 ["name"; sql_hash_id "way"] c
                (list_to_set ["__geometry__"] ∪ {[ "__id__" ]}) r w2) as [_ Hnames].
    + reflexivity.
    + reflexivity.
    + reflexivity.
    + exact H1.
    + exact Hc1.
    + exact Hc2.
    + apply elem_of_union. right. apply elem_of_singleton. reflexivity.
    + exact Hsecond.
    + apply (Hnames format q (sql_hash_id "way") Hq).
      apply elem_of_cons. right. apply list_elem_of_singleton. reflexivity.
Defined.

Lemma default_provider_init :
  (Provider.init ∅ "roads" [Some "way"] [] true 900913 1 16 [] None empty_world).1
    = Ok default_provider.
Proof. vm_compute. reflexivity. Qed.

(** C9, as the claim states it, fails for a provider built with the default
    [attributes=[]]: it holds no list for the geometry, the list that the
    first request passes to [build_query] is a new one, and the query of the
    second request for the same tile is without the expression. *)
Lemma C9_counterexample :
  let first := first_request default_provider empty_world in
  let second := second_request default_provider empty_world in
  Provider.attributes default_provider !! "way" = None ∧
  contains (sql_hash_id "way") <$> query_of first.1 "JSON" = Some true ∧
  contains (sql_hash_id "way") <$> query_of second.1 "JSON" = Some false ∧
  (∃ c cols, columns_cache second.2 !! "way" = Some c ∧
             sets second.2 !! c = Some cols ∧ "__id__" ∈ cols).
Proof.
  cbn zeta. split; [reflexivity|]. split; [vm_compute; reflexivity|].
  split; [vm_compute; reflexivity|].
  exists 0%nat, ({[ "__geometry__" ]} ∪ {[ "__id__" ]}).
  split; [vm_compute; reflexivity|]. split; [vm_compute; reflexivity|].
  apply elem_of_union. right. apply elem_of_singleton. reflexivity.
Qed.

(** ** The identifier column *)

(** Without [__geometry__] among the columns [build_query] raises. *)
Lemma build_query_without_geometry E srid table geometry attributes columns bounds
    tolerance is_geo is_clipped padding scale (w : World) attrs cols :
  lists w !! attributes = Some attrs →
  sets w !! columns = Some cols →
  "__geometry__" ∉ cols →
  build_query E srid table geometry attributes columns bounds tolerance
      is_geo is_clipped padding scale w =
    (if degenerate bounds scale then Raise ZeroDivisionError
     else Raise (Exception ("There's supposed to be a __geometry__ column. We got "
                              +:+ Py.join "," (elements cols))), w).
Proof.
  intros Ha Hc Hg.
  rewrite (build_query_run _ _ _ _ _ _ _ _ _ _ _ _ _ _ _ Ha Hc).
  rewrite (bool_decide_eq_false_2 _ Hg).
  destruct (degenerate bounds scale); reflexivity.
Qed.

(** Without [__id__] among the columns the SELECT ends its attributes with
    the hash of the geometry, and [__id__] is registered. *)
Lemma build_query_injects_id E srid table geometry attributes columns bounds
    tolerance is_geo is_clipped padding scale (w : World) attrs cols :
  lists w !! attributes = Some attrs →
  sets w !! columns = Some cols →
  "__geometry__" ∈ cols → "__id__" ∉ cols →
  degenerate bounds scale = false →
  ∃ w', build_query E srid table geometry attributes columns bounds tolerance
          is_geo is_clipped padding scale w =
          (Ok (query_text E srid table geometry (attrs ++ [sql_hash_id geometry])
                 bounds tolerance is_geo is_clipped padding scale), w') ∧
        sets w' !! columns = Some (cols ∪ {[ "__id__" ]}).
Proof.
  intros Ha Hc Hg Hi Hd. eexists. split.
  - rewrite (build_query_ok _ _ _ _ _ _ _ _ _ _ _ _ _ _ _ Ha Hc Hg Hd).
    unfold with_id. rewrite (bool_decide_eq_false_2 _ Hi). reflexivity.
  - apply registered_sets, Hc.
Qed.

(** C5, where the code departs from it.  A provider built with the default
    [attributes=[]] is asked the same tile twice.  The queries of the first
    response select the hash identifier; the first request has left
    [__id__] in the cached column set, the second request passes a new empty
    attribute list, and no query of the second response has an identifier
    column: each is [SELECT ,] followed by the geometry. *)
Theorem C5_second_request_without_identifier :
  let first := first_request default_provider empty_world in
  let second := second_request default_provider empty_world in
  Forall (λ format, contains "AS __id__" <$> query_of first.1 format = Some true)
    formats ∧
  Forall (λ format, contains "__id__" <$> query_of second.1 format = Some false)
    formats ∧
  Forall (λ format, String.prefix "SELECT ," <$> query_of second.1 format = Some true)
    formats ∧
  (build_query quiet_env 900913 "roads" "way" 0%nat 0%nat demo_bounds None false true
     0 None (demo_world [] {[ "__geometry__"; "__id__" ]})).1 =
    Ok (query_text quiet_env 900913 "roads" "way" [] demo_bounds None false true 0 None).
Proof.
  cbn zeta. split; [|split; [|split]].
  - repeat constructor; vm_compute; reflexivity.
  - repeat constructor; vm_compute; reflexivity.
  - repeat constructor; vm_compute; reflexivity.
  - vm_compute. reflexivity.
Qed.

(** * Further properties of the module *)

(** ** Extensions and formats *)

Lemma lower_ascii_idemp (c : ascii) : Py.lower_ascii (Py.lower_ascii c) = Py.lower_ascii c.
Proof. destruct c as [[] [] [] [] [] [] [] []]; reflexivity. Qed.

Lemma lower_idemp (s : string) : Py.lower (Py.lower s) = Py.lower s.
Proof.
  induction s as [|c s IH]; [reflexivity|].
  cbn [Py.lower]. rewrite lower_ascii_idemp, IH. reflexivity.
Qed.

Ltac in_list := rewrite ?elem_of_cons, ?elem_of_nil.

(** X1. [Provider.getTypeByExtension] looks at the extension in lower case
    only: the five extensions, in any letter case, give a mime type and one
    of the five formats; every other extension raises [ValueError] with a
    message that starts with the extension as it was given. *)
Theorem getTypeByExtension_table (extension : string) :
  (Py.lower extension ∈ extensions →
   ∃ mime format,
     Provider.getTypeByExtension extension = Ok (mime, format) ∧
     Provider.getTypeByExtension (Py.lower extension) = Ok (mime, format) ∧
     format ∈ formats) ∧
  (Py.lower extension ∉ extensions →
   Provider.getTypeByExtension extension =
     Raise (ValueError (extension +:+ " is not a valid extension"))).
Proof.
  unfold Provider.getTypeByExtension, extensions, formats. rewrite lower_idemp.
  destruct (String.eqb_spec (Py.lower extension) "mvt") as [->|H1].
  { split; [intros _; do 2 eexists; repeat split; in_list; auto 10|].
    intros H. exfalso. apply H. in_list. auto. }
  destruct (String.eqb_spec (Py.lower extension) "json") as [->|H2].
  { split; [intros _; do 2 eexists; repeat split; in_list; auto 10|].
    intros H. exfalso. apply H. in_list. auto. }
  destruct (String.eqb_spec (Py.lower extension) "topojson") as [->|H3].
  { split; [intros _; do 2 eexists; repeat split; in_list; auto 10|].
    intros H. exfalso. apply H. in_list. auto. }
  destruct (String.eqb_spec (Py.lower extension) "vtm") as [->|H4].
  { split; [intros _; do 2 eexists; repeat split; in_list; auto 10|].
    intros H. exfalso. apply H. in_list. auto 10. }
  destruct (String.eqb_spec (Py.lower extension) "mapbox") as [->|H5].
  { split; [intros _; do 2 eexists; repeat split; in_list; auto 10|].
    intros H. exfalso. apply H. in_list. auto 10. }
  split; [|reflexivity].
  in_list. intros [?|[?|[?|[?|[?|[]]]]]]; contradiction.
Qed.

Lemma getTypeByExtension_table_witness :
  (∃ mime format,
     Provider.getTypeByExtension "TopoJSON" = Ok (mime, format) ∧
     Provider.getTypeByExtension (Py.lower "TopoJSON") = Ok (mime, format) ∧
     format ∈ formats) ∧
  Provider.getTypeByExtension "png" = Raise (ValueError "png is not a valid extension").
Proof.
  destruct (getTypeByExtension_table "TopoJSON") as [H1 _].
  destruct (getTypeByExtension_table "png") as [_ H2].
  split.
  - apply H1. unfold extensions. in_list. auto.
  - apply H2. unfold extensions. in_list.
    intros [H|[H|[H|[H|[H|[]]]]]]; discriminate H.
Defined.

(** X2. [MultiProvider.getTypeByExtension] accepts what the provider of a
    single layer accepts, with the same answer, except ["mvt"]: the binary
    tile format has no multi-layer response. *)
Theorem multi_getTypeByExtension_table (extension : string) :
  (Py.lower extension ∈ extensions → Py.lower extension ≠ "mvt" →
   ∃ answer, MultiProvider.getTypeByExtension extension = Ok answer ∧
             Provider.getTypeByExtension extension = Ok answer) ∧
  (Py.lower extension ∉ extensions ∨ Py.lower extension = "mvt" →
   MultiProvider.getTypeByExtension extension =
     Raise (ValueError (extension +:+
              " is not a valid extension for responses with multiple layers"))).
Proof.
  unfold MultiProvider.getTypeByExtension, Provider.getTypeByExtension, extensions.
  destruct (String.eqb_spec (Py.lower extension) "mvt") as [Hm|H1].
  { rewrite Hm. split; [intros _ H; contradiction|]. intros _. reflexivity. }
  destruct (String.eqb_spec (Py.lower extension) "json") as [->|H2].
  { split; [eauto|]. in_list. intros [H|H]; [exfalso; apply H; auto | discriminate H]. }
  destruct (String.eqb_spec (Py.lower extension) "topojson") as [->|H3].
  { split; [eauto|]. in_list. intros [H|H]; [exfalso; apply H; auto | discriminate H]. }
  destruct (String.eqb_spec (Py.lower extension) "vtm") as [->|H4].
  { split; [eauto|]. in_list. intros [H|H]; [exfalso; apply H; auto 10 | discriminate H]. }
  destruct (String.eqb_spec (Py.lower extension) "mapbox") as [->|H5].
  { split; [eauto|]. in_list. intros [H|H]; [exfalso; apply H; auto 10 | discriminate H]. }
  split; [|reflexivity].
  in_list. intros [?|[?|[?|[?|[?|[]]]]]]; contradiction.
Qed.

Lemma multi_getTypeByExtension_table_witness :
  (∃ answer, MultiProvider.getTypeByExtension "VTM" = Ok answer ∧
             Provider.getTypeByExtension "VTM" = Ok answer) ∧
  MultiProvider.getTypeByExtension "mvt" =
    Raise (ValueError "mvt is not a valid extension for responses with multiple layers").
Proof.
  destruct (multi_getTypeByExtension_table "VTM") as [H1 _].
  destruct (multi_getTypeByExtension_table "mvt") as [_ H2].
  split.
  - apply H1; [unfold extensions; in_list; auto 10 | discriminate].
  - apply H2. right. reflexivity.
Defined.

(** ** Saving *)

(** X3. [EmptyResponse.save] answers each of the five formats with a call
    of the codec of that format on no feature: the binary codec for MVT,
    the GeoJSON codec with zoom 0 and no clipping for JSON, the TopoJSON
    codec with the bounds of the response in longitude and latitude and no
    clipping for TopoJSON, and the two proprietary codecs without a
    coordinate; it raises [ValueError] for any other format; it returns in
    no other case, and in every case leaves the world as it is: it never
    reaches the database. *)
Theorem EmptyResponse_save_total E (self : EmptyResponse.t) (format : string) (w : World) :
  let run := EmptyResponse.save E self format w in
  (format = "MVT" → run = (Ok (mvt_encode []), w)) ∧
  (format = "JSON" → run = (Ok (geojson_encode [] 0 false), w)) ∧
  (format = "TopoJSON" →
   run = (Ok (topojson_encode [] (lonlat_bounds E (EmptyResponse.bounds self)) false), w)) ∧
  (format = "OpenScienceMap" → run = (Ok (oscimap_encode [] None None), w)) ∧
  (format = "Mapbox" → run = (Ok (mapbox_encode [] None None), w)) ∧
  (format ∉ formats → run = (Raise (ValueError (format +:+ " is not supported")), w)) ∧
  (is_ok run.1 = true ↔ format ∈ formats) ∧
  run.2 = w.
Proof.
  cbn zeta. unfold EmptyResponse.save, formats. in_list.
  destruct (String.eqb_spec format "MVT") as [->|H1].
  { repeat split; try discriminate; auto 10. intros H. exfalso. apply H. auto 10. }
  destruct (String.eqb_spec format "JSON") as [->|H2].
  { repeat split; try discriminate; auto 10. intros H. exfalso. apply H. auto 10. }
  destruct (String.eqb_spec format "TopoJSON") as [->|H3].
  { repeat split; try discriminate; auto 10. intros H. exfalso. apply H. auto 10. }
  destruct (String.eqb_spec format "OpenScienceMap") as [->|H4].
  { repeat split; try discriminate; auto 10. intros H. exfalso. apply H. auto 10. }
  destruct (String.eqb_spec format "Mapbox") as [->|H5].
  { repeat split; try discriminate; auto 10. intros H. exfalso. apply H. auto 10. }
  repeat split; try contradiction; try reflexivity.
  - discriminate.
  - intros [?|[?|[?|[?|[?|[]]]]]]; contradiction.
Qed.

Lemma EmptyResponse_save_total_witness :
  EmptyResponse.save quiet_env (EmptyResponse.mk demo_bounds) "JSON" empty_world
    = (Ok (geojson_encode [] 0 false), empty_world) ∧
  EmptyResponse.save quiet_env (EmptyResponse.mk demo_bounds) "Mapbox" empty_world
    = (Ok (mapbox_encode [] None None), empty_world) ∧
  EmptyResponse.save quiet_env (EmptyResponse.mk demo_bounds) "PNG" empty_world =
    (Raise (ValueError "PNG is not supported"), empty_world).
Proof.
  destruct (EmptyResponse_save_total quiet_env (EmptyResponse.mk demo_bounds) "JSON"
              empty_world) as (_ & H1 & _).
  destruct (EmptyResponse_save_total quiet_env (EmptyResponse.mk demo_bounds) "Mapbox"
              empty_world) as (_ & _ & _ & _ & H2 & _).
  destruct (EmptyResponse_save_total quiet_env (EmptyResponse.mk demo_bounds) "PNG"
              empty_world) as (_ & _ & _ & _ & _ & H3 & _).
  split; [apply H1; reflexivity|]. split; [apply H2; reflexivity|].
  apply H3. unfold formats. in_list.
  intros [H|[H|[H|[H|[H|[]]]]]]; discriminate H.
Defined.

Lemma bind_Ok_inv {A B} (m : M A) (f : A → M B) (w w' : World) (b : B) :
  (m ≫= f) w = (Ok b, w') → ∃ a w1, m w = (Ok a, w1) ∧ f a w1 = (Ok b, w').
Proof.
  unfold mbind, M_bind. destruct (m w) as [[a|e] w1]; [eauto|discriminate].
Qed.

(** What a response that [__init__] has built looks like. *)
Lemma Response_init_Ok E dbinfo srid table geometry attributes columns bounds
    tolerance zoom clip coord layer_name geometry_types (w w' : World) (r : Response.t) :
  Response.init E dbinfo srid table geometry attributes columns bounds
      tolerance zoom clip coord layer_name geometry_types w = (Ok r, w') →
  ∃ geo_query merc_query oscimap_query mapbox_query,
    r = Response.mk dbinfo table geometry bounds zoom clip coord layer_name
          geometry_types
          (<["TopoJSON" := geo_query]> (<["JSON" := geo_query]>
            (<["MVT" := merc_query]> (<["OpenScienceMap" := oscimap_query]>
              (<["Mapbox" := mapbox_query]> ∅))))).
Proof.
  unfold Response.init. intros H.
  apply bind_Ok_inv in H as (geo_query & w1 & _ & H).
  apply bind_Ok_inv in H as (merc_query & w2 & _ & H).
  apply bind_Ok_inv in H as (tol1 & w3 & _ & H).
  apply bind_Ok_inv in H as (oscimap_query & w4 & _ & H).
  apply bind_Ok_inv in H as (tol2 & w5 & _ & H).
  apply bind_Ok_inv in H as (mapbox_query & w6 & _ & H).
  injection H as <- _. eauto.
Qed.

Lemma five_keys (q1 q2 q3 q4 q5 : string) (format : string) :
  is_Some ((<["TopoJSON" := q1]> (<["JSON" := q2]> (<["MVT" := q3]>
             (<["OpenScienceMap" := q4]> (<["Mapbox" := q5]> ∅))))
            : gmap string string) !! format)
  ↔ format ∈ formats.
Proof.
  unfold formats. in_list. unfold is_Some. split.
  - intros [q Hq]. rewrite !lookup_insert_Some, lookup_empty in Hq.
    destruct Hq as [[<- _]|[_ [[<- _]|[_ [[<- _]|[_ [[<- _]|[_ [[<- _]|[_ Hq]]]]]]]]]];
      auto 10. discriminate Hq.
  - intros [->|[->|[->|[->|[->|[]]]]]]; eexists; vm_compute; reflexivity.
Qed.



(** X5. [Response.save] on a response that [__init__] has built: a format
    that is not one of the five raises [KeyError] from the lookup of its
    query, before the database is reached (the [ValueError] of the last
    branch is never raised); for one of the five, the stored query of the
    format goes to [get_features], whose error is raised as it is and whose
    features are handed to the codec of the format. *)
Theorem Response_save_built E dbinfo srid table geometry attributes columns bounds
    tolerance zoom clip coord layer_name geometry_types (w w' : World) (r : Response.t)
    (format : string) (w0 : World) :
  Response.init E dbinfo srid table geometry attributes columns bounds
      tolerance zoom clip coord layer_name geometry_types w = (Ok r, w') →
  (format ∉ formats →
   Response.save E r format w0 = (Raise (KeyError format), w0)) ∧
  (format ∈ formats →
   ∃ q, Response.query r !! format = Some q ∧
        match get_features E dbinfo q geometry_types 1 w0 with
        | (Ok features, w1) =>
            ∃ call, Response.save E r format w0 = (Ok call, w1) ∧
                    call_features call = features
        | (Raise e, w1) => Response.save E r format w0 = (Raise e, w1)
        end).
Proof.
  intros H. apply Response_init_Ok in H as (q1 & q2 & q3 & q4 & ->).
  unfold Response.save. cbn [Response.query Response.dbinfo Response.geometry_types].
  split.
  - intros Hf.
    destruct (_ !! format) as [q|] eqn:Hq.
    + exfalso. apply Hf. apply (five_keys q1 q1 q2 q3 q4). rewrite Hq. eauto.
    + reflexivity.
  - intros Hf. pose proof (proj2 (five_keys q1 q1 q2 q3 q4 format) Hf) as [q Hq].
    exists q. split; [exact Hq|]. rewrite Hq. run_M.
    destruct (get_features E dbinfo q geometry_types 1 w0) as [[features|e] w1];
      [|reflexivity].
    unfold formats in Hf. revert Hf. in_list.
    intros [->|[->|[->|[->|[->|[]]]]]]; eexists; (split; [reflexivity|reflexivity]).
Qed.

Lemma Response_save_built_witness :
  let w := demo_world ["name"] {[ "__geometry__" ]} in
  ∃ r w',
    Response.init quiet_env ∅ 900913 "roads" "way" 0%nat 0%nat demo_bounds None 3 true
      (Coordinate.mk 0 0 3) "roads" None w = (Ok r, w') ∧
    Response.save quiet_env r "PNG" empty_world = (Raise (KeyError "PNG"), empty_world).
Proof.
  intros w.
  destruct (Response.init quiet_env ∅ 900913 "roads" "way" 0%nat 0%nat demo_bounds None
              3 true (Coordinate.mk 0 0 3) "roads" None w) as [res w'] eqn:Hinit.
  assert (Hok : is_ok res = true).
  { replace res with (res, w').1 by reflexivity. rewrite <- Hinit.
    vm_compute. reflexivity. }
  destruct res as [r|e]; [|discriminate Hok].
  exists r, w'. split; [reflexivity|].
  destruct (Response_save_built _ _ _ _ _ _ _ _ _ _ _ _ _ _ _ _ _ "PNG" empty_world Hinit)
    as [H1 _].
  apply H1. unfold formats. in_list.
  intros [H|[H|[H|[H|[H|[]]]]]]; discriminate H.
Defined.

(** ** What the query builder leaves alone *)

(** The world after [build_query], whatever its arguments: the world
    before, or the world with the identifier registered. *)
Lemma build_query_world E srid table geometry attributes columns bounds tolerance
    is_geo is_clipped padding scale (w : World) :
  let w' := (build_query E srid table geometry attributes columns bounds tolerance
               is_geo is_clipped padding scale w).2 in
  w' = w ∨
  ∃ attrs cols,
    lists w !! attributes = Some attrs ∧ sets w !! columns = Some cols ∧
    ("__id__" ∉ cols) ∧
    w' = set_sets (insert columns (cols ∪ {[ "__id__" ]}))
           (set_lists (insert attributes (attrs ++ [sql_hash_id geometry])) w).
Proof.
  cbn zeta.
  destruct (lists w !! attributes) as [attrs|] eqn:Ha;
    destruct (sets w !! columns) as [cols|] eqn:Hc.
  - rewrite (build_query_run _ _ _ _ _ _ _ _ _ _ _ _ _ _ _ Ha Hc).
    destruct (degenerate bounds scale); [auto|].
    destruct (negb (bool_decide ("__geometry__" ∈ cols))); [auto|].
    destruct (bool_decide ("__id__" ∈ cols)) eqn:Hi; [auto|].
    right. exists attrs, cols. apply bool_decide_eq_false in Hi. auto.
  - left. unfold build_query.
    destruct scale as [s|]; [destruct (Py.truthy_num (Some s))|]; run_M;
      repeat (destruct (Qeq_bool _ 0)); rewrite ?Hc; reflexivity.
  - left. unfold build_query.
    destruct scale as [s|]; [destruct (Py.truthy_num (Some s))|]; run_M;
      repeat (destruct (Qeq_bool _ 0)); rewrite ?Hc; try reflexivity;
      destruct (bool_decide ("__geometry__" ∈ cols)); try reflexivity;
      destruct (bool_decide ("__id__" ∈ cols)); cbn [negb]; rewrite ?Ha; reflexivity.
  - left. unfold build_query.
    destruct scale as [s|]; [destruct (Py.truthy_num (Some s))|]; run_M;
      repeat (destruct (Qeq_bool _ 0)); rewrite ?Hc; reflexivity.
Qed.

(** X6. [build_query] only builds text: whatever its arguments, it
    executes nothing, decodes nothing, prints nothing and leaves the column
    cache as it is; in the store it touches no list but [attributes], which
    can only grow at its end, and no set but [columns], which can only
    grow. *)
Theorem build_query_frame E srid table geometry attributes columns bounds tolerance
    is_geo is_clipped padding scale (w : World) :
  let w' := (build_query E srid table geometry attributes columns bounds tolerance
               is_geo is_clipped padding scale w).2 in
  executed w' = executed w ∧ decoded w' = decoded w ∧ stdout w' = stdout w ∧
  columns_cache w' = columns_cache w ∧
  (∀ a, a ≠ attributes → lists w' !! a = lists w !! a) ∧
  (∀ c, c ≠ columns → sets w' !! c = sets w !! c) ∧
  (∀ attrs, lists w !! attributes = Some attrs →
     ∃ more, lists w' !! attributes = Some (attrs ++ more)) ∧
  (∀ cols, sets w !! columns = Some cols →
     ∃ cols', sets w' !! columns = Some cols' ∧ cols ⊆ cols').
Proof.
  intros w'.
  destruct (build_query_world E srid table geometry attributes columns bounds tolerance
              is_geo is_clipped padding scale w) as [Hw|(attrs & cols & Ha & Hc & Hi & Hw)];
    fold w' in Hw; rewrite Hw.
  - repeat split; try reflexivity.
    + intros attrs Ha. exists []. rewrite app_nil_r. exact Ha.
    + intros cols Hc. exists cols. split; [exact Hc|reflexivity].
  - cbn. repeat split.
    + intros a Hne. apply lookup_insert_ne. congruence.
    + intros c Hne. apply lookup_insert_ne. congruence.
    + intros attrs0 Ha0. rewrite Ha in Ha0. injection Ha0 as <-.
      rewrite lookup_insert_eq. eauto.
    + intros cols0 Hc0. rewrite Hc in Hc0. injection Hc0 as <-.
      rewrite lookup_insert_eq. eexists. split; [reflexivity|].
      apply union_subseteq_l.
Qed.

Lemma build_query_frame_witness :
  let w := demo_world ["name"] {[ "__geometry__" ]} in
  let w' := (build_query quiet_env 900913 "roads" "way" 0%nat 0%nat demo_bounds None
               true true 0 None w).2 in
  (∃ more, lists w' !! 0%nat = Some (["name"] ++ more)) ∧
  (∃ cols', sets w' !! 0%nat = Some cols' ∧ {[ "__geometry__" ]} ⊆ cols').
Proof.
  intros w.
  destruct (build_query_frame quiet_env 900913 "roads" "way" 0%nat 0%nat demo_bounds None
              true true 0 None w) as (_ & _ & _ & _ & _ & _ & Hl & Hs).
  split.
  - apply Hl. reflexivity.
  - apply Hs. reflexivity.
Defined.

(** X7. Asking [build_query] twice is asking it once: with a list and a set
    in the store, the second call with the same arguments returns what the
    first returned (the same text, or the same exception) and changes
    nothing, so the identifier expression is appended at most once. *)
Theorem build_query_twice E srid table geometry attributes columns bounds tolerance
    is_geo is_clipped padding scale (w : World) attrs cols :
  lists w !! attributes = Some attrs →
  sets w !! columns = Some cols →
  let first := build_query E srid table geometry attributes columns bounds tolerance
                 is_geo is_clipped padding scale w in
  build_query E srid table geometry attributes columns bounds tolerance
    is_geo is_clipped padding scale first.2 = first.
Proof.
  intros Ha Hc first. subst first.
  rewrite (build_query_run _ _ _ _ _ _ _ _ _ _ _ _ _ _ _ Ha Hc).
  destruct (degenerate bounds scale) eqn:Hd.
  { cbn [snd]. rewrite (build_query_run _ _ _ _ _ _ _ _ _ _ _ _ _ _ _ Ha Hc), Hd.
    reflexivity. }
  destruct (bool_decide ("__geometry__" ∈ cols)) eqn:Hg; cbn [negb].
  2:{ cbn [snd]. rewrite (build_query_run _ _ _ _ _ _ _ _ _ _ _ _ _ _ _ Ha Hc), Hd, Hg.
      reflexivity. }
  destruct (bool_decide ("__id__" ∈ cols)) eqn:Hi.
  { cbn [snd]. rewrite (build_query_run _ _ _ _ _ _ _ _ _ _ _ _ _ _ _ Ha Hc), Hd, Hg, Hi.
    reflexivity. }
  cbn [snd].
  rewrite (build_query_run _ _ _ _ _ _ _ _ _ _ _ _
             (set_sets (insert columns (cols ∪ {[ "__id__" ]}))
                (set_lists (insert attributes (attrs ++ [sql_hash_id geometry])) w))
             (attrs ++ [sql_hash_id geometry]) (cols ∪ {[ "__id__" ]}));
    [|cbn; apply lookup_insert_eq..].
  rewrite Hd.
  apply bool_decide_eq_true in Hg.
  rewrite (bool_decide_eq_true_2 ("__geometry__" ∈ cols ∪ {[ "__id__" ]}))
    by (apply elem_of_union; auto).
  rewrite (bool_decide_eq_true_2 ("__id__" ∈ cols ∪ {[ "__id__" ]}))
    by (apply elem_of_union; right; apply elem_of_singleton; reflexivity).
  reflexivity.
Qed.

Lemma build_query_twice_witness :
  let first := build_query quiet_env 900913 "roads" "way" 0%nat 0%nat demo_bounds
                 (Some (1 # 2)%Q) false true 5 (Some 4096%Q)
                 (demo_world ["name"] {[ "__geometry__" ]}) in
  build_query quiet_env 900913 "roads" "way" 0%nat 0%nat demo_bounds
    (Some (1 # 2)%Q) false true 5 (Some 4096%Q) first.2 = first.
Proof.
  apply (build_query_twice quiet_env 900913 "roads" "way" 0%nat 0%nat demo_bounds
           (Some (1 # 2)%Q) false true 5 (Some 4096%Q)
           (demo_world ["name"] {[ "__geometry__" ]}) ["name"] {[ "__geometry__" ]});
    reflexivity.
Defined.

(** ** The column resolver and the cache *)

(** X8. [query_columns] executes one statement, the probe, which ends in a
    line feed and [ LIMIT 0]; when the server answers, the names of the
    description are put in a set that no reference of the store named
    before, and when the server fails the error is raised and no set is
    made; the lists and the column cache are left alone. *)
Theorem query_columns_probe E dbinfo srid table geometry attributes bounds
    (w : World) attrs :
  lists w !! attributes = Some attrs →
  let probe := probe_text E srid table geometry attrs bounds in
  let run := query_columns E dbinfo srid table geometry attributes bounds w in
  executed run.2 = executed w ++ [probe] ∧
  (∃ select, probe = select +:+ Py.nl +:+ " LIMIT 0") ∧
  lists run.2 = lists w ∧ columns_cache run.2 = columns_cache w ∧
  match db E (length (executed w)) probe with
  | Ok answer =>
      ∃ c, run.1 = Ok c ∧ sets w !! c = None ∧
           sets run.2 = <[c := list_to_set (description answer)]> (sets w)
  | Raise e => run.1 = Raise e ∧ sets run.2 = sets w
  end.
Proof.
  intros Ha probe run. subst run probe.
  unfold query_columns, db_execute, new_set, probe_text. run_M. rewrite Ha.
  match goal with |- context [db E ?k ?q] => destruct (db E k q) as [answer|e] end.
  - cbn. repeat split; eauto.
    exists (fresh (dom (sets w))). repeat split.
    apply not_elem_of_dom, is_fresh.
  - cbn. repeat split; eauto.
Qed.

Lemma query_columns_probe_witness :
  let run := query_columns quiet_env ∅ 900913 "roads" "way" 0%nat demo_bounds
               listed_world in
  executed run.2 = [probe_text quiet_env 900913 "roads" "way" ["name"] demo_bounds] ∧
  ∃ c, run.1 = Ok c ∧ sets listed_world !! c = None ∧
       sets run.2 = <[c := list_to_set ["__geometry__"]]> (sets listed_world).
Proof.
  intros run.
  destruct (query_columns_probe quiet_env ∅ 900913 "roads" "way" 0%nat demo_bounds
              listed_world ["name"]) as (H1 & _ & _ & _ & H2).
  - reflexivity.
  - split; [exact H1 | exact H2].
Defined.

(** ** Building a response *)

(** What [Response.__init__] does, by cases, for a list and a set of the
    store: the checks fail in the order of the lines, and the identifier
    is registered by the first query. *)
Lemma Response_init_run E dbinfo srid table geometry attributes columns bounds
    tolerance zoom clip coord layer_name geometry_types (w : World) attrs cols :
  lists w !! attributes = Some attrs →
  sets w !! columns = Some cols →
  Response.init E dbinfo srid table geometry attributes columns bounds
      tolerance zoom clip coord layer_name geometry_types w =
    if negb (bool_decide ("__geometry__" ∈ cols)) then
      (Raise (Exception ("There's supposed to be a __geometry__ column. We got "
                           +:+ Py.join "," (elements cols))), w)
    else
      let w1 := registered geometry attributes columns attrs cols w in
      match Py.index tolerances (Coordinate.zoom coord) with
      | None => (Raise IndexError, w1)
      | Some tol =>
          if degenerate bounds (Some (oscimap_extents E))
             || degenerate bounds (Some (mapbox_extents E))
          then (Raise ZeroDivisionError, w1)
          else
            (Ok (Response.mk dbinfo table geometry bounds zoom clip coord layer_name
                   geometry_types
                   (query_dict E srid table geometry (with_id geometry attrs cols)
                      bounds tolerance clip tol)), w1)
      end.
Proof.
  intros Ha Hc. unfold Response.init.
  destruct (bool_decide ("__geometry__" ∈ cols)) eqn:Hg; cbn [negb].
  2:{ apply bool_decide_eq_false in Hg. unfold mbind at 1, M_bind at 1.
      rewrite (build_query_without_geometry _ _ _ _ _ _ _ _ _ _ _ _ _ _ _ Ha Hc Hg).
      reflexivity. }
  apply bool_decide_eq_true in Hg.
  assert (Ha1 := registered_lists geometry attributes columns attrs cols w Ha).
  assert (Hc1 := registered_sets geometry attributes columns attrs cols w Hc).
  assert (Hg1 : "__geometry__" ∈ cols ∪ {[ "__id__" ]}) by (apply elem_of_union; auto).
  cbn zeta. set (w1 := registered geometry attributes columns attrs cols w) in *.
  unfold mbind at 1, M_bind at 1.
  rewrite (build_query_ok _ _ _ _ _ _ _ _ _ _ _ _ _ _ _ Ha Hc Hg (degenerate_no_scale _)).
  fold w1.
  unfold mbind at 1, M_bind at 1.
  rewrite (build_query_ok _ _ _ _ _ _ _ _ _ _ _ _ _ _ _ Ha1 Hc1 Hg1 (degenerate_no_scale _)).
  unfold w1 at 1. rewrite registered_twice, with_id_twice. fold w1.
  unfold mbind at 1, M_bind at 1.
  destruct (Py.index tolerances (Coordinate.zoom coord)) as [tol|]; [|reflexivity].
  cbn [or_raise]. unfold mret at 1, M_ret at 1.
  unfold mbind at 1, M_bind at 1.
  destruct (degenerate bounds (Some (oscimap_extents E))) eqn:Hd1.
  { rewrite (build_query_run _ _ _ _ _ _ _ _ _ _ _ _ _ _ _ Ha1 Hc1), Hd1. reflexivity. }
  rewrite (build_query_ok _ _ _ _ _ _ _ _ _ _ _ _ _ _ _ Ha1 Hc1 Hg1 Hd1).
  unfold w1 at 1. rewrite registered_twice, with_id_twice. fold w1.
  unfold mbind at 1, M_bind at 1. unfold mret at 1, M_ret at 1.
  unfold mbind at 1, M_bind at 1.
  destruct (degenerate bounds (Some (mapbox_extents E))) eqn:Hd2.
  { rewrite (build_query_run _ _ _ _ _ _ _ _ _ _ _ _ _ _ _ Ha1 Hc1), Hd2. reflexivity. }
  rewrite (build_query_ok _ _ _ _ _ _ _ _ _ _ _ _ _ _ _ Ha1 Hc1 Hg1 Hd2).
  unfold w1 at 1. rewrite registered_twice, with_id_twice. fold w1.
  reflexivity.
Qed.

(** X9. [Response.__init__] for a list and a set of the store fails in the
    order of its lines: without [__geometry__] among the columns the first
    query raises and the store is untouched; otherwise the identifier is
    registered, and then a zoom outside the table of tolerances raises
    [IndexError], a box without width or height (with an extent that is
    not zero) raises [ZeroDivisionError], and in every other case the
    response is returned, its five queries selecting one and the same
    attribute list. *)
Theorem Response_init_outcomes E dbinfo srid table geometry attributes columns bounds
    tolerance zoom clip coord layer_name geometry_types (w : World) attrs cols :
  lists w !! attributes = Some attrs →
  sets w !! columns = Some cols →
  let run := Response.init E dbinfo srid table geometry attributes columns bounds
               tolerance zoom clip coord layer_name geometry_types w in
  let w1 := registered geometry attributes columns attrs cols w in
  ("__geometry__" ∉ cols → ∃ msg, run = (Raise (Exception msg), w)) ∧
  ("__geometry__" ∈ cols →
   Py.index tolerances (Coordinate.zoom coord) = None → run = (Raise IndexError, w1)) ∧
  (∀ tol,
     "__geometry__" ∈ cols →
     Py.index tolerances (Coordinate.zoom coord) = Some tol →
     (degenerate bounds (Some (oscimap_extents E))
        || degenerate bounds (Some (mapbox_extents E)) = true →
      run = (Raise ZeroDivisionError, w1)) ∧
     (degenerate bounds (Some (oscimap_extents E))
        || degenerate bounds (Some (mapbox_extents E)) = false →
      run = (Ok (Response.mk dbinfo table geometry bounds zoom clip coord layer_name
                   geometry_types
                   (query_dict E srid table geometry (with_id geometry attrs cols)
                      bounds tolerance clip tol)), w1))).
Proof.
  intros Ha Hc run w1. subst run w1.
  rewrite (Response_init_run _ _ _ _ _ _ _ _ _ _ _ _ _ _ _ _ _ Ha Hc).
  split; [|split].
  - intros Hg. rewrite (bool_decide_eq_false_2 _ Hg). cbn [negb]. eauto.
  - intros Hg Hi. rewrite (bool_decide_eq_true_2 _ Hg), Hi. reflexivity.
  - intros tol Hg Hi. rewrite (bool_decide_eq_true_2 _ Hg), Hi. cbn [negb].
    split; intros ->; reflexivity.
Qed.

Lemma Response_init_outcomes_witness :
  let w := demo_world ["name"] {[ "__geometry__" ]} in
  Response.init quiet_env ∅ 900913 "roads" "way" 0%nat 0%nat demo_bounds None 3 true
      (Coordinate.mk 0 0 3) "roads" None w =
    (Ok (Response.mk ∅ "roads" "way" demo_bounds 3 true (Coordinate.mk 0 0 3) "roads" None
           (query_dict quiet_env 900913 "roads" "way"
              ["name"; sql_hash_id "way"] demo_bounds None true
              (circumference / inject_Z (2 ^ (3 + 8)))%Q)),
     registered "way" 0%nat 0%nat ["name"] {[ "__geometry__" ]} w).
Proof.
  intros w.
  destruct (Response_init_outcomes quiet_env ∅ 900913 "roads" "way" 0%nat 0%nat
              demo_bounds None 3 true (Coordinate.mk 0 0 3) "roads" None w
              ["name"] {[ "__geometry__" ]}) as (_ & _ & H).
  - reflexivity.
  - reflexivity.
  - destruct (H (circumference / inject_Z (2 ^ (3 + 8)))%Q) as [_ Hok].
    + apply elem_of_singleton. reflexivity.
    + reflexivity.
    + apply Hok. reflexivity.
Defined.

(** ** Rendering a tile *)

Lemma renderTile_tolerance_any_world (self : Provider.t) (zoom : Z) (w w' : World) :
  (Provider.renderTile_tolerance self zoom w).1
    = (Provider.renderTile_tolerance self zoom w').1.
Proof.
  unfold Provider.renderTile_tolerance.
  destruct (bool_decide _); [reflexivity|].
  destruct (zoom <? _); [|reflexivity].
  run_M. destruct (Py.index tolerances zoom); reflexivity.
Qed.

(** Lines 159-175 of [renderTile], once the attribute list is at hand and
    the tolerance is computed: a probe when the cache has no entry for the
    geometry, then [Response.__init__]. *)
Lemma renderTile_response_run E (self : Provider.t) (coord : Coordinate.t)
    (geometry : string) (w w0 : World) (a : loc) (tolerance : option Q) :
  (match Provider.attributes self !! geometry with
   | Some a => mret a
   | None => new_list []
   end) w = (Ok a, w0) →
  (Provider.renderTile_tolerance self (Coordinate.zoom coord) w).1 = Ok tolerance →
  Provider.renderTile_response E self coord geometry w =
    match columns_cache w0 !! geometry with
    | Some c =>
        as_tile (Response.init E (Provider.dbinfo self) (Provider.srid self)
                   (Provider.table self) geometry a c (tile_bounds E coord) tolerance
                   (Coordinate.zoom coord) (Provider.clip self) coord (layer_name E)
                   (Provider.geometry_types self) w0)
    | None =>
        match query_columns E (Provider.dbinfo self) (Provider.srid self)
                (Provider.table self) geometry a (tile_bounds E coord) w0 with
        | (Ok c, w2) =>
            as_tile (Response.init E (Provider.dbinfo self) (Provider.srid self)
                       (Provider.table self) geometry a c (tile_bounds E coord)
                       tolerance (Coordinate.zoom coord) (Provider.clip self) coord
                       (layer_name E) (Provider.geometry_types self)
                       (set_columns_cache (insert geometry c) w2))
        | (Raise e, w2) => (Raise e, w2)
        end
    end.
Proof.
  intros H0 Htol. unfold Provider.renderTile_response.
  unfold mbind at 1, M_bind at 1. rewrite H0.
  unfold mbind at 1, M_bind at 1.
  rewrite renderTile_tolerance_world,
    (renderTile_tolerance_any_world self (Coordinate.zoom coord) w0 w), Htol.
  fold (tile_bounds E coord).
  unfold mbind at 1, M_bind at 1. unfold get_world at 1.
  destruct (columns_cache w0 !! geometry) as [c|] eqn:Hcache.
  - unfold mbind at 1, M_bind at 1. unfold mret at 1, M_ret at 1.
    unfold mbind at 1, M_bind at 1. unfold get_world at 1.
    rewrite Hcache. cbn [or_raise].
    unfold mbind at 1, M_bind at 1. unfold mret at 1, M_ret at 1.
    unfold mbind, M_bind, as_tile.
    destruct (Response.init _ _ _ _ _ _ _ _ _ _ _ _ _ _ _) as [[r|e] w1]; reflexivity.
  - unfold mbind at 1, M_bind at 1.
    unfold mbind at 1, M_bind at 1.
    destruct (query_columns _ _ _ _ _ _ _ w0) as [[c|e] w2]; [|reflexivity].
    unfold modify at 1.
    unfold mbind at 1, M_bind at 1. unfold get_world at 1.
    cbn [columns_cache set_columns_cache]. rewrite lookup_insert_eq. cbn [or_raise].
    unfold mbind at 1, M_bind at 1. unfold mret at 1, M_ret at 1.
    unfold mbind, M_bind, as_tile.
    destruct (Response.init _ _ _ _ _ _ _ _ _ _ _ _ _ _ _) as [[r|e] w1]; reflexivity.
Qed.

Lemma same_io_refl (w : World) : same_io w w.
Proof. repeat split. Qed.

Lemma same_io_trans (w1 w2 w3 : World) : same_io w1 w2 → same_io w2 w3 → same_io w1 w3.
Proof.
  intros (? & ? & ? & ?) (? & ? & ? & ?). repeat split; congruence.
Qed.

Lemma bind_run {A B} (m : M A) (f : A → M B) (w : World) :
  (m ≫= f) w =
  match m w with
  | (Ok a, w1) => f a w1
  | (Raise e, w1) => (Raise e, w1)
  end.
Proof. reflexivity. Qed.

Lemma bind_same_io {A B} (m : M A) (f : A → M B) (w : World) :
  same_io w (m w).2 → (∀ a w1, same_io w1 (f a w1).2) → same_io w ((m ≫= f) w).2.
Proof.
  intros Hm Hf. unfold mbind, M_bind.
  destruct (m w) as [[a|e] w1]; cbn [snd] in Hm; [|exact Hm].
  exact (same_io_trans _ _ _ Hm (Hf a w1)).
Qed.

Lemma build_query_same_io E srid table geometry attributes columns bounds tolerance
    is_geo is_clipped padding scale (w : World) :
  same_io w (build_query E srid table geometry attributes columns bounds tolerance
               is_geo is_clipped padding scale w).2.
Proof.
  destruct (build_query_world E srid table geometry attributes columns bounds tolerance
              is_geo is_clipped padding scale w) as [Hw|(attrs & cols & _ & _ & _ & Hw)];
    cbn zeta in Hw; rewrite Hw; repeat split.
Qed.

Lemma or_raise_same_io {A} (o : option A) (e : exn) (w : World) :
  same_io w (or_raise o e w).2.
Proof. destruct o; apply same_io_refl. Qed.

(** [Response.__init__] reaches neither the database nor the cache. *)
Lemma Response_init_same_io E dbinfo srid table geometry attributes columns bounds
    tolerance zoom clip coord layer_name geometry_types (w : World) :
  same_io w (Response.init E dbinfo srid table geometry attributes columns bounds
               tolerance zoom clip coord layer_name geometry_types w).2.
Proof.
  unfold Response.init.
  apply bind_same_io; [apply build_query_same_io|]. intros q1 w1.
  apply bind_same_io; [apply build_query_same_io|]. intros q2 w2.
  apply bind_same_io; [apply or_raise_same_io|]. intros t1 w3.
  apply bind_same_io; [apply build_query_same_io|]. intros q3 w4.
  apply bind_same_io; [apply or_raise_same_io|]. intros t2 w5.
  apply bind_same_io; [apply build_query_same_io|]. intros q4 w6.
  apply same_io_refl.
Qed.

Lemma as_tile_world (run : result Response.t * World) : (as_tile run).2 = run.2.
Proof. destruct run as [[r|e] w]; reflexivity. Qed.

(** The statements [query_columns] executes, whatever the store holds. *)
Lemma query_columns_world E dbinfo srid table geometry attributes bounds (w : World) :
  let w' := (query_columns E dbinfo srid table geometry attributes bounds w).2 in
  (∃ l, executed w' = executed w ++ l ∧ (length l <= 1)%nat) ∧
  decoded w' = decoded w ∧ stdout w' = stdout w ∧ columns_cache w' = columns_cache w.
Proof.
  unfold query_columns, db_execute, new_set. run_M.
  destruct (lists w !! attributes) as [attrs|].
  - match goal with |- context [db E ?k ?q] => destruct (db E k q) as [answer|e] end;
      cbn; (split; [eexists; split; [reflexivity|cbn; lia]|repeat split]).
  - cbn. split; [exists []; rewrite app_nil_r; split; [reflexivity|cbn; lia]|repeat split].
Qed.

Lemma first_step_same_io (self : Provider.t) (geometry : string) (w : World) :
  ∃ a w0,
    (match Provider.attributes self !! geometry with
     | Some a => mret a
     | None => new_list []
     end) w = (Ok a, w0) ∧
    same_io w w0.
Proof.
  destruct (Provider.attributes self !! geometry) as [a|].
  - exists a, w. split; [reflexivity|apply same_io_refl].
  - eexists _, _. split; [reflexivity|]. repeat split.
Qed.

(** What a request costs: at most one statement, none when the cache has
    the geometry, and no entry of the cache is lost or replaced. *)
Lemma renderTile_response_footprint E (self : Provider.t) (coord : Coordinate.t)
    (geometry : string) (w : World) :
  let w' := (Provider.renderTile_response E self coord geometry w).2 in
  (∃ l, executed w' = executed w ++ l ∧ (length l <= 1)%nat) ∧
  decoded w' = decoded w ∧ stdout w' = stdout w ∧
  columns_cache w ⊆ columns_cache w' ∧
  (is_Some (columns_cache w !! geometry) →
   executed w' = executed w ∧ columns_cache w' = columns_cache w).
Proof.
  destruct (first_step_same_io self geometry w) as (a & w0 & H0 & He & Hd & Hs & Hc).
  destruct (Provider.renderTile_tolerance self (Coordinate.zoom coord) w).1
    as [tolerance|e] eqn:Htol.
  2:{ assert (Hrun : (Provider.renderTile_response E self coord geometry w).2 = w0).
      { unfold Provider.renderTile_response.
        unfold mbind at 1, M_bind at 1. rewrite H0.
        unfold mbind at 1, M_bind at 1.
        rewrite renderTile_tolerance_world,
          (renderTile_tolerance_any_world self (Coordinate.zoom coord) w0 w), Htol.
        reflexivity. }
      cbn zeta. rewrite Hrun, He, Hd, Hs, Hc.
      split; [exists []; rewrite app_nil_r; split; [reflexivity|cbn; lia]|].
      repeat split; reflexivity. }
  cbn zeta. rewrite (renderTile_response_run E self coord geometry w w0 a tolerance H0 Htol).
  rewrite <- Hc.
  destruct (columns_cache w0 !! geometry) as [c|] eqn:Hcache.
  - rewrite as_tile_world.
    match goal with |- context [Response.init ?E0 ?d ?s ?t ?g ?aa ?cc ?b ?tol ?z ?cl ?cd ?ln ?gt ?w1] =>
      destruct (Response_init_same_io E0 d s t g aa cc b tol z cl cd ln gt w1)
        as (He' & Hd' & Hs' & Hc')
    end.
    rewrite He', Hd', Hs', Hc', He, Hd, Hs.
    split; [exists []; rewrite app_nil_r; split; [reflexivity|cbn; lia]|].
    repeat split; reflexivity.
  - pose proof (query_columns_world E (Provider.dbinfo self) (Provider.srid self)
                  (Provider.table self) geometry a (tile_bounds E coord) w0)
      as ((l & Hl & Hlen) & Hd2 & Hs2 & Hc2).
    destruct (query_columns _ _ _ _ _ _ _ w0) as [[c|e] w2]; cbn [snd] in *.
    + rewrite as_tile_world.
      match goal with |- context [Response.init ?E0 ?d ?s ?t ?g ?aa ?cc ?b ?tol ?z ?cl ?cd ?ln ?gt ?w1] =>
        destruct (Response_init_same_io E0 d s t g aa cc b tol z cl cd ln gt w1)
          as (He' & Hd' & Hs' & Hc')
      end.
      rewrite He', Hd', Hs', Hc'. cbn. rewrite Hl, Hd2, Hs2, Hc2, He, Hd, Hs.
      split; [eauto|]. split; [reflexivity|]. split; [reflexivity|]. split.
      * apply insert_subseteq. exact Hcache.
      * intros [x Hx]. discriminate Hx.
    + rewrite Hl, Hd2, Hs2, Hc2, He, Hd, Hs.
      split; [eauto|]. split; [reflexivity|]. split; [reflexivity|]. split; [reflexivity|].
      intros [x Hx]. discriminate Hx.
Qed.

(** X10. What [renderTile] costs and keeps: it executes at most one
    statement (the probe of the columns), and none at all when the cache
    has an entry for the geometry of the zoom; it decodes and prints
    nothing; and it never drops or replaces an entry of the column
    cache. *)
Theorem renderTile_footprint E (self : Provider.t) (coord : Coordinate.t) (w : World) :
  let w' := (Provider.renderTile E self coord w).2 in
  (∃ l, executed w' = executed w ++ l ∧ (length l <= 1)%nat) ∧
  decoded w' = decoded w ∧ stdout w' = stdout w ∧
  columns_cache w ⊆ columns_cache w' ∧
  (∀ geometry,
     (Provider.renderTile_geometry self (Coordinate.zoom coord) w).1
       = Ok (Some geometry) →
     is_Some (columns_cache w !! geometry) →
     executed w' = executed w ∧ columns_cache w' = columns_cache w).
Proof.
  unfold Provider.renderTile. cbn zeta. rewrite bind_run.
  pose proof (renderTile_geometry_world self (Coordinate.zoom coord) w) as Hw.
  destruct (Provider.renderTile_geometry self (Coordinate.zoom coord) w) as [[slot|e] w1];
    cbn [fst snd] in *; subst w1.
  2:{ split; [exists []; rewrite app_nil_r; split; [reflexivity|cbn; lia]|].
      do 3 (split; [reflexivity|]). intros g Hg. discriminate Hg. }
  destruct slot as [g|].
  2:{ cbn. split; [exists []; rewrite app_nil_r; split; [reflexivity|cbn; lia]|].
      do 3 (split; [reflexivity|]). intros g Hg. discriminate Hg. }
  destruct (negb (Py.truthy_str (Some g))).
  { cbn. split; [exists []; rewrite app_nil_r; split; [reflexivity|cbn; lia]|].
    do 3 (split; [reflexivity|]). intros g' _ _. split; reflexivity. }
  destruct (renderTile_response_footprint E self coord g w) as (H1 & H2 & H3 & H4 & H5).
  split; [exact H1|]. split; [exact H2|]. split; [exact H3|]. split; [exact H4|].
  intros geometry [= <-] Hsome. exact (H5 Hsome).
Qed.

Lemma renderTile_footprint_witness :
  let w := mkWorld {[ 0%nat := ["name"] ]} {[ 0%nat := {[ "__geometry__" ]} ]}
             {[ "way" := 0%nat ]} [] [] [] in
  let w' := (Provider.renderTile quiet_env listed_provider origin w).2 in
  executed w' = executed w ∧ columns_cache w' = columns_cache w.
Proof.
  intros w.
  destruct (renderTile_footprint quiet_env listed_provider origin w)
    as (_ & _ & _ & _ & H).
  apply (H "way").
  - reflexivity.
  - exists 0%nat. reflexivity.
Defined.

Lemma index_Some_range {A} (l : list A) (i : Z) (x : A) :
  Py.index l i = Some x → - Z.of_nat (length l) <= i < Z.of_nat (length l).
Proof.
  unfold Py.index. intros H.
  destruct (Z.leb_spec 0 i) as [H0|H0].
  - apply lookup_lt_Some in H. lia.
  - destruct (Z.leb_spec (- Z.of_nat (length l)) i) as [H1|H1]; [lia|discriminate H].
Qed.

Lemma or_raise_Ok_inv {A} (o : option A) (e : exn) (w w' : World) (a : A) :
  or_raise o e w = (Ok a, w') → o = Some a ∧ w' = w.
Proof. destruct o; cbn; intros [= <- <-] || intros [=]; auto. Qed.

(** A response is built for a zoom of the table of tolerances only. *)
Lemma Response_init_Ok_zoom E dbinfo srid table geometry attributes columns bounds
    tolerance zoom clip coord layer_name geometry_types (w w' : World) (r : Response.t) :
  Response.init E dbinfo srid table geometry attributes columns bounds
      tolerance zoom clip coord layer_name geometry_types w = (Ok r, w') →
  -22 <= Coordinate.zoom coord < 22.
Proof.
  unfold Response.init. intros H.
  apply bind_Ok_inv in H as (geo_query & w1 & _ & H).
  apply bind_Ok_inv in H as (merc_query & w2 & _ & H).
  apply bind_Ok_inv in H as (tol1 & w3 & Hi & _).
  apply or_raise_Ok_inv in Hi as [Hi _].
  apply index_Some_range in Hi. rewrite tolerances_length in Hi. exact Hi.
Qed.

Lemma as_tile_Ok_inv (run : result Response.t * World) (t : tile) (w' : World) :
  as_tile run = (Ok t, w') → ∃ r, t = a_Response r ∧ run = (Ok r, w').
Proof.
  destruct run as [[r|e] w1]; cbn; intros [= <- <-] || intros [=]. eauto.
Qed.

(** X11. What [renderTile] returns when it returns: never an empty
    response, always a [Response], for a slot of the table that is a
    non-empty string and a zoom of the table of tolerances; the response
    carries that geometry, the bounds of the tile, the zoom and the
    coordinate of the request and the settings of the provider, has a query
    for each of the five formats, and the column cache has an entry for the
    geometry from then on. *)
Theorem renderTile_returns_response E (self : Provider.t) (coord : Coordinate.t)
    (w w' : World) (t : tile) :
  Provider.renderTile E self coord w = (Ok t, w') →
  ∃ r geometry,
    t = a_Response r ∧
    (Provider.renderTile_geometry self (Coordinate.zoom coord) w).1 = Ok (Some geometry) ∧
    geometry ≠ "" ∧
    -22 <= Coordinate.zoom coord < 22 ∧
    Response.geometry r = geometry ∧
    Response.bounds r = tile_bounds E coord ∧
    Response.zoom r = Coordinate.zoom coord ∧
    Response.coord r = coord ∧
    Response.dbinfo r = Provider.dbinfo self ∧
    Response.clip r = Provider.clip self ∧
    Response.layer_name r = layer_name E ∧
    Response.geometry_types r = Provider.geometry_types self ∧
    (∀ format, is_Some (Response.query r !! format) ↔ format ∈ formats) ∧
    is_Some (columns_cache w' !! geometry).
Proof.
  intros Hrun.
  destruct (Provider.renderTile_geometry self (Coordinate.zoom coord) w)
    as [[slot|e] w1] eqn:Hgeo.
  2:{ unfold Provider.renderTile in Hrun. rewrite bind_run, Hgeo in Hrun.
      discriminate Hrun. }
  assert (Hw1 : w1 = w).
  { rewrite <- (renderTile_geometry_world self (Coordinate.zoom coord) w), Hgeo.
    reflexivity. }
  subst w1.
  destruct (Py.truthy_str slot) eqn:Htrue.
  2:{ rewrite (renderTile_not_true E self coord w slot Hgeo Htrue) in Hrun.
      discriminate Hrun. }
  destruct slot as [geometry|]; [|discriminate Htrue].
  assert (Hslot : (Provider.renderTile_geometry self (Coordinate.zoom coord) w).1
                  = Ok (Some geometry)) by (rewrite Hgeo; reflexivity).
  rewrite (renderTile_true E self coord w geometry Hslot Htrue) in Hrun.
  destruct (first_step_same_io self geometry w) as (a & w0 & H0 & He & Hd & Hs & Hc).
  destruct (Provider.renderTile_tolerance self (Coordinate.zoom coord) w).1
    as [tolerance|e] eqn:Htol.
  2:{ exfalso. revert Hrun. unfold Provider.renderTile_response.
      rewrite bind_run, H0, bind_run.
      rewrite renderTile_tolerance_world,
        (renderTile_tolerance_any_world self (Coordinate.zoom coord) w0 w), Htol.
      discriminate. }
  rewrite (renderTile_response_run E self coord geometry w w0 a tolerance H0 Htol)
    in Hrun.
  assert (Hinit : ∃ r c w2,
            t = a_Response r ∧
            Response.init E (Provider.dbinfo self) (Provider.srid self)
              (Provider.table self) geometry a c (tile_bounds E coord) tolerance
              (Coordinate.zoom coord) (Provider.clip self) coord (layer_name E)
              (Provider.geometry_types self) w2 = (Ok r, w') ∧
            is_Some (columns_cache w2 !! geometry)).
  { destruct (columns_cache w0 !! geometry) as [c|] eqn:Hcache.
    - apply as_tile_Ok_inv in Hrun as (r & -> & Hrun).
      exists r, c, w0. rewrite Hcache. eauto.
    - destruct (query_columns _ _ _ _ _ _ _ w0) as [[c|e] w2]; [|discriminate Hrun].
      apply as_tile_Ok_inv in Hrun as (r & -> & Hrun).
      exists r, c, (set_columns_cache (insert geometry c) w2).
      split; [reflexivity|]. split; [exact Hrun|].
      cbn. rewrite lookup_insert_eq. eauto. }
  destruct Hinit as (r & c & w2 & -> & Hinit & Hsome).
  exists r, geometry.
  pose proof (Response_init_Ok_zoom _ _ _ _ _ _ _ _ _ _ _ _ _ _ _ _ _ Hinit) as Hzoom.
  pose proof (Response_init_same_io E (Provider.dbinfo self) (Provider.srid self)
                (Provider.table self) geometry a c (tile_bounds E coord) tolerance
                (Coordinate.zoom coord) (Provider.clip self) coord (layer_name E)
                (Provider.geometry_types self) w2) as (_ & _ & _ & Hcc).
  rewrite Hinit in Hcc. cbn [snd] in Hcc.
  destruct (Response_init_Ok _ _ _ _ _ _ _ _ _ _ _ _ _ _ _ _ _ Hinit)
    as (q1 & q2 & q3 & q4 & Hr).
  rewrite Hr. cbn [Response.geometry Response.bounds Response.zoom Response.coord
                   Response.dbinfo Response.clip Response.layer_name
                   Response.geometry_types Response.query].
  split; [reflexivity|]. split; [reflexivity|].
  split; [intros ->; discriminate Htrue|].
  split; [exact Hzoom|].
  do 8 (split; [reflexivity|]).
  split; [intros format; apply five_keys|]. rewrite Hcc. exact Hsome.
Qed.

Lemma renderTile_returns_response_witness :
  ∃ r w',
    Provider.renderTile quiet_env listed_provider origin listed_world
      = (Ok (a_Response r), w') ∧
    Response.geometry r = "way" ∧
    Response.bounds r = tile_bounds quiet_env origin ∧
    is_Some (columns_cache w' !! "way").
Proof.
  destruct (Provider.renderTile quiet_env listed_provider origin listed_world)
    as [res w'] eqn:Hrun.
  assert (Hok : is_ok res = true).
  { replace res with (res, w').1 by reflexivity. rewrite <- Hrun.
    vm_compute. reflexivity. }
  destruct res as [t|e]; [|discriminate Hok].
  destruct (renderTile_returns_response quiet_env listed_provider origin listed_world
              w' t Hrun)
    as (r & geometry & -> & Hslot & _ & _ & Hg & Hb & _ & _ & _ & _ & _ & _ & _ & Hc).
  assert (Hway : geometry = "way").
  { vm_compute in Hslot. injection Hslot as <-. reflexivity. }
  rewrite Hway in Hg, Hc.
  exists r, w'. split; [reflexivity|]. split; [exact Hg|]. split; [exact Hb|exact Hc].
Defined.

(** [query_columns] for a list of the store, by the answer of the server. *)
Lemma query_columns_run E dbinfo srid table geometry attributes bounds
    (w : World) attrs :
  lists w !! attributes = Some attrs →
  let probe := probe_text E srid table geometry attrs bounds in
  let w1 := set_executed (λ log, log ++ [probe]) w in
  query_columns E dbinfo srid table geometry attributes bounds w =
    match db E (length (executed w)) probe with
    | Ok answer =>
        (Ok (fresh (dom (sets w))),
         set_sets (insert (fresh (dom (sets w))) (list_to_set (description answer))) w1)
    | Raise e => (Raise e, w1)
    end.
Proof.
  intros Ha. unfold query_columns, db_execute, new_set, probe_text. run_M. rewrite Ha.
  match goal with |- context [db E ?k ?q] => destruct (db E k q) as [answer|e] end;
    reflexivity.
Qed.

(** X12. The first request for a geometry whose attribute list the
    provider holds, when everything goes well (the probe is answered with
    [__geometry__] among its columns, the zoom has a tolerance and the tile
    has width and height): one probe is executed, its columns are cached
    under the geometry in a new set, and the response returned carries the
    five queries built from the provider's list, to which the identifier
    expression is appended when the probe shows no [__id__]. *)
Theorem renderTile_first_request E (self : Provider.t) (coord : Coordinate.t)
    (geometry : string) (w : World) (a : loc) (attrs : list string) (answer : Answer)
    (tolerance : option Q) (tol : Q) :
  (Provider.renderTile_geometry self (Coordinate.zoom coord) w).1 = Ok (Some geometry) →
  Py.truthy_str (Some geometry) = true →
  Provider.attributes self !! geometry = Some a →
  lists w !! a = Some attrs →
  columns_cache w !! geometry = None →
  (Provider.renderTile_tolerance self (Coordinate.zoom coord) w).1 = Ok tolerance →
  db E (length (executed w))
    (probe_text E (Provider.srid self) (Provider.table self) geometry attrs
       (tile_bounds E coord)) = Ok answer →
  "__geometry__" ∈ description answer →
  Py.index tolerances (Coordinate.zoom coord) = Some tol →
  degenerate (tile_bounds E coord) (Some (oscimap_extents E))
    || degenerate (tile_bounds E coord) (Some (mapbox_extents E)) = false →
  let probe := probe_text E (Provider.srid self) (Provider.table self) geometry attrs
                 (tile_bounds E coord) in
  let cols : gset string := list_to_set (description answer) in
  let c := fresh (dom (sets w)) in
  Provider.renderTile E self coord w =
    (Ok (a_Response
           (Response.mk (Provider.dbinfo self) (Provider.table self) geometry
              (tile_bounds E coord) (Coordinate.zoom coord) (Provider.clip self) coord
              (layer_name E) (Provider.geometry_types self)
              (query_dict E (Provider.srid self) (Provider.table self) geometry
                 (with_id geometry attrs cols) (tile_bounds E coord) tolerance
                 (Provider.clip self) tol))),
     registered geometry a c attrs cols
       (set_columns_cache (insert geometry c)
          (set_sets (insert c cols) (set_executed (λ log, log ++ [probe]) w)))).
Proof.
  intros Hslot Htrue Hattr Ha Hcache Htol Hdb Hg Hi Hdeg probe cols c.
  rewrite (renderTile_true E self coord w geometry Hslot Htrue).
  rewrite (renderTile_response_run E self coord geometry w w a tolerance);
    [|rewrite Hattr; reflexivity|exact Htol].
  rewrite Hcache.
  rewrite (query_columns_run E _ _ _ _ _ _ w attrs Ha). cbn zeta. rewrite Hdb.
  fold probe c cols.
  rewrite (Response_init_run E _ _ _ _ a c _ _ _ _ _ _ _ _ attrs cols);
    [|exact Ha|cbn; apply lookup_insert_eq].
  rewrite (bool_decide_eq_true_2 ("__geometry__" ∈ cols))
    by (apply elem_of_list_to_set; exact Hg).
  cbn [negb]. rewrite Hi, Hdeg. reflexivity.
Qed.

Lemma renderTile_first_request_witness :
  let probe := probe_text quiet_env 900913 "roads" "way" ["name"]
                 (tile_bounds quiet_env origin) in
  let cols : gset string := list_to_set ["__geometry__"] in
  Provider.renderTile quiet_env listed_provider origin listed_world =
    (Ok (a_Response
           (Response.mk ∅ "roads" "way" (tile_bounds quiet_env origin) 0 true origin
              "roads" None
              (query_dict quiet_env 900913 "roads" "way" (with_id "way" ["name"] cols)
                 (tile_bounds quiet_env origin)
                 (Some (1 * (circumference / inject_Z (2 ^ (0 + 8))))%Q) true
                 (circumference / inject_Z (2 ^ (0 + 8)))%Q))),
     registered "way" 0%nat (fresh (dom (sets listed_world))) ["name"] cols
       (set_columns_cache (insert "way" (fresh (dom (sets listed_world))))
          (set_sets (insert (fresh (dom (sets listed_world))) cols)
             (set_executed (λ log, log ++ [probe]) listed_world)))).
Proof.
  intros probe cols.
  apply (renderTile_first_request quiet_env listed_provider origin "way" listed_world
           0%nat ["name"] (mkAnswer ["__geometry__"] [])
           (Some (1 * (circumference / inject_Z (2 ^ (0 + 8))))%Q)
           (circumference / inject_Z (2 ^ (0 + 8)))%Q).
  - reflexivity.
  - reflexivity.
  - reflexivity.
  - reflexivity.
  - reflexivity.
  - reflexivity.
  - reflexivity.
  - apply list_elem_of_singleton. reflexivity.
  - reflexivity.
  - reflexivity.
Defined.

(** X13. A request for a geometry that the provider holds no attribute
    list for, once the cached column set of the geometry holds [__id__]
    (as it does after the first request): the list passed on is a new empty
    one, nothing is appended to it, and every query of the response returned
    selects no attribute at all: its text starts with [SELECT ,]. *)
Theorem renderTile_unlisted_cached E (self : Provider.t) (coord : Coordinate.t)
    (geometry : string) (w w' : World) (c : loc) (cols : gset string) (t : tile) :
  (Provider.renderTile_geometry self (Coordinate.zoom coord) w).1 = Ok (Some geometry) →
  Py.truthy_str (Some geometry) = true →
  Provider.attributes self !! geometry = None →
  columns_cache w !! geometry = Some c →
  sets w !! c = Some cols →
  "__id__" ∈ cols →
  Provider.renderTile E self coord w = (Ok t, w') →
  w' = set_lists (insert (fresh (dom (lists w))) []) w ∧
  ∃ r tolerance tol,
    t = a_Response r ∧
    Response.query r =
      query_dict E (Provider.srid self) (Provider.table self) geometry []
        (tile_bounds E coord) tolerance (Provider.clip self) tol ∧
    ∀ format q, Response.query r !! format = Some q → String.prefix "SELECT ," q = true.
Proof.
  intros Hslot Htrue Hattr Hcache Hc Hid Hrun.
  rewrite (renderTile_true E self coord w geometry Hslot Htrue) in Hrun.
  destruct (Provider.renderTile_tolerance self (Coordinate.zoom coord) w).1
    as [tolerance|e] eqn:Htol.
  2:{ exfalso. revert Hrun. unfold Provider.renderTile_response.
      rewrite bind_run, Hattr. unfold new_list at 1. rewrite bind_run.
      rewrite renderTile_tolerance_world,
        (renderTile_tolerance_any_world self (Coordinate.zoom coord) _ w), Htol.
      discriminate. }
  set (a := fresh (dom (lists w))) in *.
  set (w0 := set_lists (insert a []) w).
  rewrite (renderTile_response_run E self coord geometry w w0 a tolerance) in Hrun;
    [|rewrite Hattr; reflexivity|exact Htol].
  change (columns_cache w0) with (columns_cache w) in Hrun. rewrite Hcache in Hrun.
  rewrite (Response_init_run E _ _ _ _ a c _ _ _ _ _ _ _ w0 [] cols) in Hrun;
    [|cbn; apply lookup_insert_eq|exact Hc].
  assert (Hreg : registered geometry a c [] cols w0 = w0).
  { unfold registered. rewrite (bool_decide_eq_true_2 _ Hid). reflexivity. }
  assert (Hwid : with_id geometry [] cols = []).
  { unfold with_id. rewrite (bool_decide_eq_true_2 _ Hid). reflexivity. }
  rewrite Hreg, Hwid in Hrun.
  destruct (negb (bool_decide ("__geometry__" ∈ cols))); [discriminate Hrun|].
  destruct (Py.index tolerances (Coordinate.zoom coord)) as [tol|]; [|discriminate Hrun].
  destruct (degenerate _ _ || degenerate _ _); [discriminate Hrun|].
  cbn [as_tile] in Hrun. injection Hrun as <- <-.
  split; [reflexivity|].
  eexists _, tolerance, tol. split; [reflexivity|]. split; [reflexivity|].
  intros format q Hq. cbn [Response.query] in Hq. unfold query_dict in Hq.
  rewrite !lookup_insert_Some, lookup_empty in Hq.
  destruct Hq as [[_ <-]|[_ [[_ <-]|[_ [[_ <-]|[_ [[_ <-]|[_ [[_ <-]|[_ Hq]]]]]]]]]];
    try reflexivity.
  discriminate Hq.
Qed.

Lemma renderTile_unlisted_cached_witness :
  let w := (first_request default_provider empty_world).2 in
  ∃ r w',
    Provider.renderTile quiet_env default_provider origin w = (Ok (a_Response r), w') ∧
    ∀ format q, Response.query r !! format = Some q → String.prefix "SELECT ," q = true.
Proof.
  intros w.
  destruct (Provider.renderTile quiet_env default_provider origin w)
    as [res w'] eqn:Hrun.
  assert (Hok : is_ok res = true).
  { replace res with (res, w').1 by reflexivity. rewrite <- Hrun.
    vm_compute. reflexivity. }
  destruct res as [t|e]; [|discriminate Hok].
  assert (Hcache : ∃ c cols, columns_cache w !! "way" = Some c ∧
                             sets w !! c = Some cols ∧ "__id__" ∈ cols).
  { exists 0%nat, ({[ "__geometry__" ]} ∪ {[ "__id__" ]}).
    split; [vm_compute; reflexivity|]. split; [vm_compute; reflexivity|].
    apply elem_of_union. right. apply elem_of_singleton. reflexivity. }
  destruct Hcache as (c & cols & Hcache & Hc & Hid).
  destruct (renderTile_unlisted_cached quiet_env default_provider origin "way" w w'
              c cols t) as (_ & r & _ & _ & -> & _ & Hq);
    [reflexivity|reflexivity|reflexivity|exact Hcache|exact Hc|exact Hid|exact Hrun|].
  exists r, w'. split; [reflexivity|exact Hq].
Defined.

(** ** The feature fetcher, whatever the server does *)

Lemma get_features_row_frame E geometry_types (features : list Feature) (row : Row)
    (w : World) :
  let w' := (get_features_row E geometry_types features row w).2 in
  executed w' = executed w ∧ stdout w' = stdout w ∧ lists w' = lists w ∧
  sets w' = sets w ∧ columns_cache w' = columns_cache w.
Proof.
  unfold get_features_row.
  destruct (bool_decide ("__geometry__" ∈ dom row)); [|repeat split].
  destruct (bool_decide ("__id__" ∈ dom row)); [|repeat split].
  cbn [negb]. run_M.
  destruct (row !! "__geometry__"); [|repeat split].
  destruct (delete "__geometry__" row !! "__id__"); [|repeat split].
  destruct geometry_types as [types|]; [|repeat split].
  unfold shapely_type. destruct (loads E _) as [kind|e]; [|repeat split].
  destruct (bool_decide (kind ∈ types)); repeat split.
Qed.

Lemma get_features_rows_frame E geometry_types (rows : list Row) :
  ∀ (features : list Feature) (w : World),
    let w' := (get_features_rows E geometry_types features rows w).2 in
    executed w' = executed w ∧ stdout w' = stdout w ∧ lists w' = lists w ∧
    sets w' = sets w ∧ columns_cache w' = columns_cache w.
Proof.
  induction rows as [|row rows IH]; intros features w; [repeat split|].
  cbn [get_features_rows]. cbn zeta. rewrite bind_run.
  pose proof (get_features_row_frame E geometry_types features row w) as Hrow.
  cbn zeta in Hrow.
  destruct (get_features_row E geometry_types features row w) as [[fs|e] w1];
    cbn [snd] in Hrow; [|exact Hrow].
  destruct Hrow as (He & Hs & Hl & Hc & Hcc).
  destruct (IH fs w1) as (He' & Hs' & Hl' & Hc' & Hcc').
  repeat split; congruence.
Qed.

Lemma get_features_attempts_from E dbinfo query geometry_types (m : nat) :
  ∀ (n_try : Z) (w : World),
    Z.to_nat (5 - n_try) = m →
    let run := get_features E dbinfo query geometry_types n_try w in
    ∃ k : nat,
      (1 <= k)%nat ∧ (k <= S m)%nat ∧
      executed run.2 = executed w ++ replicate k query ∧
      (∀ i, (S i < k)%nat →
         db E (length (executed w) + i) query = Raise TransactionRollbackError) ∧
      lists run.2 = lists w ∧ sets run.2 = sets w ∧
      columns_cache run.2 = columns_cache w ∧
      (stdout run.2 = stdout w ∨
       (run.1 = Raise TransactionRollbackError ∧ k = S m ∧
        stdout run.2 = stdout w ++ ["TransactionRollbackError occurred 5 times"])).
Proof.
  induction m as [m IH] using lt_wf_ind. intros n_try w Hm. cbn zeta.
  rewrite get_features_step. cbn zeta.
  destruct (db E (length (executed w)) query) as [answer|e] eqn:Hdb.
  - exists 1%nat.
    destruct (get_features_rows_frame E geometry_types (fetchall answer) []
                (set_executed (λ log, log ++ [query]) w)) as (He & Hs & Hl & Hc & Hcc).
    rewrite He, Hs, Hl, Hc, Hcc. cbn.
    split; [lia|]. split; [lia|]. split; [reflexivity|].
    split; [intros i Hi; lia|]. do 3 (split; [reflexivity|]). left. reflexivity.
  - destruct e;
      try (exists 1%nat; cbn; split; [lia|]; split; [lia|]; split; [reflexivity|];
           split; [intros i Hi; lia|]; do 3 (split; [reflexivity|]); left; reflexivity).
    destruct (Z_ge_dec n_try 5) as [Hge|Hlt].
    + exists 1%nat. cbn.
      split; [lia|]. split; [lia|]. split; [reflexivity|].
      split; [intros i Hi; lia|].
      do 3 (split; [reflexivity|]). right.
      split; [reflexivity|]. split; [lia|reflexivity].
    + destruct (IH (Z.to_nat (5 - (n_try + 1))) ltac:(lia) (n_try + 1)
                  (set_executed (λ log, log ++ [query]) w) eq_refl)
        as (k & Hk1 & Hk2 & He & Hprev & Hl & Hc & Hcc & Hout).
      exists (S k).
      split; [lia|]. split; [lia|].
      split; [rewrite He; cbn; rewrite <- app_assoc; reflexivity|].
      split.
      { intros i Hi. destruct i as [|i].
        - rewrite Nat.add_0_r. exact Hdb.
        - specialize (Hprev i ltac:(lia)). rewrite length_executed_app in Hprev.
          cbn [length] in Hprev.
          replace (length (executed w) + S i)%nat
            with (length (executed w) + 1 + i)%nat by lia.
          exact Hprev. }
      split; [exact Hl|]. split; [exact Hc|]. split; [exact Hcc|].
      destruct Hout as [Hout|(Hr & Hk & Hout)]; [left; exact Hout|].
      right. split; [exact Hr|]. split; [lia|exact Hout].
Qed.

(** X14. Whatever the server answers, [get_features] executes the text it
    was given and nothing else, between one and five times from a first
    attempt, and a further time only after a conflict; it touches neither
    the lists, the sets nor the column cache; and it prints its one line
    only when the last attempt allowed ends in a conflict, which it then
    raises. *)
Theorem get_features_attempts E dbinfo query geometry_types (w : World) :
  let run := get_features E dbinfo query geometry_types 1 w in
  ∃ k : nat,
    (1 <= k <= 5)%nat ∧
    executed run.2 = executed w ++ replicate k query ∧
    (∀ i, (S i < k)%nat →
       db E (length (executed w) + i) query = Raise TransactionRollbackError) ∧
    lists run.2 = lists w ∧ sets run.2 = sets w ∧
    columns_cache run.2 = columns_cache w ∧
    (stdout run.2 = stdout w ∨
     (run.1 = Raise TransactionRollbackError ∧ k = 5%nat ∧
      stdout run.2 = stdout w ++ ["TransactionRollbackError occurred 5 times"])).
Proof.
  destruct (get_features_attempts_from E dbinfo query geometry_types 4 1 w eq_refl)
    as (k & Hk1 & Hk2 & He & Hprev & Hl & Hc & Hcc & Hout).
  exists k. split; [lia|]. split; [exact He|]. split; [exact Hprev|].
  split; [exact Hl|]. split; [exact Hc|]. split; [exact Hcc|exact Hout].
Qed.

Lemma get_features_attempts_witness :
  let run := get_features (demo_env two_conflicts no_kinds) ∅ "SELECT 1" None 1
               empty_world in
  ∃ k : nat,
    (1 <= k <= 5)%nat ∧ executed run.2 = replicate k "SELECT 1" ∧
    (∀ i, (S i < k)%nat → two_conflicts i "SELECT 1" = Raise TransactionRollbackError).
Proof.
  destruct (get_features_attempts (demo_env two_conflicts no_kinds) ∅ "SELECT 1" None
              empty_world) as (k & Hk & He & Hprev & _).
  exists k. split; [exact Hk|]. split; [exact He|exact Hprev].
Defined.

Lemma get_features_rows_app E geometry_types (rows more : list Row) :
  ∀ (features : list Feature) (w : World),
    get_features_rows E geometry_types features (rows ++ more) w =
      match get_features_rows E geometry_types features rows w with
      | (Ok features', w') => get_features_rows E geometry_types features' more w'
      | (Raise e, w') => (Raise e, w')
      end.
Proof.
  induction rows as [|row rows IH]; intros features w; [reflexivity|].
  cbn [app get_features_rows]. rewrite !bind_run.
  destruct (get_features_row E geometry_types features row w) as [[fs|e] w1];
    [apply IH | reflexivity].
Qed.

(** X15. A row that cannot be turned into a feature ends the fetch: the
    rows before it are processed, the features built from them are dropped,
    and the rows after it are not looked at.  A row without [__geometry__],
    or with it and without [__id__], raises [AssertionError] with the
    message of the column; with a filter, a row whose geometry the decoder
    rejects raises the error of the decoder. *)
Theorem get_features_bad_row E dbinfo query geometry_types (w : World)
    (answer : Answer) (good : list Row) (bad : Row) (rest : list Row) :
  db E (length (executed w)) query = Ok answer →
  fetchall answer = good ++ bad :: rest →
  Forall well_formed good →
  (is_Some geometry_types →
   Forall (λ row, is_ok (loads E (row_wkb row)) = true) good) →
  let run := get_features E dbinfo query geometry_types 1 w in
  let w1 := set_executed (λ log, log ++ [query]) w in
  let w2 := match geometry_types with
            | Some _ => set_decoded (λ log, log ++ (row_wkb <$> good)) w1
            | None => w1
            end in
  ("__geometry__" ∉ dom bad →
   run = (Raise (AssertionError "Missing __geometry__ in feature result"), w2)) ∧
  ("__geometry__" ∈ dom bad → "__id__" ∉ dom bad →
   run = (Raise (AssertionError "Missing __id__ in feature result"), w2)) ∧
  (∀ e, is_Some geometry_types → well_formed bad → loads E (row_wkb bad) = Raise e →
     run = (Raise e, set_decoded (λ log, log ++ [row_wkb bad]) w2)).
Proof.
  intros Hdb Hrows Hgood Hdec run w1 w2. subst run.
  rewrite get_features_step. cbn zeta. rewrite Hdb, Hrows. fold w1.
  rewrite get_features_rows_app.
  assert (Hfirst : ∃ fs, get_features_rows E geometry_types [] good w1 = (Ok fs, w2)).
  { subst w2. destruct geometry_types as [types|].
    - rewrite (get_features_rows_filtered E types good [] w1 Hgood (Hdec (mk_is_Some _ _ eq_refl))).
      eauto.
    - rewrite (get_features_rows_unfiltered E good [] w1 Hgood). eauto. }
  destruct Hfirst as [fs ->].
  cbn [get_features_rows]. rewrite bind_run. unfold get_features_row.
  split; [|split].
  - intros Hg. rewrite (bool_decide_eq_false_2 _ Hg). reflexivity.
  - intros Hg Hi. rewrite (bool_decide_eq_true_2 _ Hg), (bool_decide_eq_false_2 _ Hi).
    reflexivity.
  - intros e [types Ht] [Hg Hi] He.
    rewrite (bool_decide_eq_true_2 _ Hg), (bool_decide_eq_true_2 _ Hi). cbn [negb].
    apply elem_of_dom in Hg as [g Hg]. apply elem_of_dom in Hi as [i Hi].
    run_M. rewrite Hg. rewrite lookup_delete_ne by discriminate. rewrite Hi.
    assert (Hw : row_wkb bad = py_bytes g) by (unfold row_wkb; rewrite Hg; reflexivity).
    rewrite Ht. unfold shapely_type. rewrite <- Hw, He. reflexivity.
Qed.

Lemma get_features_bad_row_witness :
  let bad : Row := {[ "name" := PStr "b" ]} in
  let E := demo_env (λ _ _, Ok (mkAnswer ["name"] [demo_point; bad; demo_line]))
             no_kinds in
  get_features E ∅ "SELECT 1" None 1 empty_world =
    (Raise (AssertionError "Missing __geometry__ in feature result"),
     set_executed (λ log, log ++ ["SELECT 1"]) empty_world).
Proof.
  intros bad E.
  destruct (get_features_bad_row E ∅ "SELECT 1" None empty_world
              (mkAnswer ["name"] [demo_point; bad; demo_line])
              [demo_point] bad [demo_line]) as (H & _ & _).
  - reflexivity.
  - reflexivity.
  - repeat constructor; has_key.
  - intros [x Hx]. discriminate Hx.
  - apply H. apply not_elem_of_dom. vm_compute. reflexivity.
Defined.

(** ** Building a provider *)

Lemma index_nat {A} (l : list A) (n : nat) : Py.index l (Z.of_nat n) = l !! n.
Proof.
  unfold Py.index. destruct (Z.leb_spec 0 (Z.of_nat n)); [|lia].
  rewrite Nat2Z.id. reflexivity.
Qed.

Lemma init_loop_index (attributes : list loc) (n : nat) :
  Py.index attributes (if 1 <? Z.of_nat (length attributes) then Z.of_nat n else 0)
    = attributes !! (if (1 <? length attributes)%nat then n else 0%nat).
Proof.
  destruct (Z.ltb_spec 1 (Z.of_nat (length attributes))) as [H|H];
    destruct (Nat.ltb_spec 1 (length attributes)) as [H'|H']; try lia.
  - apply index_nat.
  - apply (index_nat attributes 0).
Qed.

Lemma init_loop_some (attributes : list loc) (n : nat) (query : string)
    (rest : list (option string)) (self_geometries : list (option string))
    (self_attributes : gmap string loc) (w : World) :
  attributes ≠ [] →
  Provider.init_loop attributes (Z.of_nat n) (Some query :: rest) self_geometries
      self_attributes w =
    match attributes !! (if (1 <? length attributes)%nat then n else 0%nat) with
    | Some a =>
        Provider.init_loop attributes (Z.of_nat (S n)) rest
          (self_geometries ++ [Some query]) (<[query := a]> self_attributes) w
    | None => (Raise IndexError, w)
    end.
Proof.
  intros Hne. destruct attributes as [|a0 attrs]; [contradiction|].
  cbn [Provider.init_loop]. rewrite bind_run, init_loop_index.
  destruct (_ !! _) as [a|]; [|reflexivity].
  cbn [or_raise]. unfold mret at 1, M_ret at 1.
  replace (Z.of_nat n + 1) with (Z.of_nat (S n)) by lia. reflexivity.
Qed.

Lemma init_loop_none (attributes : list loc) (n : nat)
    (rest : list (option string)) (self_geometries : list (option string))
    (self_attributes : gmap string loc) (w : World) :
  Provider.init_loop attributes (Z.of_nat n) (None :: rest) self_geometries
      self_attributes w =
    Provider.init_loop attributes (Z.of_nat (S n)) rest (self_geometries ++ [None])
      self_attributes w.
Proof.
  cbn [Provider.init_loop].
  replace (Z.of_nat n + 1) with (Z.of_nat (S n)) by lia. reflexivity.
Qed.

(** Without attribute lists the loop copies the geometries and nothing
    else. *)
Lemma init_loop_no_attributes (rest : list (option string)) :
  ∀ (i : Z) (self_geometries : list (option string))
    (self_attributes : gmap string loc) (w : World),
    Provider.init_loop [] i rest self_geometries self_attributes w =
      (Ok (self_geometries ++ rest, self_attributes), w).
Proof.
  induction rest as [|[query|] rest IH]; intros i sg sa w.
  - rewrite app_nil_r. reflexivity.
  - cbn [Provider.init_loop]. rewrite IH, <- app_assoc. reflexivity.
  - cbn [Provider.init_loop]. rewrite IH, <- app_assoc. reflexivity.
Qed.

Lemma init_loop_world (attributes : list loc) (rest : list (option string)) :
  ∀ (i : Z) (self_geometries : list (option string))
    (self_attributes : gmap string loc) (w : World),
    (Provider.init_loop attributes i rest self_geometries self_attributes w).2 = w.
Proof.
  induction rest as [|[query|] rest IH]; intros i sg sa w; [reflexivity| |apply IH].
  destruct attributes as [|a0 attrs]; [apply IH|].
  cbn [Provider.init_loop]. rewrite bind_run.
  destruct (Py.index _ _) as [a|]; [apply IH|reflexivity].
Qed.

Lemma init_loop_geometries (attributes : list loc) (rest : list (option string)) :
  ∀ (i : Z) (self_geometries : list (option string))
    (self_attributes : gmap string loc) (w : World) sg sa w',
    Provider.init_loop attributes i rest self_geometries self_attributes w
      = (Ok (sg, sa), w') →
    sg = self_geometries ++ rest.
Proof.
  induction rest as [|[query|] rest IH]; intros i sg0 sa0 w sg sa w' H.
  - injection H as <- _ _. rewrite app_nil_r. reflexivity.
  - destruct attributes as [|a0 attrs].
    + apply IH in H. rewrite <- app_assoc in H. exact H.
    + cbn [Provider.init_loop] in H. rewrite bind_run in H.
      destruct (Py.index _ _) as [a|]; [|discriminate H].
      apply IH in H. rewrite <- app_assoc in H. exact H.
  - apply IH in H. rewrite <- app_assoc in H. exact H.
Qed.

Section init_loop.

Variable attributes : list loc.
Hypothesis attributes_given : attributes ≠ [].

Lemma init_loop_short (w : World) (rest : list (option string)) :
  ∀ (n : nat) (self_geometries : list (option string))
    (self_attributes : gmap string loc),
    (∃ k g, rest !! k = Some (Some g) ∧ attributes !! attributes_index attributes (n + k) = None) →
    Provider.init_loop attributes (Z.of_nat n) rest self_geometries self_attributes w
      = (Raise IndexError, w).
Proof.
  induction rest as [|[query|] rest IH]; intros n sg sa (k & g & Hk & Hnone).
  - discriminate Hk.
  - rewrite (init_loop_some _ _ _ _ _ _ _ attributes_given). fold (attributes_index attributes n).
    destruct (attributes !! attributes_index attributes n) as [a|] eqn:Ha; [|reflexivity].
    destruct k as [|k].
    { rewrite Nat.add_0_r, Ha in Hnone. discriminate Hnone. }
    apply IH. exists k, g. split; [exact Hk|].
    replace (S n + k)%nat with (n + S k)%nat by lia. exact Hnone.
  - rewrite init_loop_none.
    destruct k as [|k]; [discriminate Hk|].
    apply IH. exists k, g. split; [exact Hk|].
    replace (S n + k)%nat with (n + S k)%nat by lia. exact Hnone.
Qed.

Lemma init_loop_assigns (w : World) (rest : list (option string)) :
  ∀ (n : nat) (self_geometries : list (option string))
    (self_attributes : gmap string loc),
    (∀ k g, rest !! k = Some (Some g) → is_Some (attributes !! attributes_index attributes (n + k))) →
    ∃ assigned,
      Provider.init_loop attributes (Z.of_nat n) rest self_geometries self_attributes w
        = (Ok (self_geometries ++ rest, assigned), w) ∧
      ∀ g a,
        assigned !! g = Some a ↔
        (∃ k, rest !! k = Some (Some g) ∧ attributes !! attributes_index attributes (n + k) = Some a ∧
              ∀ j, (k < j)%nat → rest !! j ≠ Some (Some g)) ∨
        ((∀ j, rest !! j ≠ Some (Some g)) ∧ self_attributes !! g = Some a).
Proof.
  induction rest as [|[query|] rest IH]; intros n sg sa Hall.
  - exists sa. split; [rewrite app_nil_r; reflexivity|].
    intros g a. split.
    + intros H. right. split; [intros j; discriminate|exact H].
    + intros [(k & Hk & _)|[_ H]]; [discriminate Hk|exact H].
  - rewrite (init_loop_some _ _ _ _ _ _ _ attributes_given). fold (attributes_index attributes n).
    destruct (Hall 0%nat query eq_refl) as [a0 Ha0].
    rewrite Nat.add_0_r in Ha0. rewrite Ha0.
    destruct (IH (S n) (sg ++ [Some query]) (<[query := a0]> sa)) as (assigned & Hrun & Hmap).
    { intros k g Hk. replace (S n + k)%nat with (n + S k)%nat by lia.
      apply (Hall (S k) g). exact Hk. }
    exists assigned. split; [rewrite Hrun, <- app_assoc; reflexivity|].
    intros g a. rewrite Hmap. split.
    + intros [(k & Hk & Ha & Hlast)|[Hno Hsa]].
      * left. exists (S k). split; [exact Hk|].
        split; [replace (n + S k)%nat with (S n + k)%nat by lia; exact Ha|].
        intros j Hj. destruct j as [|j]; [lia|]. apply Hlast. lia.
      * destruct (decide (query = g)) as [->|Hne].
        -- rewrite lookup_insert_eq in Hsa. injection Hsa as <-.
           left. exists 0%nat. split; [reflexivity|].
           split; [rewrite Nat.add_0_r; exact Ha0|].
           intros j Hj. destruct j as [|j]; [lia|]. apply Hno.
        -- rewrite lookup_insert_ne in Hsa by exact Hne.
           right. split; [|exact Hsa].
           intros j. destruct j as [|j]; [cbn; congruence|apply Hno].
    + intros [(k & Hk & Ha & Hlast)|[Hno Hsa]].
      * destruct k as [|k].
        -- cbn in Hk. injection Hk as ->. rewrite Nat.add_0_r, Ha0 in Ha.
           injection Ha as <-.
           right. split; [|apply lookup_insert_eq].
           intros j. apply (Hlast (S j)). lia.
        -- left. exists k. split; [exact Hk|].
           split; [replace (S n + k)%nat with (n + S k)%nat by lia; exact Ha|].
           intros j Hj. apply (Hlast (S j)). lia.
      * right. split; [intros j; apply (Hno (S j))|].
        rewrite lookup_insert_ne; [exact Hsa|].
        intros ->. apply (Hno 0%nat). reflexivity.
  - rewrite init_loop_none.
    destruct (IH (S n) (sg ++ [None]) sa) as (assigned & Hrun & Hmap).
    { intros k g Hk. replace (S n + k)%nat with (n + S k)%nat by lia.
      apply (Hall (S k) g). exact Hk. }
    exists assigned. split; [rewrite Hrun, <- app_assoc; reflexivity|].
    intros g a. rewrite Hmap. split.
    + intros [(k & Hk & Ha & Hlast)|[Hno Hsa]].
      * left. exists (S k). split; [exact Hk|].
        split; [replace (n + S k)%nat with (S n + k)%nat by lia; exact Ha|].
        intros j Hj. destruct j as [|j]; [lia|]. apply Hlast. lia.
      * right. split; [|exact Hsa].
        intros j. destruct j as [|j]; [discriminate|apply Hno].
    + intros [(k & Hk & Ha & Hlast)|[Hno Hsa]].
      * destruct k as [|k]; [discriminate Hk|].
        left. exists k. split; [exact Hk|].
        split; [replace (S n + k)%nat with (n + S k)%nat by lia; exact Ha|].
        intros j Hj. apply (Hlast (S j)). lia.
      * right. split; [intros j; apply (Hno (S j))|exact Hsa].
Qed.

End init_loop.

Lemma Provider_init_run (dbinfo : gmap string string) (table : string)
    (geometries : list (option string)) (attributes : list loc) (clip : bool)
    (srid : Z) (simplify : Q) (simplify_until : Z) (suppress_simplification : list Z)
    (geometry_types : option (list string)) (w : World) :
  Provider.init dbinfo table geometries attributes clip srid simplify
      simplify_until suppress_simplification geometry_types w =
    match Provider.init_loop attributes 0 geometries [] ∅
            (set_columns_cache (λ _, ∅) w) with
    | (Ok (self_geometries, self_attributes), w1) =>
        (Ok (Provider.mk (filter (λ kv : string * string, kv.1 ∈ Provider.keys) dbinfo)
               clip srid simplify simplify_until (list_to_set suppress_simplification)
               (list_to_set <$> geometry_types) table self_geometries self_attributes),
         w1)
    | (Raise e, w1) => (Raise e, w1)
    end.
Proof.
  unfold Provider.init. rewrite bind_run. unfold modify at 1. rewrite bind_run.
  destruct (Provider.init_loop _ _ _ _ _ _) as [[[sg sa]|e] w1]; reflexivity.
Qed.

(** X16. What [Provider.__init__] makes of its attribute lists.  The
    column cache starts empty and the geometries are kept as given.  Without
    lists, no geometry has one.  With one list, every geometry of the table
    has that same list object; with several, a geometry has the list at its
    position in the table, the last position winning when the geometry is
    repeated; a position with a geometry and no list raises [IndexError]
    before the provider is built, while a position without a geometry needs
    no list.  Of [dbinfo], the six connection keys are kept. *)
Theorem Provider_init_attributes (dbinfo : gmap string string) (table : string)
    (geometries : list (option string)) (attributes : list loc) (clip : bool)
    (srid : Z) (simplify : Q) (simplify_until : Z) (suppress_simplification : list Z)
    (geometry_types : option (list string)) (w : World) :
  let run := Provider.init dbinfo table geometries attributes clip srid simplify
               simplify_until suppress_simplification geometry_types w in
  run.2 = set_columns_cache (λ _, ∅) w ∧
  (∀ self, run.1 = Ok self →
     Provider.geometries self = geometries ∧
     ∀ k v, Provider.dbinfo self !! k = Some v ↔ dbinfo !! k = Some v ∧ k ∈ Provider.keys) ∧
  (attributes = [] → ∃ self, run.1 = Ok self ∧ Provider.attributes self = ∅) ∧
  (attributes ≠ [] →
   (∀ k g, geometries !! k = Some (Some g) →
           is_Some (attributes !! attributes_index attributes k)) →
   ∃ self,
     run.1 = Ok self ∧
     ∀ g a,
       Provider.attributes self !! g = Some a ↔
       ∃ k, geometries !! k = Some (Some g) ∧
            attributes !! attributes_index attributes k = Some a ∧
            ∀ j, (k < j)%nat → geometries !! j ≠ Some (Some g)) ∧
  (attributes ≠ [] →
   (∃ k g, geometries !! k = Some (Some g) ∧
           attributes !! attributes_index attributes k = None) →
   run.1 = Raise IndexError).
Proof.
  cbn zeta. rewrite Provider_init_run.
  set (w0 := set_columns_cache (λ _, ∅) w).
  pose proof (init_loop_world attributes geometries 0 [] ∅ w0) as Hworld.
  pose proof (init_loop_geometries attributes geometries 0 [] ∅ w0) as Hgeo.
  split.
  { destruct (Provider.init_loop attributes 0 geometries [] ∅ w0) as [[[sg sa]|e] w1];
      cbn [snd] in Hworld; subst w1; reflexivity. }
  split.
  { intros self Hself.
    destruct (Provider.init_loop attributes 0 geometries [] ∅ w0) as [[[sg sa]|e] w1];
      cbn in Hself; [|discriminate Hself].
    injection Hself as <-. cbn.
    split; [exact (Hgeo sg sa w1 eq_refl)|].
    intros k v. rewrite map_lookup_filter_Some. reflexivity. }
  split.
  { intros ->. rewrite init_loop_no_attributes. eexists. split; reflexivity. }
  split.
  - intros Hne Hall.
    destruct (init_loop_assigns attributes Hne w0 geometries 0 [] ∅ Hall)
      as (assigned & Hrun & Hmap).
    change 0 with (Z.of_nat 0). rewrite Hrun. cbn.
    eexists. split; [reflexivity|]. cbn.
    intros g a. rewrite Hmap. split.
    + intros [H|[_ H]]; [exact H|]. rewrite lookup_empty in H. discriminate H.
    + intros H. left. exact H.
  - intros Hne Hex. change 0 with (Z.of_nat 0).
    rewrite (init_loop_short attributes Hne w0 geometries 0 [] ∅ Hex). reflexivity.
Qed.

Lemma Provider_init_attributes_witness :
  let table := [None; Some "way"; Some "way"] in
  (∃ self,
     (Provider.init ∅ "roads" table [1; 2; 3]%nat true 900913 1 16 [] None
        empty_world).1 = Ok self ∧
     Provider.attributes self !! "way" = Some 3%nat) ∧
  (Provider.init ∅ "roads" table [1; 2]%nat true 900913 1 16 [] None empty_world).1
    = Raise IndexError.
Proof.
  intros table. split.
  - destruct (Provider_init_attributes ∅ "roads" table [1; 2; 3]%nat true 900913 1 16
                [] None empty_world) as (_ & _ & _ & H & _).
    destruct H as (self & Hself & Hmap).
    + discriminate.
    + intros k g Hk. destruct k as [|[|[|k]]]; try discriminate Hk; cbn; eauto.
    + exists self. split; [exact Hself|].
      apply Hmap. exists 2%nat. split; [reflexivity|]. split; [reflexivity|].
      intros j Hj. destruct j as [|[|[|j]]]; try lia; discriminate.
  - destruct (Provider_init_attributes ∅ "roads" table [1; 2]%nat true 900913 1 16
                [] None empty_world) as (_ & _ & _ & _ & H).
    apply H; [discriminate|].
    exists 2%nat, "way". split; reflexivity.
Defined.

(** ** One list for several geometries *)

Lemma renderTile_geometry_any_world (self : Provider.t) (zoom : Z) (w w' : World) :
  (Provider.renderTile_geometry self zoom w).1
    = (Provider.renderTile_geometry self zoom w').1.
Proof.
  unfold Provider.renderTile_geometry, except_IndexError.
  destruct (Py.index (Provider.geometries self) zoom) as [slot|]; [reflexivity|].
  cbn [or_raise raise]. destruct (Py.index (Provider.geometries self) (-1)); reflexivity.
Qed.

(** X17. One attribute list shared by two geometries (as [__init__] sets
    up for a configuration with a single list): the first request for one
    geometry appends the identifier expression of that geometry to the
    shared list, and the probe of the first request for the other geometry
    then selects it: the columns of the second geometry are resolved with
    the identifier of the first among the attributes. *)
Theorem renderTile_shared_list E (self : Provider.t) (coord1 coord2 : Coordinate.t)
    (g1 g2 : string) (w : World) (a : loc) (attrs : list string) (answer : Answer)
    (tolerance : option Q) (tol : Q) :
  Provider.attributes self !! g1 = Some a →
  Provider.attributes self !! g2 = Some a →
  g1 ≠ g2 →
  (Provider.renderTile_geometry self (Coordinate.zoom coord1) w).1 = Ok (Some g1) →
  (Provider.renderTile_geometry self (Coordinate.zoom coord2) w).1 = Ok (Some g2) →
  Py.truthy_str (Some g1) = true →
  Py.truthy_str (Some g2) = true →
  lists w !! a = Some attrs →
  columns_cache w !! g1 = None →
  columns_cache w !! g2 = None →
  (Provider.renderTile_tolerance self (Coordinate.zoom coord1) w).1 = Ok tolerance →
  is_ok (Provider.renderTile_tolerance self (Coordinate.zoom coord2) w).1 = true →
  db E (length (executed w))
    (probe_text E (Provider.srid self) (Provider.table self) g1 attrs
       (tile_bounds E coord1)) = Ok answer →
  "__geometry__" ∈ description answer →
  "__id__" ∉ description answer →
  Py.index tolerances (Coordinate.zoom coord1) = Some tol →
  degenerate (tile_bounds E coord1) (Some (oscimap_extents E))
    || degenerate (tile_bounds E coord1) (Some (mapbox_extents E)) = false →
  let w1 := (Provider.renderTile E self coord1 w).2 in
  let w2 := (Provider.renderTile E self coord2 w1).2 in
  lists w1 !! a = Some (attrs ++ [sql_hash_id g1]) ∧
  executed w2 =
    executed w ++
      [probe_text E (Provider.srid self) (Provider.table self) g1 attrs
         (tile_bounds E coord1);
       probe_text E (Provider.srid self) (Provider.table self) g2
         (attrs ++ [sql_hash_id g1]) (tile_bounds E coord2)].
Proof.
  intros Hattr1 Hattr2 Hne Hslot1 Hslot2 Htrue1 Htrue2 Ha Hcache1 Hcache2 Htol1 Htol2
    Hdb Hg Hid Hi Hdeg w1 w2.
  set (probe := probe_text E (Provider.srid self) (Provider.table self) g1 attrs
                  (tile_bounds E coord1)) in *.
  set (cols := (list_to_set (description answer) : gset string)).
  set (c := fresh (dom (sets w))).
  assert (Hw1 : w1 =
            registered g1 a c attrs cols
              (set_columns_cache (insert g1 c)
                 (set_sets (insert c cols) (set_executed (λ log, log ++ [probe]) w)))).
  { subst w1.
    rewrite (renderTile_true E self coord1 w g1 Hslot1 Htrue1).
    rewrite (renderTile_response_run E self coord1 g1 w w a tolerance);
      [|rewrite Hattr1; reflexivity|exact Htol1].
    rewrite Hcache1.
    rewrite (query_columns_run E _ _ _ _ _ _ w attrs Ha). cbn zeta. fold probe.
    rewrite Hdb. fold c cols.
    rewrite (Response_init_run E _ _ _ _ a c _ _ _ _ _ _ _ _ attrs cols);
      [|exact Ha|cbn; apply lookup_insert_eq].
    rewrite (bool_decide_eq_true_2 ("__geometry__" ∈ cols))
      by (apply elem_of_list_to_set; exact Hg).
    cbn [negb]. rewrite Hi, Hdeg. reflexivity. }
  assert (Hnid : "__id__" ∉ cols) by (intros H; apply Hid; apply elem_of_list_to_set in H; exact H).
  assert (Hreg : w1 =
            set_sets (insert c (cols ∪ {[ "__id__" ]}))
              (set_lists (insert a (attrs ++ [sql_hash_id g1]))
                 (set_columns_cache (insert g1 c)
                    (set_sets (insert c cols)
                       (set_executed (λ log, log ++ [probe]) w))))).
  { rewrite Hw1. unfold registered. rewrite (bool_decide_eq_false_2 _ Hnid).
    reflexivity. }
  assert (Hl1 : lists w1 !! a = Some (attrs ++ [sql_hash_id g1])).
  { rewrite Hreg. cbn. apply lookup_insert_eq. }
  assert (He1 : executed w1 = executed w ++ [probe]) by (rewrite Hreg; reflexivity).
  assert (Hc1 : columns_cache w1 !! g2 = None).
  { rewrite Hreg. cbn. rewrite lookup_insert_ne by exact Hne. exact Hcache2. }
  split; [exact Hl1|].
  assert (Hslot2' : (Provider.renderTile_geometry self (Coordinate.zoom coord2) w1).1
                    = Ok (Some g2)).
  { rewrite (renderTile_geometry_any_world self (Coordinate.zoom coord2) w1 w).
    exact Hslot2. }
  destruct (Provider.renderTile_tolerance self (Coordinate.zoom coord2) w).1
    as [tolerance2|e] eqn:Htol2'; [|discriminate Htol2].
  subst w2.
  rewrite (renderTile_true E self coord2 w1 g2 Hslot2' Htrue2).
  rewrite (renderTile_response_run E self coord2 g2 w1 w1 a tolerance2);
    [|rewrite Hattr2; reflexivity
     |rewrite (renderTile_tolerance_any_world self (Coordinate.zoom coord2) w1 w);
      exact Htol2'].
  rewrite Hc1.
  rewrite (query_columns_run E _ _ _ _ _ _ w1 _ Hl1). cbn zeta.
  match goal with |- context [db E ?k ?q] => destruct (db E k q) as [answer2|e] end.
  - cbv beta iota. rewrite as_tile_world.
    match goal with |- context [Response.init ?E0 ?d ?s ?t ?g ?aa ?cc ?b ?tl ?z ?cl ?cd ?ln ?gt ?ww] =>
      destruct (Response_init_same_io E0 d s t g aa cc b tl z cl cd ln gt ww)
        as (He' & _)
    end.
    rewrite He'. cbn. rewrite He1, <- app_assoc. reflexivity.
  - cbn. rewrite He1, <- app_assoc. reflexivity.
Qed.

Lemma renderTile_shared_list_witness :
  let self := Provider.mk ∅ true 900913 1 16 ∅ None "roads" [Some "way"; Some "line"]
                {[ "way" := 0%nat; "line" := 0%nat ]} in
  let w1 := (Provider.renderTile quiet_env self origin listed_world).2 in
  let w2 := (Provider.renderTile quiet_env self (Coordinate.mk 0 0 1) w1).2 in
  lists w1 !! 0%nat = Some ["name"; sql_hash_id "way"] ∧
  executed w2 =
    [probe_text quiet_env 900913 "roads" "way" ["name"] (tile_bounds quiet_env origin);
     probe_text quiet_env 900913 "roads" "line" ["name"; sql_hash_id "way"]
       (tile_bounds quiet_env (Coordinate.mk 0 0 1))].
Proof.
  intros self.
  apply (renderTile_shared_list quiet_env self origin (Coordinate.mk 0 0 1) "way" "line"
           listed_world 0%nat ["name"] (mkAnswer ["__geometry__"] [])
           (Some (1 * (circumference / inject_Z (2 ^ (0 + 8))))%Q)
           (circumference / inject_Z (2 ^ (0 + 8)))%Q).
  - reflexivity.
  - reflexivity.
  - discriminate.
  - reflexivity.
  - reflexivity.
  - reflexivity.
  - reflexivity.
  - reflexivity.
  - reflexivity.
  - reflexivity.
  - reflexivity.
  - reflexivity.
  - reflexivity.
  - apply list_elem_of_singleton. reflexivity.
  - intros H. apply list_elem_of_singleton in H. discriminate H.
  - reflexivity.
  - reflexivity.
Defined.

(** ** Saving a response of several layers *)

Lemma mapR_first_error {A B} (f : A → result B) (known : list A) (a : A) (rest : list A)
    (e : exn) :
  Forall (λ x, is_ok (f x) = true) known →
  f a = Raise e →
  mapR f (known ++ a :: rest) = Raise e.
Proof.
  intros Hknown Ha. induction Hknown as [|x known Hx Hrest IH]; cbn [app mapR].
  - rewrite Ha. reflexivity.
  - destruct (f x) as [b|]; [|discriminate Hx]. cbn. rewrite IH. reflexivity.
Qed.

Lemma get_tiles_no_names E (self : MultiResponse.t) (format : string) :
  MultiResponse.names self = [] →
  MultiResponse.get_tiles E self format
    = Raise (ValueError "need more than 0 values to unpack").
Proof.
  intros Hnames. unfold MultiResponse.get_tiles. rewrite Hnames.
  rewrite bool_decide_eq_true_2; [reflexivity|].
  apply (anti_symm (⊆)); [|apply empty_subseteq].
  intros x Hx. apply elem_of_difference in Hx as [Hx _]. exact Hx.
Qed.

(** X18. How [MultiResponse.save] dispatches.  A format other than the
    four it knows (the binary tile format among them) raises [ValueError]
    and nothing is rendered.  For the two proprietary formats the layers
    are looked up before any of them is rendered: the first name that is
    not a layer of the configuration raises [KeyError] with that name and
    the world is untouched.  A response without names merges no layer for
    the proprietary formats, and for the two collection formats fails to
    unpack the empty list of tiles with [ValueError]. *)
Theorem MultiResponse_save_dispatch E (layers : gmap string Layer.t)
    (self : MultiResponse.t) (format : string) (w : World) :
  let run := MultiResponse.save E layers self format w in
  (format ∉ ["TopoJSON"; "JSON"; "OpenScienceMap"; "Mapbox"] →
   run = (Raise (ValueError
                   (format +:+ " is not supported for responses with multiple layers")),
          w)) ∧
  (format ∈ ["OpenScienceMap"; "Mapbox"] →
   ∀ known name rest,
     MultiResponse.names self = known ++ name :: rest →
     Forall (λ n, is_Some (layers !! n)) known →
     layers !! name = None →
     run = (Raise (KeyError name), w)) ∧
  (MultiResponse.names self = [] →
   (format = "OpenScienceMap" →
    run = (Ok (MultiResponse.oscimap_merge [] (MultiResponse.coord self)), w)) ∧
   (format = "Mapbox" →
    run = (Ok (MultiResponse.mapbox_merge [] (MultiResponse.coord self)), w)) ∧
   (format ∈ ["TopoJSON"; "JSON"] →
    run = (Raise (ValueError "need more than 0 values to unpack"), w))).
Proof.
  cbn zeta. split; [|split].
  - in_list. intros Hf. unfold MultiResponse.save.
    destruct (String.eqb_spec format "TopoJSON") as [->|H1]; [exfalso; auto|].
    destruct (String.eqb_spec format "JSON") as [->|H2]; [exfalso; auto|].
    destruct (String.eqb_spec format "OpenScienceMap") as [->|H3]; [exfalso; auto|].
    destruct (String.eqb_spec format "Mapbox") as [->|H4]; [exfalso; auto 10|].
    reflexivity.
  - in_list. intros Hf known name rest Hnames Hknown Hname.
    assert (Hmap : mapR (MultiResponse.config_layer layers) (MultiResponse.names self)
                   = Raise (KeyError name)).
    { rewrite Hnames. apply mapR_first_error.
      - eapply Forall_impl; [exact Hknown|]. intros n [l Hl].
        unfold MultiResponse.config_layer. rewrite Hl. reflexivity.
      - unfold MultiResponse.config_layer. rewrite Hname. reflexivity. }
    unfold MultiResponse.save.
    destruct Hf as [->|[->|[]]]; cbn [String.eqb Ascii.eqb Bool.eqb];
      rewrite bind_run; unfold lift at 1; rewrite Hmap; reflexivity.
  - intros Hnames. split; [|split].
    + intros ->. unfold MultiResponse.save. cbn [String.eqb Ascii.eqb Bool.eqb].
      rewrite Hnames. reflexivity.
    + intros ->. unfold MultiResponse.save. cbn [String.eqb Ascii.eqb Bool.eqb].
      rewrite Hnames. reflexivity.
    + in_list. intros Hf. unfold MultiResponse.save.
      destruct Hf as [->|[->|[]]]; cbn [String.eqb Ascii.eqb Bool.eqb];
        rewrite bind_run; unfold lift at 1;
        rewrite (get_tiles_no_names E self _ Hnames); reflexivity.
Qed.

Lemma MultiResponse_save_dispatch_witness :
  let layers : gmap string Layer.t :=
    {[ "land" := Layer.mk (λ _, raise (KeyError "provider")) None "land" ]} in
  MultiResponse.save host_env layers (demo_multi ["land"; "sea"; "air"]) "Mapbox"
      empty_world = (Raise (KeyError "sea"), empty_world) ∧
  MultiResponse.save host_env layers (demo_multi ["land"]) "MVT" empty_world =
    (Raise (ValueError "MVT is not supported for responses with multiple layers"),
     empty_world) ∧
  MultiResponse.save host_env layers (demo_multi []) "JSON" empty_world =
    (Raise (ValueError "need more than 0 values to unpack"), empty_world).
Proof.
  intros layers. split; [|split].
  - destruct (MultiResponse_save_dispatch host_env layers
                (demo_multi ["land"; "sea"; "air"]) "Mapbox" empty_world) as (_ & H & _).
    apply (H ltac:(in_list; auto) ["land"] "sea" ["air"]).
    + reflexivity.
    + repeat constructor. eexists. reflexivity.
    + reflexivity.
  - destruct (MultiResponse_save_dispatch host_env layers (demo_multi ["land"]) "MVT"
                empty_world) as (H & _).
    apply H. in_list. intros [H'|[H'|[H'|[H'|[]]]]]; discriminate H'.
  - destruct (MultiResponse_save_dispatch host_env layers (demo_multi []) "JSON"
                empty_world) as (_ & _ & H).
    destruct (H eq_refl) as (_ & _ & H'). apply H'. in_list. auto.
Defined.

(** What [renderTile] returns is a response for a slot that is a string
    and is not empty. *)
Lemma renderTile_Ok_slot E (self : Provider.t) (coord : Coordinate.t) (w w' : World)
    (t : tile) :
  Provider.renderTile E self coord w = (Ok t, w') →
  ∃ r geometry,
    t = a_Response r ∧
    (Provider.renderTile_geometry self (Coordinate.zoom coord) w).1 = Ok (Some geometry) ∧
    geometry ≠ "".
Proof.
  intros Hrun.
  destruct (Provider.renderTile_geometry self (Coordinate.zoom coord) w)
    as [[slot|e] w1] eqn:Hgeo.
  2:{ unfold Provider.renderTile in Hrun. rewrite bind_run, Hgeo in Hrun.
      discriminate Hrun. }
  assert (Hw1 : w1 = w).
  { rewrite <- (renderTile_geometry_world self (Coordinate.zoom coord) w), Hgeo.
    reflexivity. }
  subst w1.
  destruct (Py.truthy_str slot) eqn:Htrue.
  2:{ rewrite (renderTile_not_true E self coord w slot Hgeo Htrue) in Hrun.
      discriminate Hrun. }
  destruct slot as [geometry|]; [|discriminate Htrue].
  assert (Hslot : (Provider.renderTile_geometry self (Coordinate.zoom coord) w).1
                  = Ok (Some geometry)) by (rewrite Hgeo; reflexivity).
  rewrite (renderTile_true E self coord w geometry Hslot Htrue) in Hrun.
  unfold Provider.renderTile_response in Hrun.
  apply bind_Ok_inv in Hrun as (a & w1 & _ & Hrun).
  apply bind_Ok_inv in Hrun as (tolerance & w2 & _ & Hrun).
  apply bind_Ok_inv in Hrun as (w3 & w4 & _ & Hrun).
  apply bind_Ok_inv in Hrun as (u & w5 & _ & Hrun).
  apply bind_Ok_inv in Hrun as (w6 & w7 & _ & Hrun).
  apply bind_Ok_inv in Hrun as (c & w8 & _ & Hrun).
  apply bind_Ok_inv in Hrun as (r & w9 & _ & Hrun).
  injection Hrun as <- _.
  exists r, geometry. split; [reflexivity|]. split; [reflexivity|].
  intros ->. discriminate Htrue.
Qed.

Lemma renderTile_geometry_any_world' (self : Provider.t) (zoom : Z) (w w' : World)
    (slot : option string) :
  (Provider.renderTile_geometry self zoom w).1 = Ok slot →
  (Provider.renderTile_geometry self zoom w').1 = Ok slot.
Proof.
  rewrite (renderTile_geometry_any_world self zoom w w'). auto.
Qed.

Lemma save_layers_providers_from E (key : string) (coord : Coordinate.t) (w0 : World)
    (providers : list (Provider.t * string)) :
  ∀ (feature_layers : list (string * list Feature)) (w w' : World)
    (result : list (string * list Feature)),
    MultiResponse.save_layers E key coord
      ((λ pn : Provider.t * string, provider_layer E pn.1 pn.2) <$> providers)
      feature_layers w = (Ok result, w') →
    fst <$> result = (fst <$> feature_layers) ++ (snd <$> providers) ∧
    Forall (λ pn : Provider.t * string,
              ∃ geometry,
                (Provider.renderTile_geometry pn.1 (Coordinate.zoom coord) w0).1
                  = Ok (Some geometry) ∧ geometry ≠ "")
           providers.
Proof.
  induction providers as [|[p n] providers IH]; intros acc w w' result Hrun.
  - cbn in Hrun. injection Hrun as <- _. rewrite app_nil_r. split; constructor.
  - cbn [fmap list_fmap MultiResponse.save_layers] in Hrun.
    apply bind_Ok_inv in Hrun as (t & w1 & Htile & Hrun).
    cbn [provider_layer Layer.renderTile fst snd] in Htile.
    destruct (renderTile_Ok_slot E p coord w w1 t Htile) as (r & g & -> & Hslot & Hg).
    apply bind_Ok_inv in Hrun as (q & w2 & _ & Hrun).
    apply bind_Ok_inv in Hrun as (features & w3 & _ & Hrun).
    apply IH in Hrun as [Hnames Hall].
    split.
    + rewrite Hnames, fmap_app, <- app_assoc. reflexivity.
    + constructor; [|exact Hall]. exists g. cbn [fst].
      split; [|exact Hg].
      exact (renderTile_geometry_any_world' p (Coordinate.zoom coord) w w0 _ Hslot).
Qed.

(** X19. The two proprietary formats of [MultiResponse.save] over layers
    served by providers of this module.  The skip of empty tiles never
    applies to them: when the save returns, every name has its feature
    layer, in the order of the names, and every provider had a geometry
    for the zoom; a provider whose slot for the zoom is null or empty does
    not leave its layer out, it makes the whole save raise. *)
Theorem MultiResponse_save_providers E (layers : gmap string Layer.t)
    (self : MultiResponse.t) (format : string) (providers : list (Provider.t * string))
    (w : World) :
  format = "OpenScienceMap" ∨ format = "Mapbox" →
  mapR (MultiResponse.config_layer layers) (MultiResponse.names self)
    = Ok ((λ pn : Provider.t * string, provider_layer E pn.1 pn.2) <$> providers) →
  let zoom := Coordinate.zoom (MultiResponse.coord self) in
  (∀ call w',
     MultiResponse.save E layers self format w = (Ok call, w') →
     ∃ feature_layers,
       (call = MultiResponse.oscimap_merge feature_layers (MultiResponse.coord self) ∨
        call = MultiResponse.mapbox_merge feature_layers (MultiResponse.coord self)) ∧
       fst <$> feature_layers = snd <$> providers ∧
       Forall (λ pn : Provider.t * string,
                 ∃ geometry,
                   (Provider.renderTile_geometry pn.1 zoom w).1 = Ok (Some geometry) ∧
                   geometry ≠ "")
              providers) ∧
  (∀ pn slot,
     pn ∈ providers →
     (Provider.renderTile_geometry pn.1 zoom w).1 = Ok slot →
     Py.truthy_str slot = false →
     is_ok (MultiResponse.save E layers self format w).1 = false).
Proof.
  intros Hformat Hlayers zoom.
  assert (Hfirst : ∀ call w',
            MultiResponse.save E layers self format w = (Ok call, w') →
            ∃ feature_layers,
              (call = MultiResponse.oscimap_merge feature_layers (MultiResponse.coord self) ∨
               call = MultiResponse.mapbox_merge feature_layers (MultiResponse.coord self)) ∧
              fst <$> feature_layers = snd <$> providers ∧
              Forall (λ pn : Provider.t * string,
                        ∃ geometry,
                          (Provider.renderTile_geometry pn.1 zoom w).1
                            = Ok (Some geometry) ∧ geometry ≠ "")
                     providers).
  { intros call w' Hrun. unfold MultiResponse.save in Hrun.
    destruct Hformat as [-> | ->]; cbn [String.eqb Ascii.eqb Bool.eqb] in Hrun;
      rewrite bind_run in Hrun; unfold lift at 1 in Hrun; rewrite Hlayers in Hrun;
      apply bind_Ok_inv in Hrun as (fl & w1 & Hloop & Hret);
      injection Hret as <- _;
      apply (save_layers_providers_from E _ _ w) in Hloop as [Hnames Hall];
      exists fl; (split; [auto|]); split; [exact Hnames|exact Hall|exact Hnames|exact Hall]. }
  split; [exact Hfirst|].
  intros pn slot Hin Hslot Hfalse.
  destruct (MultiResponse.save E layers self format w) as [[call|e] w'] eqn:Hrun;
    [|reflexivity].
  exfalso. destruct (Hfirst call w' eq_refl) as (fl & _ & _ & Hall).
  rewrite Forall_forall in Hall. destruct (Hall pn Hin) as (g & Hg & Hne).
  rewrite Hslot in Hg. injection Hg as ->.
  cbn in Hfalse. apply negb_false_iff, String.eqb_eq in Hfalse. contradiction.
Qed.

Lemma MultiResponse_save_providers_witness :
  let layers : gmap string Layer.t :=
    {[ "roads" := provider_layer quiet_env (demo_provider [None] 16 ∅) "roads" ]} in
  is_ok (MultiResponse.save quiet_env layers (demo_multi ["roads"]) "Mapbox"
           empty_world).1 = false.
Proof.
  intros layers.
  destruct (MultiResponse_save_providers quiet_env layers (demo_multi ["roads"]) "Mapbox"
              [(demo_provider [None] 16 ∅, "roads")] empty_world) as [_ H].
  - right. reflexivity.
  - reflexivity.
  - apply (H (demo_provider [None] 16 ∅, "roads") None).
    + apply list_elem_of_singleton. reflexivity.
    + reflexivity.
    + reflexivity.
Defined.
